(** * proj_facts_mcp: the knowledge store and its relevance engine

    A shallow embedding of [src/utils/facts-manager.ts],
    [src/utils/file-manager.ts] and the three tool classes
    ([how-to-solve.ts], [record-insight.ts], [init-facts-system.ts]).

    - JavaScript strings are sequences of UTF-16 code units ([list N]).
    - Relevance scores are IEEE doubles in the source; they are modelled
      as exact rationals ([Q]).
    - [async] methods are sequential: they are modelled in a state and
      exception monad over the state of the injected [IFileManager]. *)

From Stdlib Require Import NArith ZArith QArith Qminmax Lia Bool.
From Stdlib Require Import Strings.String Strings.Ascii.
From Stdlib Require Import Numbers.DecimalString Numbers.HexadecimalString.
From Stdlib Require Import Sorting.Sorted.
From stdpp Require Import base option list gmap.

Set Default Proof Using "Type".

(* ===================================================================== *)
(** ** JavaScript strings                                                 *)
(* ===================================================================== *)

Module JsString.

(** A JavaScript string: its UTF-16 code units. *)
Abbreviation jsstring := (list N).

(** *** Literals

    Source literals are written as UTF-8 Rocq strings and converted to
    UTF-16 code units, so that the templates of the source can be read
    next to it. *)

Fixpoint bytes_of_string (s : string) : list N :=
  match s with
  | EmptyString => []
  | String a r => N_of_ascii a :: bytes_of_string r
  end.

(** Continuation bits of a UTF-8 byte. *)
Definition cont (b : N) : N := N.land b 63.

Fixpoint utf8_decode (bs : list N) : list N :=
  match bs with
  | [] => []
  | b :: r1 =>
      if (b <? 128)%N then b :: utf8_decode r1
      else match r1 with
      | [] => [b]
      | c1 :: r2 =>
          if (b <? 224)%N then
            (N.shiftl (N.land b 31) 6 + cont c1)%N :: utf8_decode r2
          else match r2 with
          | [] => [b]
          | c2 :: r3 =>
              if (b <? 240)%N then
                (N.shiftl (N.land b 15) 12 + N.shiftl (cont c1) 6 + cont c2)%N
                  :: utf8_decode r3
              else match r3 with
              | [] => [b]
              | c3 :: r4 =>
                  (N.shiftl (N.land b 7) 18 + N.shiftl (cont c1) 12
                   + N.shiftl (cont c2) 6 + cont c3)%N :: utf8_decode r4
              end
          end
      end
  end.

(** One code point as one or two UTF-16 code units. *)
Definition utf16_units (cp : N) : list N :=
  if (cp <? 65536)%N then [cp]
  else let v := (cp - 65536)%N in
       [(55296 + N.shiftr v 10)%N; (56320 + N.land v 1023)%N].

Definition js (s : string) : jsstring :=
  flat_map utf16_units (utf8_decode (bytes_of_string s)).
#[global] Arguments js : simpl never.

(** *** Character classes *)

(** [\s] of a regular expression, which is also what [trim] strips:
    white space and line terminators. *)
Definition is_space (c : N) : bool :=
  ((9 <=? c) && (c <=? 13) || (c =? 32) || (c =? 160) || (c =? 5760)
   || (8192 <=? c) && (c <=? 8202) || (c =? 8232) || (c =? 8233)
   || (c =? 8239) || (c =? 8287) || (c =? 12288) || (c =? 65279))%N.

(** [^] under the [m] flag matches after a line terminator. *)
Definition is_line_terminator (c : N) : bool :=
  ((c =? 10) || (c =? 13) || (c =? 8232) || (c =? 8233))%N.

(** [\w] of a regular expression without the [u] flag. *)
Definition is_word (c : N) : bool :=
  ((97 <=? c) && (c <=? 122) || (65 <=? c) && (c <=? 90)
   || (48 <=? c) && (c <=? 57) || (c =? 95))%N.

(** The class [[a-zA-Z0-9一-龥]]. *)
Definition is_alnum_cjk (c : N) : bool :=
  ((97 <=? c) && (c <=? 122) || (65 <=? c) && (c <=? 90)
   || (48 <=? c) && (c <=? 57) || (19968 <=? c) && (c <=? 40869))%N.

(** *** String methods *)

Definition eqb_str (a b : jsstring) : bool := bool_decide (a = b).

(** [s.startsWith(p)] *)
Fixpoint startsWith (s p : jsstring) {struct p} : bool :=
  match p, s with
  | [], _ => true
  | _ :: _, [] => false
  | b :: p', a :: s' => (a =? b)%N && startsWith s' p'
  end.

(** [s.includes(w)] *)
Fixpoint includes (s w : jsstring) : bool :=
  startsWith s w ||
  match s with
  | [] => false
  | _ :: s' => includes s' w
  end.

(** [s.endsWith(p)] *)
Definition endsWith (s p : jsstring) : bool :=
  startsWith (rev s) (rev p).

(** [s.trim()] *)
Fixpoint trimStart (s : jsstring) : jsstring :=
  match s with
  | [] => []
  | c :: r => if is_space c then trimStart r else s
  end.

Definition trimEnd (s : jsstring) : jsstring := rev (trimStart (rev s)).

Definition trim (s : jsstring) : jsstring := trimEnd (trimStart s).

(** [s.substring(0, n)] *)
Definition substring0 (n : nat) (s : jsstring) : jsstring := take n s.

(** [s.split(c)] for a one-unit separator [c]: the pieces between the
    occurrences of [c]; never empty. *)
Fixpoint split_on (c : N) (s : jsstring) : list jsstring :=
  match s with
  | [] => [[]]
  | a :: r =>
      if (a =? c)%N then [] :: split_on c r
      else match split_on c r with
           | [] => [[a]]
           | t :: ts => (a :: t) :: ts
           end
  end.

(** [s.split(/\s+/)]: the pieces between the maximal runs of white space.
    [after_space] tells that the previous unit was white space, so that a
    run separates once. *)
Fixpoint split_ws_aux (after_space : bool) (s : jsstring) : list jsstring :=
  match s with
  | [] => [[]]
  | a :: r =>
      if is_space a then
        if after_space then split_ws_aux true r
        else [] :: split_ws_aux true r
      else match split_ws_aux false r with
           | [] => [[a]]
           | t :: ts => (a :: t) :: ts
           end
  end.

Definition split_ws (s : jsstring) : list jsstring := split_ws_aux false s.

(** [l.join(sep)] *)
Fixpoint join (sep : jsstring) (l : list jsstring) : jsstring :=
  match l with
  | [] => []
  | [x] => x
  | x :: r => x ++ sep ++ join sep r
  end.

(** [a < b] on strings: code unit by code unit. *)
Fixpoint str_ltb (a b : jsstring) : bool :=
  match a, b with
  | _, [] => false
  | [], _ :: _ => true
  | x :: a', y :: b' =>
      if (x <? y)%N then true
      else if (y <? x)%N then false
      else str_ltb a' b'
  end.

(** A string is truthy when it is not empty. *)
Definition truthy (s : jsstring) : bool :=
  match s with [] => false | _ => true end.

(** [s.replace(c, r)] for one-unit strings [c] and [r]: the first
    occurrence of [c] only. *)
Fixpoint replace_unit (c r : N) (s : jsstring) : jsstring :=
  match s with
  | [] => []
  | a :: t => if (a =? c)%N then r :: t else a :: replace_unit c r t
  end.

(** [`${n}`] for a natural number, and for a length. *)
Definition showN (n : N) : jsstring :=
  js (DecimalString.NilEmpty.string_of_uint (N.to_uint n)).

Definition showNat (n : nat) : jsstring := showN (N.of_nat n).

(** *** 32-bit integers

    The bitwise operators convert their operands with [ToInt32] and
    return a signed 32-bit integer. *)

Definition toInt32 (z : Z) : Z := ((z + 2 ^ 31) mod 2 ^ 32 - 2 ^ 31)%Z.

(** [a << n] for [0 <= n < 32] *)
Definition int32_shl (a n : Z) : Z := toInt32 (Z.shiftl (toInt32 a) n).

(** [a & b] *)
Definition int32_and (a b : Z) : Z := Z.land (toInt32 a) (toInt32 b).

(** [n.toString(16)] on an integer: the digits of its magnitude, after
    the sign when it is negative. *)
Definition toString16 (z : Z) : jsstring :=
  let digits := js (HexadecimalString.NilEmpty.string_of_uint
                      (N.to_hex_uint (Z.to_N (Z.abs z)))) in
  if (z <? 0)%Z then js "-" ++ digits else digits.

(** The double quote, for the literals that hold one. *)
Definition quote : jsstring := [34%N].

End JsString.
Export JsString.

(* ===================================================================== *)
(** ** Effects: storage state and exceptions                              *)
(* ===================================================================== *)

Module Effects.

(** A thrown value: an [Error] with its message, or anything else. *)
Inductive exn :=
  | Error (message : jsstring)
  | NonError.

(** [error instanceof Error ? error.message : 'Unknown error'] *)
Definition errorMessage (e : exn) : jsstring :=
  match e with
  | Error m => m
  | NonError => js "Unknown error"
  end.

Inductive outcome (A : Type) :=
  | Ok (a : A)
  | Throw (e : exn).
Arguments Ok {A} a.
Arguments Throw {A} e.

(** An awaited computation over a state [S]: it returns or throws, and
    the state it leaves is kept in both cases. *)
Definition M (S A : Type) : Type := S -> outcome A * S.

Definition ret {S A} (a : A) : M S A := fun s => (Ok a, s).

Definition throw {S A} (e : exn) : M S A := fun s => (Throw e, s).

Definition bind {S A B} (c : M S A) (k : A -> M S B) : M S B :=
  fun s =>
    match c s with
    | (Ok a, s') => k a s'
    | (Throw e, s') => (Throw e, s')
    end.

(** [try { c } catch (error) { h error }] *)
Definition try_catch {S A} (c : M S A) (h : exn -> M S A) : M S A :=
  fun s =>
    match c s with
    | (Ok a, s') => (Ok a, s')
    | (Throw e, s') => h e s'
    end.

(** A computation over [S] run next to local variables [L]. *)
Definition lift {S L A} (c : M S A) : M (S * L) A :=
  fun '(s, l) =>
    match c s with
    | (o, s') => (o, (s', l))
    end.

(** Update of the local variables. *)
Definition modify_local {S L} (f : L -> L) : M (S * L) unit :=
  fun '(s, l) => (Ok tt, (s, f l)).

(** [c] never throws from state [s]. *)
Definition returns {S A} (c : M S A) (s : S) : Prop :=
  exists a s', c s = (Ok a, s').

(** [c] throws from state [s]. *)
Definition throws {S A} (c : M S A) (s : S) : Prop :=
  exists e s', c s = (Throw e, s').

End Effects.
Export Effects.

Notation "'let*' x ':=' c 'in' k" := (bind c (fun x => k))
  (at level 10, x name, c at level 100, k at level 200).

(* ===================================================================== *)
(** ** The storage abstraction ([core-interfaces.ts])                     *)
(* ===================================================================== *)

(** [IFileManager], over the state [S] of its implementation. *)
Record IFileManager (S : Type) := {
  fm_exists : jsstring -> M S bool;
  fm_readFile : jsstring -> M S jsstring;
  fm_writeFile : jsstring -> jsstring -> M S unit;
  fm_listFiles : jsstring -> M S (list jsstring);
  fm_createDirectory : jsstring -> M S unit
}.
Arguments fm_exists {S} _ _ _.
Arguments fm_readFile {S} _ _ _.
Arguments fm_writeFile {S} _ _ _ _.
Arguments fm_listFiles {S} _ _ _.
Arguments fm_createDirectory {S} _ _ _.

(** [path.join] of two segments, as far as the paths built here need
    it: an empty segment is left out, and a segment that ends with a
    slash takes no second one. The resolution of [.], [..] and doubled
    slashes is not modelled; the project path is [process.cwd()] in the
    server, and the segments joined to it are plain names. *)
Definition slash : N := 47.

Definition pathJoin (a b : jsstring) : jsstring :=
  match a, b with
  | [], _ => b
  | _, [] => a
  | _, _ => if endsWith a [slash] then a ++ b else a ++ slash :: b
  end.

(** The part of a path after its last slash. *)
Definition lastSegment (p : jsstring) : jsstring :=
  match rev (split_on slash p) with
  | [] => []
  | x :: _ => x
  end.

(** [path.dirname], for a path without trailing slash. *)
Definition dirname (p : jsstring) : jsstring :=
  match rev (split_on slash p) with
  | [] => js "."
  | [_] => js "."
  | _ :: r => match join [slash] (rev r) with
              | [] => [slash]
              | d => d
              end
  end.

(** [path.basename(p, ext)], for a path without trailing slash: the
    extension is removed unless it is the whole name. *)
Definition basename (p ext : jsstring) : jsstring :=
  let name := lastSegment p in
  if endsWith name ext && negb (eqb_str name ext)
  then take (length name - length ext) name
  else name.

(* ===================================================================== *)
(** ** [FileManager] ([file-manager.ts])                                  *)
(* ===================================================================== *)

(** The part of Node's [fs.promises] that [FileManager] calls. *)
Record NodeFs (S : Type) := {
  fs_access : jsstring -> M S unit;
  fs_readFile : jsstring -> M S jsstring;
  fs_writeFile : jsstring -> jsstring -> M S unit;
  fs_readdir : jsstring -> M S (list jsstring);
  fs_mkdir_recursive : jsstring -> M S unit
}.
Arguments fs_access {S} _ _ _.
Arguments fs_readFile {S} _ _ _.
Arguments fs_writeFile {S} _ _ _ _.
Arguments fs_readdir {S} _ _ _.
Arguments fs_mkdir_recursive {S} _ _ _.

Module FileManager.
Section FileManager.
Context {S : Type} (fs : NodeFs S).

(** [throw new Error(`${what} ${p}: ${message of error}`)] *)
Definition rethrow {A} (what p : jsstring) (e : exn) : M S A :=
  throw (Error (what ++ p ++ js ": " ++ errorMessage e)).

Definition exists_ (filePath : jsstring) : M S bool :=
  try_catch (let* _ := fs_access fs filePath in ret true)
    (fun _ => ret false).

Definition readFile (filePath : jsstring) : M S jsstring :=
  try_catch (fs_readFile fs filePath)
    (rethrow (js "Failed to read file ") filePath).

Definition createDirectory (dirPath : jsstring) : M S unit :=
  try_catch (fs_mkdir_recursive fs dirPath)
    (rethrow (js "Failed to create directory ") dirPath).

Definition writeFile (filePath content : jsstring) : M S unit :=
  try_catch
    (let dir := dirname filePath in
     let* _ := createDirectory dir in
     fs_writeFile fs filePath content)
    (rethrow (js "Failed to write file ") filePath).

Definition listFiles (directory : jsstring) : M S (list jsstring) :=
  try_catch
    (let* e := exists_ directory in
     if negb e then ret []
     else fs_readdir fs directory)
    (rethrow (js "Failed to list files in ") directory).

Definition fileManager : IFileManager S := {|
  fm_exists := exists_;
  fm_readFile := readFile;
  fm_writeFile := writeFile;
  fm_listFiles := listFiles;
  fm_createDirectory := createDirectory
|}.
End FileManager.
End FileManager.

(* ===================================================================== *)
(** ** An in-memory file tree                                             *)
(* ===================================================================== *)

(** The file tree that stands for the disk: every path that was written
    or created, with its content when it is a file. The directories above
    a path exist with it. *)
Module MemFs.

Inductive node :=
  | File (content : jsstring)
  | Dir.

Abbreviation t := (gmap jsstring node).

Definition empty : t := ∅.

(** [a] is a directory above the path [p]. *)
Definition is_ancestor (a p : jsstring) : bool :=
  startsWith p (a ++ [slash]).

Definition isFile (d : t) (p : jsstring) : bool :=
  match d !! p with
  | Some (File _) => true
  | _ => false
  end.

(** [p] is a directory: created as such, or above some path. *)
Definition isDir (d : t) (p : jsstring) : bool :=
  match d !! p with
  | Some Dir => true
  | Some (File _) => false
  | None => existsb (fun kv => is_ancestor p kv.1) (map_to_list d)
  end.

Definition present (d : t) (p : jsstring) : bool := isFile d p || isDir d p.

(** Some file of the tree is above [p], where a directory would have to
    be. *)
Definition blocked (d : t) (p : jsstring) : bool :=
  existsb (fun kv => match kv.2 with
                     | File _ => is_ancestor kv.1 p
                     | Dir => false
                     end) (map_to_list d).

(** The entries of directory [p]: the first segment, below [p], of every
    path under it, once each. *)
Definition child (p k : jsstring) : option jsstring :=
  if is_ancestor p k
  then head (split_on slash (drop (length p + 1) k))
  else None.

Definition entries (d : t) (p : jsstring) : list jsstring :=
  remove_dups (omap (fun kv => child p kv.1) (map_to_list d)).

Definition enoent (call p : jsstring) : exn :=
  Error (js "ENOENT: no such file or directory, " ++ call ++ js " '" ++ p ++ js "'").
Definition eisdir (call p : jsstring) : exn :=
  Error (js "EISDIR: illegal operation on a directory, " ++ call ++ js " '" ++ p ++ js "'").
Definition enotdir (call p : jsstring) : exn :=
  Error (js "ENOTDIR: not a directory, " ++ call ++ js " '" ++ p ++ js "'").
Definition eexist (call p : jsstring) : exn :=
  Error (js "EEXIST: file already exists, " ++ call ++ js " '" ++ p ++ js "'").

Definition access (p : jsstring) : M t unit :=
  fun d => if present d p then (Ok tt, d) else (Throw (enoent (js "access") p), d).

Definition readFile (p : jsstring) : M t jsstring :=
  fun d =>
    match d !! p with
    | Some (File c) => (Ok c, d)
    | _ => if isDir d p then (Throw (eisdir (js "read") p), d)
           else (Throw (enoent (js "open") p), d)
    end.

Definition mkdir_recursive (p : jsstring) : M t unit :=
  fun d =>
    if isFile d p then (Throw (eexist (js "mkdir") p), d)
    else if blocked d p then (Throw (enotdir (js "mkdir") p), d)
    else if isDir d p then (Ok tt, d)
    else (Ok tt, <[p := Dir]> d).

Definition writeFile (p content : jsstring) : M t unit :=
  fun d =>
    if isDir d p then (Throw (eisdir (js "open") p), d)
    else if blocked d p then (Throw (enotdir (js "open") p), d)
    else if isDir d (dirname p) then (Ok tt, <[p := File content]> d)
    else (Throw (enoent (js "open") p), d).

Definition readdir (p : jsstring) : M t (list jsstring) :=
  fun d =>
    if isFile d p then (Throw (enotdir (js "scandir") p), d)
    else if isDir d p then (Ok (entries d p), d)
    else (Throw (enoent (js "scandir") p), d).

Definition nodeFs : NodeFs t := {|
  fs_access := access;
  fs_readFile := readFile;
  fs_writeFile := writeFile;
  fs_readdir := readdir;
  fs_mkdir_recursive := mkdir_recursive
|}.

(** The [FileManager] of the source over this tree. *)
Definition fileManager : IFileManager t := FileManager.fileManager nodeFs.

End MemFs.

(* ===================================================================== *)
(** ** Data model ([core-interfaces.ts])                                  *)
(* ===================================================================== *)

(** [SearchOptions]: every field is optional. [maxResults] is an integer. *)
Record SearchOptions := {
  maxResults : option Z;
  categories : option (list jsstring);
  minRelevance : option Q
}.

Definition noOptions : SearchOptions :=
  {| maxResults := None; categories := None; minRelevance := None |}.

(** [FactDocument]. The category of a document is what its header gives,
    which may be [undefined] ([None]); [relatedDocs] is only set on the
    results made from commands. *)
Record FactDocument := {
  path : jsstring;
  title : jsstring;
  category : option jsstring;
  relevanceScore : Q;
  summary : jsstring;
  lastUpdated : jsstring;
  relatedDocs : option (list jsstring)
}.

Inductive Category := technical | process | decision | pattern.
Inductive Confidence := high | medium | low.

Definition category_str (c : Category) : jsstring :=
  match c with
  | technical => js "technical"
  | process => js "process"
  | decision => js "decision"
  | pattern => js "pattern"
  end.

Definition confidence_str (c : Confidence) : jsstring :=
  match c with
  | high => js "high"
  | medium => js "medium"
  | low => js "low"
  end.

Record InsightRecord := {
  task : jsstring;
  solution : jsstring;
  reasoning : jsstring;
  evidence : list jsstring;
  insight_category : Category;
  confidence : Confidence
}.

(** [ProjectContext]; the categories are the values of a [Set] in
    insertion order, and a header without category adds [undefined]. *)
Record ProjectContext := {
  currentPath : jsstring;
  hasLocalDocs : bool;
  factCount : nat;
  context_categories : list (option jsstring);
  lastActivity : jsstring
}.

(** A parsed header: the own properties of the [metadata] object. *)
Abbreviation Header := (gmap jsstring jsstring).

(** A directive of the commands file. *)
Record Command := {
  command : jsstring;
  description : jsstring;
  cmd_lastUpdated : jsstring;
  cmd_relatedDocs : list jsstring
}.

(** [IFactsManager], over the state of the storage. *)
Record IFactsManager (S : Type) := {
  fmgr_searchFacts : jsstring -> SearchOptions -> M S (list FactDocument);
  fmgr_recordInsight : InsightRecord -> M S unit;
  fmgr_getProjectContext : M S ProjectContext;
  fmgr_initializeLocalDocs : M S unit
}.
Arguments fmgr_searchFacts {S} _ _ _ _.
Arguments fmgr_recordInsight {S} _ _ _.
Arguments fmgr_getProjectContext {S} _ _.
Arguments fmgr_initializeLocalDocs {S} _ _.

(* ===================================================================== *)
(** ** [FactsManager] ([facts-manager.ts]): the pure part                 *)
(* ===================================================================== *)

Module FactsManager.

(** First index of [w] in [s]. *)
Fixpoint indexOf (s w : jsstring) : option nat :=
  if startsWith s w then Some 0
  else match s with
       | [] => None
       | _ :: r => S <$> indexOf r w
       end.

(** The capture of [/^---\n([\s\S]*?)\n---/]: the opening line, then the
    shortest text up to a line break followed by three dashes. *)
Definition matchFrontMatter (content : jsstring) : option jsstring :=
  if startsWith content (js "---" ++ [10%N]) then
    let rest := drop 4 content in
    i ← indexOf rest (10%N :: js "---");
    Some (take i rest)
  else None.

(** [content.replace(/^---[\s\S]*?---\n/, '')] *)
Definition stripFrontMatter (content : jsstring) : jsstring :=
  if startsWith content (js "---") then
    match indexOf (drop 3 content) (js "---" ++ [10%N]) with
    | Some i => drop (3 + i + 4) content
    | None => content
    end
  else content.

(** [metadata[k] = v] on an object literal: the key [__proto__] reaches
    the prototype setter, which ignores a string. *)
Definition setProperty (metadata : Header) (k v : jsstring) : Header :=
  if eqb_str k (js "__proto__") then metadata else <[k := v]> metadata.

Definition parseHeaderLine (metadata : Header) (line : jsstring) : Header :=
  match split_on 58 line with
  | key :: valueParts =>
      if truthy key && (0 <? length valueParts)%nat then
        let value := trim (join [58%N] valueParts) in
        setProperty metadata (trim key) value
      else metadata
  | [] => metadata
  end.

Definition defaultMetadata : Header :=
  {[ js "category" := js "technical";
     js "created_date" := [];
     js "title" := [] ]}.

Definition parseInsightMetadata (content : jsstring) : Header :=
  match matchFrontMatter content with
  | None => defaultMetadata
  | Some frontMatter =>
      foldl parseHeaderLine ∅ (split_on 10 frontMatter)
  end.

(** [extractSummary] *)
Fixpoint firstMeaningfulLine (lines : list jsstring) : option jsstring :=
  match lines with
  | [] => None
  | line :: r =>
      let trimmed := trim line in
      if (50 <? length trimmed)%nat && negb (startsWith trimmed (js "#"))
      then Some (substring0 200 trimmed
                 ++ (if (200 <? length trimmed)%nat then js "..." else []))
      else firstMeaningfulLine r
  end.

Definition extractSummary (content : jsstring) : jsstring :=
  let withoutFrontMatter := stripFrontMatter content in
  let lines := split_on 10 withoutFrontMatter in
  default (js "No summary available") (firstMeaningfulLine lines).

(** [generateInsightFilename] *)
Definition sanitize (s : jsstring) : jsstring := filter (fun c => Is_true (is_alnum_cjk c)) s.

Definition generateInsightFilename (insight : InsightRecord) : jsstring :=
  let taskPart := substring0 30 (sanitize (task insight)) in
  let solutionPart := substring0 30 (sanitize (solution insight)) in
  taskPart ++ js "_" ++ solutionPart ++ js ".md".

(** [getConfidenceDescription] *)
Definition getConfidenceDescription (confidence : jsstring) : jsstring :=
  if eqb_str confidence (js "high") then js "经过充分验证的可靠方案"
  else if eqb_str confidence (js "medium") then js "基本可行但需要根据情况调整的方案"
  else if eqb_str confidence (js "low") then js "实验性方案，需要进一步验证"
  else js "未评估".

(** [commands.filter]/[split(/^## /m)]: the pieces between the
    occurrences of ["## "] at the start of a line. [bol] tells that the
    position starts a line, [skip] counts the units of a separator that
    are still to be passed. *)
Definition cons_head (a : N) (l : list jsstring) : list jsstring :=
  match l with
  | [] => [[a]]
  | t :: ts => (a :: t) :: ts
  end.

Fixpoint splitH2_aux (bol : bool) (skip : nat) (s : jsstring) : list jsstring :=
  match s with
  | [] => [[]]
  | a :: r =>
      match skip with
      | S k => splitH2_aux false k r
      | O =>
          if bol && startsWith s (js "## ") then [] :: splitH2_aux false 2 r
          else cons_head a (splitH2_aux (is_line_terminator a) 0 r)
      end
  end.

Definition splitH2 (content : jsstring) : list jsstring :=
  splitH2_aux true 0 content.

(** [line.replace(/\*\*(l1|l2)\*\*:\s*/, '')], the labels given with
    their stars and colon: the first occurrence of a label and the white
    space after it are removed. *)
Fixpoint removeLabel (l1 l2 s : jsstring) : jsstring :=
  if startsWith s l1 then trimStart (drop (length l1) s)
  else if startsWith s l2 then trimStart (drop (length l2) s)
  else match s with
       | [] => []
       | a :: r => a :: removeLabel l1 l2 r
       end.

(** The local variables of the loop over the lines of a section. *)
Record SectionFields := {
  sf_description : jsstring;
  sf_relatedDocs : list jsstring;
  sf_lastUpdated : jsstring
}.

Definition parseSectionLine (f : SectionFields) (rawLine : jsstring) : SectionFields :=
  let line := trim rawLine in
  if startsWith line (js "**描述**:") || startsWith line (js "**Description**:") then
    {| sf_description := removeLabel (js "**描述**:") (js "**Description**:") line;
       sf_relatedDocs := sf_relatedDocs f;
       sf_lastUpdated := sf_lastUpdated f |}
  else if startsWith line (js "**相关文档**:") || startsWith line (js "**Related Docs**:") then
    let docsLine := removeLabel (js "**相关文档**:") (js "**Related Docs**:") line in
    {| sf_description := sf_description f;
       sf_relatedDocs := filter (fun d => Is_true (truthy d)) (map trim (split_on 44 docsLine));
       sf_lastUpdated := sf_lastUpdated f |}
  else if startsWith line (js "**更新时间**:") || startsWith line (js "**Last Updated**:") then
    {| sf_description := sf_description f;
       sf_relatedDocs := sf_relatedDocs f;
       sf_lastUpdated := removeLabel (js "**更新时间**:") (js "**Last Updated**:") line |}
  else if negb (startsWith line (js "**")) && truthy line && negb (truthy (sf_description f)) then
    {| sf_description := line;
       sf_relatedDocs := sf_relatedDocs f;
       sf_lastUpdated := sf_lastUpdated f |}
  else f.

(** The name and the fields of one section. *)
Definition sectionName (section : jsstring) : jsstring :=
  match split_on 10 section with
  | l0 :: _ => trim l0
  | [] => []
  end.

Definition sectionFields (section : jsstring) : SectionFields :=
  foldl parseSectionLine
    {| sf_description := []; sf_relatedDocs := []; sf_lastUpdated := [] |}
    (drop 1 (split_on 10 section)).

(** The body of the loop over the sections: the command pushed, if any. *)
Definition parseSection (section : jsstring) : option Command :=
  let command := sectionName section in
  let f := sectionFields section in
  if truthy command && truthy (sf_description f) then
    Some {| command := command;
            description := sf_description f;
            cmd_lastUpdated := sf_lastUpdated f;
            cmd_relatedDocs := sf_relatedDocs f |}
  else None.

Definition commandSections (content : jsstring) : list jsstring :=
  filter (fun s => Is_true (truthy (trim s))) (splitH2 content).

Definition parseUserCommands (content : jsstring) : list Command :=
  omap parseSection (commandSections content).

(* ===================================================================== *)
(** ** [FactsManager]: scoring and the storage operations                 *)
(* ===================================================================== *)

(** [documents.sort((a, b) => b.relevanceScore - a.relevanceScore)]: the
    sort of an array is stable. *)
Fixpoint insertByRelevance (a : FactDocument) (l : list FactDocument) : list FactDocument :=
  match l with
  | [] => [a]
  | b :: r =>
      if Qle_bool (relevanceScore b) (relevanceScore a) then a :: l
      else b :: insertByRelevance a r
  end.

Definition sortByRelevance (l : list FactDocument) : list FactDocument :=
  foldr insertByRelevance [] l.

(** [l.slice(0, n)] for an integer [n]: a negative [n] counts from the
    end. *)
Definition slice0 {A} (n : Z) (l : list A) : list A :=
  if (n <? 0)%Z then take (length l - Z.to_nat (- n)) l
  else take (Z.to_nat n) l.

(** [categories.includes(metadata.category)] *)
Definition includesCategory (categories : list jsstring) (c : option jsstring) : bool :=
  match c with
  | Some c => existsb (eqb_str c) categories
  | None => false
  end.

(** [a || b] on strings, [a] possibly [undefined]. *)
Definition orElse (a : option jsstring) (b : jsstring) : jsstring :=
  match a with
  | Some x => if truthy x then x else b
  | None => b
  end.

(** [set.add(x)] on the values of a [Set] in insertion order. *)
Definition setAdd {A} `{EqDecision A} (l : list A) (x : A) : list A :=
  if bool_decide (x ∈ l) then l else l ++ [x].

(** An entry of the index: [{path, name, lastModified, summary}]. *)
Record FileEntry := {
  fe_path : jsstring;
  fe_name : jsstring;
  fe_lastModified : jsstring;
  fe_summary : jsstring
}.

(** [new Date(0).toISOString()] *)
Definition epoch : jsstring := js "1970-01-01T00:00:00.000Z".

Section Runtime.
(** [String.prototype.toLowerCase], the clock ([new Date().toISOString()],
    taken as one instant during an operation) and [process.cwd()]. *)
Variable toLowerCase : jsstring -> jsstring.
Variable now : jsstring.
Variable cwd : jsstring.

(** *** [calculateRelevance], signal by signal *)

Definition titleSignal (queryLower : jsstring) (metadata : Header) : Q :=
  match metadata !! js "title" with
  | Some t => if includes (toLowerCase t) queryLower then 0.4 else 0
  | None => 0
  end.

Definition wordMatches (word : jsstring) (contentWords : list jsstring) : bool :=
  existsb (fun contentWord => includes contentWord word || includes word contentWord)
    contentWords.

Definition matchingWords (queryWords contentWords : list jsstring) : list jsstring :=
  filter (fun word => Is_true (wordMatches word contentWords)) queryWords.

Definition ratio (a b : nat) : Q := inject_Z (Z.of_nat a) / inject_Z (Z.of_nat b).

Definition wordSignal (queryLower contentLower : jsstring) : Q :=
  let queryWords := split_ws queryLower in
  let contentWords := split_ws contentLower in
  ratio (length (matchingWords queryWords contentWords)) (length queryWords) * 0.4.

Definition categorySignal (queryLower : jsstring) (metadata : Header) : Q :=
  match metadata !! js "category" with
  | Some c => if truthy c && includes queryLower c then 0.1 else 0
  | None => 0
  end.

(** The values of a parsed header are strings, so [tags] is made the
    one-element array. *)
Definition tagSignal (queryLower : jsstring) (metadata : Header) : Q :=
  match metadata !! js "tags" with
  | Some t =>
      if truthy t then
        let tags := [t] in
        let tagMatches :=
          filter (fun tag => Is_true (includes queryLower (toLowerCase tag)
                                      || includes (toLowerCase tag) queryLower)) tags in
        ratio (length tagMatches) (Nat.max (length tags) 1) * 0.1
      else 0
  | None => 0
  end.

Definition calculateRelevance (query content : jsstring) (metadata : Header) : Q :=
  let queryLower := toLowerCase query in
  let contentLower := toLowerCase content in
  let score := 0%Q in
  let score := (score + titleSignal queryLower metadata)%Q in
  let score := (score + wordSignal queryLower contentLower)%Q in
  let score := (score + categorySignal queryLower metadata)%Q in
  let score := (score + tagSignal queryLower metadata)%Q in
  Qmin score 1.

(** *** [formatInsightContent] *)

Definition datePart (iso : jsstring) : jsstring :=
  match split_on 84 iso with
  | d :: _ => d
  | [] => []
  end.

Definition evidenceLines (evidence : list jsstring) : jsstring :=
  let joined := join [10%N] (map (fun e => js "- " ++ e) evidence) in
  if truthy joined then joined else js "- 暂无额外证据".

Definition formatInsightContent (insight : InsightRecord) : jsstring :=
  let timestamp := datePart now in
  let category := category_str (insight_category insight) in
  let confidence := confidence_str (confidence insight) in
  join [10%N] [
    js "---";
    js "category: " ++ category;
    js "confidence: " ++ confidence;
    js "created_date: " ++ timestamp;
    js "tags: [" ++ category ++ js "]";
    js "related_files: []";
    js "---";
    [];
    js "# " ++ task insight ++ js " - 解决方案洞察";
    [];
    js "## 🎯 问题描述";
    task insight;
    [];
    js "## 💡 解决方案";
    solution insight;
    [];
    js "## 🤔 解决思路 (Reasoning)";
    reasoning insight;
    [];
    js "## 📋 支持证据";
    evidenceLines (evidence insight);
    [];
    js "## 📊 验证结果";
    js "*待补充具体的验证结果和效果指标*";
    [];
    js "## ⚠️ 注意事项";
    js "- **置信度**: " ++ confidence;
    js "- **适用场景**: 需要根据具体情况评估适用性";
    js "- **风险点**: *待补充实施过程中需要注意的风险*";
    [];
    js "## 🔄 可复用性";
    js "**类似问题**: *这个方案可以应用到哪些类似问题*";
    js "**关键模式**: *可以抽取出的通用模式或原则*";
    [];
    js "---";
    js "*记录时间: " ++ now ++ js "*  ";
    js "*置信度: " ++ confidence ++ js " - " ++ getConfidenceDescription confidence ++ js "*"
  ].

(** *** The index: [extractTechKeywords] and [generateKnowledgeContent] *)

Definition techTerms : list jsstring := [
  js "React"; js "Vue"; js "Angular"; js "Node.js"; js "TypeScript";
  js "JavaScript"; js "Python"; js "Java"; js "Go"; js "Rust";
  js "Docker"; js "Kubernetes"; js "AWS"; js "Azure"; js "GCP";
  js "MySQL"; js "PostgreSQL"; js "MongoDB"; js "Redis";
  js "GraphQL"; js "REST"; js "API"; js "JWT";
  js "认证"; js "性能"; js "优化"; js "架构"; js "设计"; js "测试"; js "部署";
  js "数据库"; js "缓存"; js "网络"; js "安全"; js "监控"; js "日志";
  js "CI/CD"; js "DevOps"
].

(** The test of both loops of [extractTechKeywords]. *)
Definition mentions (fileName term : jsstring) : bool :=
  includes (toLowerCase fileName) (toLowerCase term) || includes fileName term.

Definition extractTechKeywords (fileNames : list jsstring) : list jsstring :=
  let keywords :=
    foldl (fun keywords fileName =>
      foldl (fun keywords term =>
        if mentions fileName term then setAdd keywords term else keywords)
        keywords techTerms)
      [] fileNames in
  map (fun k =>
    k ++ js "(" ++ showNat (length (filter (fun f => Is_true (mentions f k)) fileNames))
      ++ js ")")
    keywords.

Definition entryLine (file : FileEntry) : jsstring :=
  let dateStr := datePart (fe_lastModified file) in
  js "- `" ++ fe_name file ++ js "` - " ++ fe_summary file
    ++ js " (最后修改：" ++ dateStr ++ js ")".

(** [timestamp.replace('T', ' ').split('.')[0]] *)
Definition secondsPart (timestamp : jsstring) : jsstring :=
  match split_on 46 (replace_unit 84 32 timestamp) with
  | d :: _ => d
  | [] => []
  end.

(** The context is a parameter of the source function that its text does
    not use. *)
Definition generateKnowledgeContent (solutionFiles docFiles : list FileEntry)
    (context : ProjectContext) : jsstring :=
  let timestamp := now in
  let allFileNames := map fe_name solutionFiles ++ map fe_name docFiles in
  let techKeywords := extractTechKeywords allFileNames in
  join [10%N] [
    js "---";
    js "auto_generated: true  ";
    js "last_updated: " ++ timestamp;
    js "total_solutions: " ++ showNat (length solutionFiles);
    js "total_docs: " ++ showNat (length docFiles);
    js "total_documents: " ++ showNat (length solutionFiles + length docFiles);
    js "---";
    [];
    js "# 📚 Facts Knowledge Base 导航";
    [];
    js "> ⚠️ 重要提醒：开始任何任务前，必须先查看本导航了解现有知识！";
    [];
    js "## 🔧 Solutions (我解决过的问题) - 共" ++ showNat (length solutionFiles) ++ js "个";
    [];
    (if (0 <? length solutionFiles)%nat
     then join [10%N] (map entryLine solutionFiles)
     else js "*暂无解决方案 - 开始记录你的第一个问题解决过程！*");
    [];
    js "## 📖 Docs (我摘录的原文资料) - 共" ++ showNat (length docFiles) ++ js "个  ";
    [];
    (if (0 <? length docFiles)%nat
     then join [10%N] (map entryLine docFiles)
     else js "*暂无原文摘录 - 开始摘录权威技术资料！*");
    [];
    js "## 🏷️ 技术关键词统计";
    [];
    (if (0 <? length techKeywords)%nat
     then join (js " ") techKeywords
     else js "暂无关键词统计");
    [];
    js "## 🚀 使用指南";
    [];
    js "### 开始新任务前";
    js "1. 使用 `how_to_solve " ++ quote ++ js "你的问题描述" ++ quote ++ js "` 查找相关经验";
    js "2. Agent将分析历史知识并提供解决思路  ";
    js "3. 基于建议开始实施解决方案";
    [];
    js "### 完成任务后";
    js "1. 使用 `record_insight` 记录解决过程和关键发现";
    js "2. 系统自动更新本导航和知识分类";
    js "3. 为未来类似问题积累可搜索的知识";
    [];
    js "---";
    js "*本导航自动更新于：" ++ secondsPart timestamp ++ js "*"
  ].

(** *** Command matching, without the storage *)

Definition commandMatches (queryLower : jsstring) (cmd : Command) : bool :=
  let commandLower := toLowerCase (command cmd) in
  let descLower := toLowerCase (description cmd) in
  let queryWords := split_ws queryLower in
  existsb (fun word =>
    includes commandLower word
    || includes descLower word
    || (2 <? length word)%nat && (includes commandLower word || includes descLower word))
    queryWords.

(** *** The operations on the storage *)

Context {S : Type}.
Variable fileManager : IFileManager S.
Variable projectPath : jsstring.

Definition localDocsPath : jsstring :=
  pathJoin (pathJoin projectPath (js ".bkproj")) (js "facts").
Definition userCommandPath : jsstring :=
  pathJoin localDocsPath (js "USER_COMMAND.md").
Definition solutionsPath : jsstring := pathJoin localDocsPath (js "solutions").
Definition docsPath : jsstring := pathJoin localDocsPath (js "docs").
Definition knowledgePath : jsstring := pathJoin localDocsPath (js "KNOWLEDGE.md").

(** [for (const file of list) if (file.endsWith('.md'))
    files.push(path.join(dir, file))] *)
Definition markdownPaths (dir : jsstring) (names : list jsstring) : list jsstring :=
  map (pathJoin dir) (filter (fun file => Is_true (endsWith file (js ".md"))) names).

(** One of the two blocks of [findInsightFiles], pushing to the local
    array [files]. *)
Definition collectFrom (dir : jsstring) : M (S * list jsstring) unit :=
  let* e := lift (fm_exists fileManager dir) in
  if e then
    let* names := lift (fm_listFiles fileManager dir) in
    modify_local (fun files => files ++ markdownPaths dir names)
  else ret tt.

(** [findInsightFiles]: what was pushed before a failure is returned. *)
Definition findInsightFiles : M S (list jsstring) :=
  fun s =>
    let block :=
      try_catch
        (let* _ := collectFrom solutionsPath in
         collectFrom docsPath)
        (fun _ => ret tt) in
    match block (s, []) with
    | (_, (s', files)) => (Ok files, s')
    end.

(** The body of the loop of [searchFactsInternal] for one file. *)
Definition scanFile (query : jsstring) (categories : list jsstring) (minRelevance : Q)
    (factDocuments : list FactDocument) (filePath : jsstring)
    : M S (list FactDocument) :=
  try_catch
    (let* content := fm_readFile fileManager filePath in
     let metadata := parseInsightMetadata content in
     if includesCategory categories (metadata !! js "category") then
       let relevanceScore := calculateRelevance query content metadata in
       if Qle_bool minRelevance relevanceScore then
         ret (factDocuments ++ [
           {| path := filePath;
              title := orElse (metadata !! js "title") (basename filePath (js ".md"));
              category := metadata !! js "category";
              relevanceScore := relevanceScore;
              summary := extractSummary content;
              lastUpdated := orElse (metadata !! js "created_date") [];
              relatedDocs := None |} ])
       else ret factDocuments
     else ret factDocuments)
    (fun _ => ret factDocuments).

Fixpoint scanFiles (query : jsstring) (categories : list jsstring) (minRelevance : Q)
    (factDocuments : list FactDocument) (files : list jsstring)
    : M S (list FactDocument) :=
  match files with
  | [] => ret factDocuments
  | filePath :: rest =>
      let* factDocuments := scanFile query categories minRelevance factDocuments filePath in
      scanFiles query categories minRelevance factDocuments rest
  end.

Definition defaultCategories : list jsstring :=
  [js "technical"; js "process"; js "decision"; js "pattern"].

Definition searchFactsInternal (query : jsstring) (options : SearchOptions)
    : M S (list FactDocument) :=
  let maxResults := default 10%Z (maxResults options) in
  let categories := default defaultCategories (categories options) in
  let minRelevance := default 0.5%Q (minRelevance options) in
  try_catch
    (let* e := fm_exists fileManager localDocsPath in
     if negb e then ret []
     else
       let* files := findInsightFiles in
       let* factDocuments := scanFiles query categories minRelevance [] files in
       ret (slice0 maxResults (sortByRelevance factDocuments)))
    (fun _ => ret []).

Definition getUserCommands (query : jsstring) : M S (list Command) :=
  try_catch
    (let* e := fm_exists fileManager userCommandPath in
     if negb e then ret []
     else
       let* content := fm_readFile fileManager userCommandPath in
       let commands := parseUserCommands content in
       let queryLower := toLowerCase query in
       ret (filter (fun cmd => Is_true (commandMatches queryLower cmd)) commands))
    (fun _ => ret []).

(** The search result made from a command. *)
Definition commandFact (cmd : Command) : FactDocument :=
  {| path := userCommandPath;
     title := js "项目指令: " ++ command cmd;
     category := Some (js "command");
     relevanceScore := 1;
     summary := description cmd;
     lastUpdated := cmd_lastUpdated cmd;
     relatedDocs := Some (cmd_relatedDocs cmd) |}.

Definition searchFacts (query : jsstring) (options : SearchOptions)
    : M S (list FactDocument) :=
  let* userCommands := getUserCommands query in
  if (0 <? length userCommands)%nat then
    let commandFacts := map commandFact userCommands in
    let* normalFacts := searchFactsInternal query options in
    ret (commandFacts ++ normalFacts)
  else searchFactsInternal query options.

(** The body of the loop of [getProjectContext] for one file, on the
    local variables [categories] and [lastActivity]. *)
Definition contextFile (acc : list (option jsstring) * jsstring) (filePath : jsstring)
    : M S (list (option jsstring) * jsstring) :=
  try_catch
    (let* content := fm_readFile fileManager filePath in
     let metadata := parseInsightMetadata content in
     let categories := setAdd acc.1 (metadata !! js "category") in
     let created := orElse (metadata !! js "created_date") [] in
     if truthy created && str_ltb acc.2 created
     then ret (categories, created)
     else ret (categories, acc.2))
    (fun _ => ret acc).

Fixpoint contextFiles (acc : list (option jsstring) * jsstring) (files : list jsstring)
    : M S (list (option jsstring) * jsstring) :=
  match files with
  | [] => ret acc
  | filePath :: rest =>
      let* acc := contextFile acc filePath in
      contextFiles acc rest
  end.

Definition getProjectContext : M S ProjectContext :=
  try_catch
    (let* hasLocalDocs := fm_exists fileManager localDocsPath in
     if negb hasLocalDocs then
       ret {| currentPath := cwd; hasLocalDocs := false; factCount := 0;
              context_categories := []; lastActivity := now |}
     else
       let* files := findInsightFiles in
       let* acc := contextFiles ([], epoch) files in
       ret {| currentPath := cwd; hasLocalDocs := true;
              factCount := length files;
              context_categories := acc.1;
              lastActivity := if eqb_str acc.2 epoch then now else acc.2 |})
    (fun error =>
       throw (Error (js "Failed to get project context: " ++ errorMessage error))).

Definition initializeLocalDocs : M S unit :=
  try_catch
    (let* _ := fm_createDirectory fileManager localDocsPath in
     let* _ := fm_createDirectory fileManager (pathJoin localDocsPath (js "solutions")) in
     fm_createDirectory fileManager (pathJoin localDocsPath (js "docs")))
    (fun error =>
       throw (Error (js "Failed to initialize local docs: " ++ errorMessage error))).

(** The loop of [getSolutionFiles] and [getDocFiles] over the names of
    a directory; a file that cannot be read is left out. *)
Fixpoint readEntries (dir : jsstring) (names : list jsstring) (files : list FileEntry)
    : M S (list FileEntry) :=
  match names with
  | [] => ret files
  | fileName :: rest =>
      if endsWith fileName (js ".md") then
        let filePath := pathJoin dir fileName in
        let* files :=
          try_catch
            (let* content := fm_readFile fileManager filePath in
             ret (files ++ [ {| fe_path := filePath; fe_name := fileName;
                                fe_lastModified := now;
                                fe_summary := extractSummary content |} ]))
            (fun _ => ret files) in
        readEntries dir rest files
      else readEntries dir rest files
  end.

(** [getSolutionFiles] and [getDocFiles] differ by the directory. All
    entries carry the same [lastModified], so the final sort on it,
    being stable, keeps their order. *)
Definition getFilesOf (dir : jsstring) : M S (list FileEntry) :=
  try_catch
    (let* e := fm_exists fileManager dir in
     if e then
       let* fileList := fm_listFiles fileManager dir in
       readEntries dir fileList []
     else ret [])
    (fun _ => ret []).

Definition getSolutionFiles : M S (list FileEntry) := getFilesOf solutionsPath.
Definition getDocFiles : M S (list FileEntry) := getFilesOf docsPath.

Definition updateKnowledge : M S unit :=
  try_catch
    (let* context := getProjectContext in
     let* solutionFiles := getSolutionFiles in
     let* docFiles := getDocFiles in
     let knowledgeContent := generateKnowledgeContent solutionFiles docFiles context in
     fm_writeFile fileManager knowledgePath knowledgeContent)
    (fun _ => ret tt).

Definition insightPath (insight : InsightRecord) : jsstring :=
  pathJoin (pathJoin localDocsPath (js "solutions")) (generateInsightFilename insight).

Definition recordInsight (insight : InsightRecord) : M S unit :=
  try_catch
    (let filePath := insightPath insight in
     let content := formatInsightContent insight in
     let* _ := fm_writeFile fileManager filePath content in
     updateKnowledge)
    (fun error =>
       throw (Error (js "Failed to record insight: " ++ errorMessage error))).

(** The class as an [IFactsManager]. *)
Definition factsManager : IFactsManager S := {|
  fmgr_searchFacts := searchFacts;
  fmgr_recordInsight := recordInsight;
  fmgr_getProjectContext := getProjectContext;
  fmgr_initializeLocalDocs := initializeLocalDocs
|}.

End Runtime.

(** [String.prototype.toLowerCase] on the strings whose cased letters are
    the ASCII ones, used where the development runs the code. *)
Definition asciiLower (s : jsstring) : jsstring :=
  map (fun c => if (65 <=? c)%N && (c <=? 90)%N then (c + 32)%N else c) s.

End FactsManager.

(* ===================================================================== *)
(** ** The tool layer                                                     *)
(* ===================================================================== *)

(** The values that cross the tool boundary: arguments and results. *)
#[local] Set Warnings "-register-all".
Inductive JsValue :=
  | JUndefined
  | JNull
  | JBool (b : bool)
  | JNum (q : Q)
  | JStr (s : jsstring)
  | JArr (items : list JsValue)
  | JObj (fields : list (jsstring * JsValue)).

Module Tools.

(** [o[k]] on the own properties of an object. *)
Fixpoint getField (fields : list (jsstring * JsValue)) (k : jsstring) : JsValue :=
  match fields with
  | [] => JUndefined
  | (k', v) :: r => if eqb_str k k' then v else getField r k
  end.

Definition JStrs (l : list jsstring) : JsValue := JArr (map JStr l).

Definition JNat (n : nat) : JsValue := JNum (inject_Z (Z.of_nat n)).

(** *** The schemas of zod, as far as the three tools use them: each
    returns the parsed value, or [None] for an issue. *)

Definition zString (v : JsValue) : option jsstring :=
  match v with JStr s => Some s | _ => None end.

Definition zBoolean (v : JsValue) : option bool :=
  match v with JBool b => Some b | _ => None end.

Definition zArrayOfString (v : JsValue) : option (list jsstring) :=
  match v with JArr l => mapM zString l | _ => None end.

Definition zOptional {A} (schema : JsValue -> option A) (v : JsValue)
    : option (option A) :=
  match v with
  | JUndefined => Some None
  | _ => Some <$> schema v
  end.

(** [schema.optional().default(d)] *)
Definition zDefault {A} (d : A) (schema : JsValue -> option A) (v : JsValue)
    : option A :=
  match v with
  | JUndefined => Some d
  | _ => schema v
  end.

Definition zConfidence (v : JsValue) : option Confidence :=
  match v with
  | JStr s =>
      if eqb_str s (js "high") then Some high
      else if eqb_str s (js "medium") then Some medium
      else if eqb_str s (js "low") then Some low
      else None
  | _ => None
  end.

Definition zCategory (v : JsValue) : option Category :=
  match v with
  | JStr s =>
      if eqb_str s (js "technical") then Some technical
      else if eqb_str s (js "process") then Some process
      else if eqb_str s (js "decision") then Some decision
      else if eqb_str s (js "pattern") then Some pattern
      else None
  | _ => None
  end.

(** The keys of an object schema whose values raise an issue. *)
Definition issueOf {A} (k : jsstring) (r : option A) : list jsstring :=
  match r with Some _ => [] | None => [k] end.

(** The failure envelope of the three [catch] blocks. *)
Definition failure (what : jsstring) (error : exn) (currentTime : jsstring) : JsValue :=
  JObj [ (js "success", JBool false);
         (js "message", JStr (what ++ errorMessage error));
         (js "data", JNull);
         (js "timestamp", JStr currentTime) ].

(** [{success, message, data, timestamp}] with a boolean, a string, an
    object or [null], and a string. *)
Definition isEnvelope (v : JsValue) : bool :=
  match v with
  | JObj fields =>
      match getField fields (js "success"), getField fields (js "message"),
            getField fields (js "data"), getField fields (js "timestamp") with
      | JBool _, JStr _, (JNull | JObj _), JStr _ => true
      | _, _, _, _ => false
      end
  | _ => false
  end.

(** [ToBoolean] *)
Definition toBoolean (v : JsValue) : bool :=
  match v with
  | JUndefined | JNull => false
  | JBool b => b
  | JNum q => negb (Qeq_bool q 0)
  | JStr s => truthy s
  | JArr _ | JObj _ => true
  end.

Definition successOf (v : JsValue) : option bool :=
  match v with
  | JObj fields => zBoolean (getField fields (js "success"))
  | _ => None
  end.

Section Tools.
Variable toLowerCase : jsstring -> jsstring.
Variable now : jsstring.
(** [Date.now()], the clock in milliseconds. *)
Variable dateNow : N.
Variable cwd : jsstring.
(** The message of a [ZodError], from the keys with an issue. *)
Variable zodMessage : list jsstring -> jsstring.

Context {S : Type}.
Variable factsManager : IFactsManager S.
Variable fileManager : IFileManager S.

(** [Schema.parse(args)]: the value, or a [ZodError] thrown. *)
Definition zodParse {A} (r : list jsstring + A) : M S A :=
  match r with
  | inr a => ret a
  | inl issues => throw (Error (zodMessage issues))
  end.

(** *** [HowToSolveTool] *)

Record HowToSolveInput := {
  problem : jsstring;
  context : option jsstring;
  constraints : option (list jsstring);
  priority : Confidence
}.

Definition HowToSolveInputSchema (args : JsValue) : list jsstring + HowToSolveInput :=
  match args with
  | JObj fields =>
      let p := zString (getField fields (js "problem")) in
      let c := zOptional zString (getField fields (js "context")) in
      let k := zOptional zArrayOfString (getField fields (js "constraints")) in
      let y := zDefault medium zConfidence (getField fields (js "priority")) in
      match p, c, k, y with
      | Some p, Some c, Some k, Some y =>
          inr {| problem := p; context := c; constraints := k; priority := y |}
      | _, _, _, _ =>
          inl (issueOf (js "problem") p ++ issueOf (js "context") c
               ++ issueOf (js "constraints") k ++ issueOf (js "priority") y)
      end
  | _ => inl [[]]
  end.

Inductive Complexity := simple | moderate | complex.

Definition complexity_str (c : Complexity) : jsstring :=
  match c with
  | simple => js "simple"
  | moderate => js "moderate"
  | complex => js "complex"
  end.

Definition analyzeProblemComplexity (problem : jsstring) (constraints : list jsstring)
    : Complexity :=
  let kw_complex := [js "architecture"; js "system"; js "integration";
                     js "multiple"; js "distributed"; js "scalability"] in
  let kw_moderate := [js "implement"; js "design"; js "optimize";
                      js "refactor"; js "connect"] in
  let problemLower := toLowerCase problem in
  let constraintCount := length constraints in
  if (3 <? constraintCount)%nat || existsb (includes problemLower) kw_complex
  then complex
  else if (1 <? constraintCount)%nat || existsb (includes problemLower) kw_moderate
  then moderate
  else simple.

Definition determineAgentType (complexity : Complexity) (priority : Confidence) : jsstring :=
  js "facts-manager".

Definition factSummary (fact : FactDocument) : JsValue :=
  JObj [ (js "title", JStr (title fact));
         (js "category", from_option JStr JUndefined (category fact));
         (js "relevance_score", JNum (relevanceScore fact));
         (js "summary", JStr (summary fact));
         (js "path", JStr (path fact)) ].

(** The [try] block of [HowToSolveTool.execute]. *)
Definition howToSolveBody (input : HowToSolveInput) (currentTime : jsstring)
    : M S JsValue :=
  let* projectContext := fmgr_getProjectContext factsManager in
  let* relevantFacts :=
    fmgr_searchFacts factsManager (problem input)
      {| maxResults := Some 10%Z;
         categories := Some [js "technical"; js "process"; js "pattern"];
         minRelevance := Some 0.6%Q |} in
  let constraints := default [] (constraints input) in
  let problemComplexity := analyzeProblemComplexity (problem input) constraints in
  let recommendedAgentType := determineAgentType problemComplexity (priority input) in
  ret (JObj [
    (js "success", JBool true);
    (js "message", JStr (js "Found " ++ showNat (length relevantFacts)
                         ++ js " relevant insights for problem analysis"));
    (js "data", JObj [
      (js "agent_type", JStr recommendedAgentType);
      (js "agent_prompt", JStr (js "agents/" ++ recommendedAgentType ++ js ".md"));
      (js "context_data", JObj [
        (js "original_problem", JStr (problem input));
        (js "problem_context", JStr (default [] (context input)));
        (js "constraints", JStrs constraints);
        (js "priority", JStr (confidence_str (priority input)));
        (js "project_context", JObj [
          (js "current_path", JStr (currentPath projectContext));
          (js "has_local_docs", JBool (hasLocalDocs projectContext));
          (js "available_categories",
             JArr (map (from_option JStr JUndefined) (context_categories projectContext))) ]);
        (js "relevant_facts", JArr (map factSummary relevantFacts));
        (js "analysis_metadata", JObj [
          (js "complexity_level", JStr (complexity_str problemComplexity));
          (js "search_results_count", JNat (length relevantFacts));
          (js "timestamp", JStr currentTime) ]) ]) ]);
    (js "nextSteps", JStrs [
      js "Use Task tool to call " ++ recommendedAgentType ++ js " agent with provided context";
      js "Agent will analyze problem and provide solution approach";
      js "Execute recommended solution steps";
      js "Call record_insight tool to capture learnings" ]);
    (js "timestamp", JStr currentTime) ]).

Definition howToSolve (args : JsValue) : M S JsValue :=
  let* input := zodParse (HowToSolveInputSchema args) in
  let currentTime := now in
  try_catch (howToSolveBody input currentTime)
    (fun error => ret (failure (js "Failed to analyze problem: ") error currentTime)).

(** *** [RecordInsightTool] *)

Record RecordInsightInput := {
  ri_task : jsstring;
  ri_solution : jsstring;
  ri_reasoning : jsstring;
  ri_evidence : option (list jsstring);
  ri_category : Category;
  ri_confidence : Confidence;
  ri_tags : option (list jsstring);
  ri_related_files : option (list jsstring)
}.

Definition RecordInsightInputSchema (args : JsValue)
    : list jsstring + RecordInsightInput :=
  match args with
  | JObj fields =>
      let t := zString (getField fields (js "task")) in
      let s := zString (getField fields (js "solution")) in
      let r := zString (getField fields (js "reasoning")) in
      let e := zOptional zArrayOfString (getField fields (js "evidence")) in
      let c := zCategory (getField fields (js "category")) in
      let f := zDefault medium zConfidence (getField fields (js "confidence")) in
      let g := zOptional zArrayOfString (getField fields (js "tags")) in
      let l := zOptional zArrayOfString (getField fields (js "related_files")) in
      match t, s, r, e, c, f, g, l with
      | Some t, Some s, Some r, Some e, Some c, Some f, Some g, Some l =>
          inr {| ri_task := t; ri_solution := s; ri_reasoning := r;
                 ri_evidence := e; ri_category := c; ri_confidence := f;
                 ri_tags := g; ri_related_files := l |}
      | _, _, _, _, _, _, _, _ =>
          inl (issueOf (js "task") t ++ issueOf (js "solution") s
               ++ issueOf (js "reasoning") r ++ issueOf (js "evidence") e
               ++ issueOf (js "category") c ++ issueOf (js "confidence") f
               ++ issueOf (js "tags") g ++ issueOf (js "related_files") l)
      end
  | _ => inl [[]]
  end.

Definition extractTagsFromContent (task solution : jsstring) : list jsstring :=
  let text := toLowerCase (task ++ js " " ++ solution) in
  let commonTags :=
    [js "typescript"; js "javascript"; js "react"; js "node"; js "api";
     js "database"; js "testing"; js "deployment"; js "security";
     js "performance"; js "ui"; js "backend"; js "frontend";
     js "architecture"; js "pattern"; js "bug-fix"; js "feature";
     js "refactor"] in
  filter (fun tag => Is_true (includes text tag)) commonTags.

Definition generateInsightHash (task solution : jsstring) : jsstring :=
  let content := task ++ solution ++ showN dateNow in
  toString16
    (foldl (fun hash char =>
              int32_and (int32_shl hash 5 - hash + Z.of_N char) 4294967295)
       0%Z content).

(** [timestamp] is the clock as [toISOString] printed it, which
    [new Date] reads back to the same instant, so that
    [date.toISOString()] is [timestamp] again. *)
Definition generateFilename (category task timestamp : jsstring) : jsstring :=
  let dateStr := filter (fun c => c <> 45%N) (FactsManager.datePart timestamp) in
  let taskWords :=
    join (js "_")
      (take 3
         (filter (fun word => (3 < length word)%nat)
            (split_on 32
               (filter (fun c => Is_true ((97 <=? c) && (c <=? 122)
                                          || (48 <=? c) && (c <=? 57)
                                          || is_space c)%N)
                  (toLowerCase task))))) in
  js "INSIGHT_" ++ dateStr ++ js "_" ++ category ++ js "_" ++ taskWords ++ js ".md".

(** The matches of [/\b\w{4,}\b/g]: a match starts and ends at a word
    boundary, so it is a maximal run of [\w] units, of length 4 at
    least. [run] is the run that the scan is in. *)
Fixpoint wordRuns (run s : jsstring) : list jsstring :=
  match s with
  | [] => if truthy run then [run] else []
  | c :: r =>
      if is_word c then wordRuns (run ++ [c]) r
      else if truthy run then run :: wordRuns [] r
      else wordRuns [] r
  end.

Definition extractSearchKeywords (task solution : jsstring) : list jsstring :=
  let text := toLowerCase (task ++ js " " ++ solution) in
  let words := filter (fun word => (4 <= length word)%nat) (wordRuns [] text) in
  let stopWords :=
    [js "this"; js "that"; js "with"; js "have"; js "will"; js "from";
     js "they"; js "been"; js "were"; js "said"] in
  let uniqueWords :=
    filter (fun word => word ∉ stopWords) (foldl FactsManager.setAdd [] words) in
  take 10 uniqueWords.

(** The [try] block of [RecordInsightTool.execute]. *)
Definition recordInsightBody (input : RecordInsightInput) (currentTime : jsstring)
    : M S JsValue :=
  let insightRecord :=
    {| task := ri_task input;
       solution := ri_solution input;
       reasoning := ri_reasoning input;
       evidence := default [] (ri_evidence input);
       insight_category := ri_category input;
       confidence := ri_confidence input |} in
  let* projectContext := fmgr_getProjectContext factsManager in
  let tags := match ri_tags input with
              | Some tags => tags
              | None => extractTagsFromContent (ri_task input) (ri_solution input)
              end in
  let hash := generateInsightHash (ri_task input) (ri_solution input) in
  let* _ := fmgr_recordInsight factsManager insightRecord in
  let category := category_str (ri_category input) in
  let confidence := confidence_str (ri_confidence input) in
  let suggestedFilename := generateFilename category (ri_task input) currentTime in
  ret (JObj [
    (js "success", JBool true);
    (js "message", JStr (js "Successfully recorded " ++ category ++ js " insight"));
    (js "data", JObj [
      (js "insight_id", JStr hash);
      (js "category", JStr category);
      (js "confidence", JStr confidence);
      (js "suggested_filename", JStr suggestedFilename);
      (js "tags", JStrs tags);
      (js "storage_location", JStr (js "local_docs/" ++ suggestedFilename));
      (js "search_keywords",
         JStrs (extractSearchKeywords (ri_task input) (ri_solution input))) ]);
    (js "nextSteps", JStrs [
      js "Insight has been recorded in local knowledge base";
      js "Consider reviewing related insights for patterns";
      js "Update project documentation if this represents a significant learning" ]);
    (js "timestamp", JStr currentTime);
    (js "metadata", JObj [
      (js "project_context", JObj [
        (js "current_path", JStr (currentPath projectContext));
        (js "total_facts", JNat (factCount projectContext + 1)) ]);
      (js "categorization", JObj [
        (js "primary_category", JStr category);
        (js "auto_tags", JStrs tags);
        (js "confidence_level", JStr confidence) ]) ]) ]).

Definition recordInsightTool (args : JsValue) : M S JsValue :=
  let* input := zodParse (RecordInsightInputSchema args) in
  let currentTime := now in
  try_catch (recordInsightBody input currentTime)
    (fun error => ret (failure (js "Failed to record insight: ") error currentTime)).

(** *** [InitFactsSystemTool] *)

Record InitFactsSystemInput := {
  project_path : option jsstring;
  enable_auto_capture : bool
}.

Definition InitFactsSystemInputSchema (args : JsValue)
    : list jsstring + InitFactsSystemInput :=
  match args with
  | JObj fields =>
      let p := zOptional zString (getField fields (js "project_path")) in
      let a := zDefault true zBoolean (getField fields (js "enable_auto_capture")) in
      match p, a with
      | Some p, Some a => inr {| project_path := p; enable_auto_capture := a |}
      | _, _ => inl (issueOf (js "project_path") p
                     ++ issueOf (js "enable_auto_capture") a)
      end
  | _ => inl [[]]
  end.

(** The texts written at initialisation: [generateKnowledgeContent()],
    [generateUserCommandTemplate()], [getAgentTemplate(name)],
    [generateClaudeMdContent(flag)] and [generateInsightTemplate()].
    They are templates that the tool writes and never reads; the tool
    is taken over any such texts. *)
Variable knowledgeTemplate : jsstring.
Variable userCommandTemplate : jsstring.
Variable getAgentTemplate : jsstring -> jsstring.
Variable generateClaudeMdContent : bool -> jsstring.
Variable insightTemplate : jsstring.

Definition mergeClaudeMdContent (existingContent newContent : jsstring) : jsstring :=
  if includes existingContent (js "Project Facts Management Integration")
  then existingContent
  else existingContent ++ [10%N; 10%N] ++ newContent.

Fixpoint installAgents (agentsPath : jsstring) (agentFiles : list jsstring) : M S unit :=
  match agentFiles with
  | [] => ret tt
  | agentFile :: rest =>
      let agentContent := getAgentTemplate agentFile in
      let* _ := fm_writeFile fileManager (pathJoin agentsPath agentFile) agentContent in
      installAgents agentsPath rest
  end.

(** The [try] block of [InitFactsSystemTool.execute]. *)
Definition initFactsSystemBody (input : InitFactsSystemInput)
    (projectPath currentTime : jsstring) : M S JsValue :=
  let localDocsPath := pathJoin projectPath (js "local_docs") in
  let* _ := fm_createDirectory fileManager localDocsPath in
  let* _ := fmgr_initializeLocalDocs factsManager in
  let* _ := fm_writeFile fileManager (pathJoin localDocsPath (js "KNOWLEDGE.md"))
              knowledgeTemplate in
  let* _ := fm_writeFile fileManager (pathJoin localDocsPath (js "USER_COMMAND.md"))
              userCommandTemplate in
  let agentsPath := pathJoin projectPath (js "agents") in
  let* _ := fm_createDirectory fileManager agentsPath in
  let agentFiles := [js "facts-manager.md"] in
  let* _ := installAgents agentsPath agentFiles in
  let claudeMdPath := pathJoin projectPath (js "CLAUDE.md") in
  let claudeMdContent := generateClaudeMdContent (enable_auto_capture input) in
  let* present := fm_exists fileManager claudeMdPath in
  let* _ :=
    if present then
      let* existingContent := fm_readFile fileManager claudeMdPath in
      let updatedContent := mergeClaudeMdContent existingContent claudeMdContent in
      fm_writeFile fileManager claudeMdPath updatedContent
    else fm_writeFile fileManager claudeMdPath claudeMdContent in
  let templatesPath := pathJoin localDocsPath (js "templates") in
  let* _ := fm_createDirectory fileManager templatesPath in
  let* _ := fm_writeFile fileManager (pathJoin templatesPath (js "insight-template.md"))
              insightTemplate in
  ret (JObj [
    (js "success", JBool true);
    (js "message", JStr (js "Facts system successfully initialized"));
    (js "data", JObj [
      (js "project_path", JStr projectPath);
      (js "local_docs_path", JStr localDocsPath);
      (js "agents_installed", JNat (length agentFiles));
      (js "claude_md_updated", JBool true);
      (js "auto_capture_enabled", JBool (enable_auto_capture input));
      (js "created_structure", JObj [
        (js ".bkproj/facts/", JStr (js "Main facts storage directory"));
        (js ".bkproj/facts/KNOWLEDGE.md", JStr (js "Auto-maintained facts index"));
        (js ".bkproj/facts/solutions/", JStr (js "Solved problems and solutions"));
        (js ".bkproj/facts/docs/", JStr (js "Excerpted reference materials"));
        (js ".bkproj/facts/templates/",
           JStr (js "Templates for consistent insight format"));
        (js "USER_COMMAND.md", JStr (js "Project-specific commands and requirements"));
        (js "agents/", JStr (js "Local agent prompt templates")) ]) ]);
    (js "nextSteps", JStrs [
      js "Start using `how_to_solve` before tackling any new problem";
      js "Use `record_insight` after completing tasks to build knowledge";
      js "Review local_docs/GUIDELINE.md to understand your growing knowledge base";
      js "Customize agent prompts in agents/ directory for your specific needs" ]);
    (js "timestamp", JStr currentTime);
    (js "metadata", JObj [
      (js "installation_summary", JObj [
        (js "directories_created", JNat 4);
        (js "files_created", JNat (length agentFiles + 3));
        (js "integration_points",
           JStrs [js "CLAUDE.md"; js "MCP tools"; js "local agents"]) ]) ]) ]).

Definition initFactsSystem (args : JsValue) : M S JsValue :=
  let* input := zodParse (InitFactsSystemInputSchema args) in
  let currentTime := now in
  let projectPath := FactsManager.orElse (project_path input) cwd in
  try_catch (initFactsSystemBody input projectPath currentTime)
    (fun error =>
       ret (failure (js "Failed to initialize facts system: ") error currentTime)).

(** *** [FactsMCPServer]: the handler of a tool call *)

(** [JSON.stringify(value, null, 2)] *)
Variable stringify : JsValue -> jsstring.

(** [this.tools], the three tools under their names. *)
Definition tools : list (jsstring * (JsValue -> M S JsValue)) :=
  [ (js "how_to_solve", howToSolve);
    (js "record_insight", recordInsightTool);
    (js "init_facts_system", initFactsSystem) ].

(** [this.tools.get(name)] *)
Fixpoint getTool (name : jsstring) (tools : list (jsstring * (JsValue -> M S JsValue)))
    : option (JsValue -> M S JsValue) :=
  match tools with
  | [] => None
  | (k, tool) :: r => if eqb_str name k then Some tool else getTool name r
  end.

(** [{content: [{type: 'text', text}]}], with [isError: true] after an
    error. *)
Definition textResult (text : jsstring) (isError : bool) : JsValue :=
  let content :=
    (js "content", JArr [JObj [(js "type", JStr (js "text")); (js "text", JStr text)]]) in
  JObj (if isError then [content; (js "isError", JBool true)] else [content]).

(** The handler of [CallToolRequestSchema]. *)
Definition callTool (name : jsstring) (args : JsValue) : M S JsValue :=
  match getTool name tools with
  | None => throw (Error (js "Tool " ++ quote ++ name ++ quote ++ js " not found"))
  | Some tool =>
      try_catch
        (let* result := tool (if toBoolean args then args else JObj []) in
         ret (textResult (stringify result) false))
        (fun error =>
           let errorMessage :=
             match error with
             | Error message => message
             | NonError => js "Unknown error occurred"
             end in
           ret (textResult
                  (stringify (JObj [
                     (js "success", JBool false);
                     (js "message",
                        JStr (js "Error executing " ++ name ++ js ": " ++ errorMessage));
                     (js "data", JNull);
                     (js "timestamp", JStr now) ]))
                  true))
  end.

End Tools.
End Tools.

(* ===================================================================== *)
(** ** The texts of [InitFactsSystemTool] ([init-facts-system.ts])        *)
(* ===================================================================== *)

Module InitFactsSystemTool.

(** [s.replace(p, r)] for a string pattern [p]: the first occurrence. *)
Fixpoint replaceFirst (p r s : jsstring) : jsstring :=
  if startsWith s p then r ++ drop (length p) s
  else match s with
       | [] => []
       | a :: t => a :: replaceFirst p r t
       end.

Section Texts.
(** The clock and [String.prototype.toUpperCase]. *)
Variable now : jsstring.
Variable toUpperCase : jsstring -> jsstring.

(** [generateKnowledgeContent()], the first text of the index. *)
Definition generateKnowledgeContent : jsstring :=
  let timestamp := now in
  join [10%N] [
    js "---";
    js "auto_generated: true";
    js "last_updated: " ++ timestamp;
    js "total_documents: 0";
    js "categories: [" ++ quote ++ js "technical" ++ quote ++ js ", " ++ quote
      ++ js "process" ++ quote ++ js ", " ++ quote ++ js "decision" ++ quote ++ js ", "
      ++ quote ++ js "pattern" ++ quote ++ js "]";
    js "---";
    [];
    js "# 项目知识库指南";
    [];
    js "## 📊 知识统计";
    js "- **技术洞察**: 0个 (技术实现、工具使用、架构设计等)";
    js "- **流程改进**: 0个 (工作流程、开发流程、协作方式等)  ";
    js "- **决策记录**: 0个 (重要决策、选择reasoning、权衡分析等)";
    js "- **模式总结**: 0个 (可复用的解决模式、最佳实践等)";
    [];
    js "## 📁 按类别分类";
    [];
    js "### 🔧 技术洞察 (Technical)";
    js "*暂无文档 - 开始记录你的第一个技术发现！*";
    [];
    js "### 🔄 流程改进 (Process) ";
    js "*暂无文档 - 记录改进开发效率的经验*";
    [];
    js "### 🎯 决策记录 (Decision)";
    js "*暂无文档 - 记录重要的技术和业务决策*";
    [];
    js "### 🧩 模式总结 (Pattern)";
    js "*暂无文档 - 沉淀可复用的解决方案模式*";
    [];
    js "## 🚀 使用指南";
    [];
    js "### 开始新任务前";
    js "1. 使用 `how_to_solve " ++ quote ++ js "你的问题描述" ++ quote ++ js "` 查找相关经验";
    js "2. Agent将分析历史知识并提供解决思路";
    js "3. 基于建议开始实施解决方案";
    [];
    js "### 完成任务后  ";
    js "1. 使用 `record_insight` 记录解决过程和关键发现";
    js "2. 系统自动更新本指南和知识分类";
    js "3. 为未来类似问题积累可搜索的知识";
    [];
    js "### 知识复用";
    js "- **关键词搜索**: 系统自动从任务描述中提取关键词匹配历史经验";
    js "- **类别浏览**: 按technical/process/decision/pattern浏览相关知识  ";
    js "- **相关性评分**: 自动计算历史经验与当前问题的相关度";
    [];
    js "## 🎯 最佳实践建议";
    [];
    js "### 记录洞察时";
    js "- **具体化**: 记录具体的问题、解决方案、和reasoning";
    js "- **可操作**: 包含足够细节让他人可以复现解决方案";
    js "- **有证据**: 提供支持你conclusion的evidence或参考资料";
    js "- **标签化**: 使用准确的category和tags便于后续搜索";
    [];
    js "### 使用历史知识时";
    js "- **批判思维**: 历史方案可能不完全适用当前场景";
    js "- **验证假设**: 基于当前约束条件验证历史方案的可行性  ";
    js "- **持续改进**: 在复用基础上进一步优化和完善方案";
    [];
    js "---";
    js "*本指南由Facts MCP系统自动维护，每次记录洞察后自动更新*"
  ].

Definition generateClaudeMdContent (enableAutoCapture : bool) : jsstring :=
  join [10%N] [
    [];
    js "# Project Facts Management Integration";
    [];
    js "## Facts System Workflow";
    [];
    js "本项目已集成 @bagaking/proj_facts_mcp 知识管理系统，请遵循以下工作流程：";
    [];
    js "### 🔍 任务开始前 - 必须执行";
    js "**在开始任何新任务前，必须先查找相关经验：**";
    js "```bash";
    js "# MCP调用示例 - 在Claude Code中直接使用";
    js "how_to_solve " ++ quote ++ js "你要解决的具体问题描述" ++ quote;
    js "```";
    [];
    js "系统将：";
    js "1. 自动搜索local_docs中的相关历史经验";
    js "2. 分析问题复杂度并推荐合适的解决方案Agent";
    js "3. 提供结构化的问题分析和解决思路";
    js "4. 给出具体的实施建议和注意事项";
    [];
    js "### 📝 任务完成后 - 必须执行  ";
    js "**完成任务后，必须记录关键洞察和经验：**";
    js "```bash";
    js "# 记录技术实现经验";
    js "record_insight --category technical --task " ++ quote ++ js "实现用户认证" ++ quote
      ++ js " --solution " ++ quote ++ js "使用JWT+Redis方案" ++ quote ++ js " --reasoning "
      ++ quote ++ js "考虑到性能和安全性..." ++ quote ++ js " --confidence high";
    [];
    js "# 记录流程改进经验";
    js "record_insight --category process --task " ++ quote ++ js "优化代码review流程" ++ quote
      ++ js " --solution " ++ quote ++ js "引入自动化检查+人工review" ++ quote ++ js " --reasoning "
      ++ quote ++ js "平衡效率和质量" ++ quote ++ js " --confidence medium";
    js "```";
    [];
    (if enableAutoCapture then
       join [10%N] [
          [];
          js "### 🤖 自动化集成 (已启用)";
          js "系统已配置自动提醒机制：";
          js "- **任务开始时**: 自动提示使用 `how_to_solve` 查找相关经验";
          js "- **任务结束时**: 自动提示使用 `record_insight` 记录洞察";
          js "- **知识积累**: 每次记录后自动更新 `local_docs/GUIDELINE.md`";
          []
       ]
     else []);
    [];
    js "## Facts System 目录结构";
    [];
    js "```";
    js "local_docs/                    # 项目知识库";
    js "├── GUIDELINE.md              # 自动维护的知识目录和统计";
    js "├── categories/               # 按类别组织的洞察";
    js "│   ├── technical/           # 技术实现相关";
    js "│   ├── process/             # 流程改进相关  ";
    js "│   ├── decision/            # 决策记录相关";
    js "│   └── pattern/             # 可复用模式相关";
    js "├── templates/               # 洞察记录模板";
    js "└── [INSIGHT_YYYYMMDD_category_keywords.md] # 具体洞察文档";
    [];
    js "agents/                       # 本地Agent提示模板";
    js "└── facts-manager.md         # 统一的知识管理Agent";
    js "```";
    [];
    js "## 使用原则";
    [];
    js "### 必须遵循的工作流";
    js "1. **开始任务** → `how_to_solve` → **获得指导** → **执行任务**";
    js "2. **完成任务** → `record_insight` → **沉淀经验** → **更新知识库**";
    js "3. **重复使用** → 历史经验复用 → **持续改进**";
    [];
    js "### 知识质量要求";
    js "- **具体性**: 记录具体问题、具体解决方案、具体reasoning";
    js "- **可操作性**: 其他人基于记录的信息能够复现解决方案  ";
    js "- **有证据性**: 提供supporting evidence、参考资料、验证结果";
    js "- **可搜索性**: 使用准确的关键词和标签便于后续检索";
    [];
    js "---";
    [];
    js "*Facts Management System v0.1.0 - 让每次解决问题都成为团队知识的增长*";
    []
  ].

Definition generateInsightTemplate : jsstring :=
  join [10%N] [
    js "---";
    js "category: [technical|process|decision|pattern]";
    js "confidence: [high|medium|low]";
    js "created_date: YYYY-MM-DD";
    js "tags: [tag1, tag2, tag3]";
    js "related_files: [file1, file2]";
    js "---";
    [];
    js "# [任务标题] - 解决方案洞察";
    [];
    js "## 🎯 问题描述";
    js "[详细描述遇到的具体问题，包括背景和约束条件]";
    [];
    js "## 💡 解决方案";
    js "[详细描述采用的解决方案，包括关键步骤和实现细节]";
    [];
    js "## 🤔 解决思路 (Reasoning)";
    js "[解释为什么选择这个方案，考虑了哪些因素，权衡了哪些选项]";
    [];
    js "## 📋 实施步骤";
    js "1. **准备阶段**: [具体步骤]";
    js "2. **核心实施**: [具体步骤]  ";
    js "3. **验证测试**: [具体步骤]";
    js "4. **总结优化**: [具体步骤]";
    [];
    js "## 📊 验证结果";
    js "[解决方案的效果如何，有什么可以量化的指标或结果]";
    [];
    js "## 🔗 参考资料";
    js "- [资料1]: [具体章节或链接] - [为什么相关]";
    js "- [资料2]: [具体章节或链接] - [为什么相关]";
    [];
    js "## ⚠️ 注意事项";
    js "- **风险点**: [实施过程中需要注意的风险]";
    js "- **适用场景**: [这个方案适用于什么场景，不适用于什么场景]";
    js "- **改进空间**: [未来可以怎么优化这个方案]";
    [];
    js "## 🔄 可复用性";
    js "**类似问题**: [这个方案可以应用到哪些类似问题]";
    js "**关键模式**: [可以抽取出的通用模式或原则]";
    js "**扩展方向**: [基于这个方案可以怎么扩展解决更复杂问题]";
    [];
    js "---";
    js "*记录时间: [YYYY-MM-DD HH:MM]*  ";
    js "*置信度: [对这个方案的信心程度及原因]*"
  ].

(** [word.charAt(0).toUpperCase() + word.slice(1)] *)
Definition capitalize (word : jsstring) : jsstring :=
  toUpperCase (take 1 word) ++ drop 1 word.

Definition getAgentTemplate (filename : jsstring) : jsstring :=
  let title :=
    join (js " ") (map capitalize (split_on 45 (replaceFirst (js ".md") [] filename))) in
  join [10%N] [
    js "# " ++ title ++ js " Agent";
    [];
    js "专业的问题解决Agent模板 - 请根据项目需求自定义。";
    [];
    js "## 核心能力";
    js "- 问题分析";
    js "- 方案设计  ";
    js "- 实施指导";
    js "- 质量保证";
    [];
    js "## 工作流程";
    js "1. 理解问题上下文";
    js "2. 分析相关历史经验";
    js "3. 设计解决方案";
    js "4. 提供实施指导";
    [];
    js "*此模板需要根据具体项目需求进行定制*"
  ].

Definition generateUserCommandTemplate : jsstring :=
  join [10%N] [
    js "---";
    js "# 项目特定指令和要求";
    js "# 此文件用于定义项目中必须遵循的强制性规则和指令";
    js "# 每个指令将在 how_to_solve 时优先显示";
    js "---";
    [];
    js "# 项目指令中心 (USER_COMMAND.md)";
    [];
    js "> 📋 **重要**: 这些是项目中必须严格遵循的指令。使用 `how_to_solve` 时，相关指令将优先显示。";
    [];
    js "## 包管理工具";
    [];
    js "**描述**: 本项目必须使用 pnpm 进行包管理，禁止使用 npm 或 yarn";
    js "**相关文档**: ";
    js "**更新时间**: " ++ FactsManager.datePart now;
    [];
    js "在所有安装、更新、运行脚本时必须使用 `pnpm`：";
    js "- 安装依赖: `pnpm install`";
    js "- 添加依赖: `pnpm add <package>`";
    js "- 运行脚本: `pnpm run <script>`";
    [];
    js "## 代码风格";
    [];
    js "**描述**: 严格遵循项目 ESLint 和 Prettier 配置，提交前必须通过 lint 检查";
    js "**相关文档**: ";
    js "**更新时间**: " ++ FactsManager.datePart now;
    [];
    js "所有代码变更必须：";
    js "1. 通过 `pnpm run lint` 检查";
    js "2. 通过 `pnpm run type-check` 检查";
    js "3. 遵循现有代码的命名和组织方式";
    [];
    js "## 测试要求";
    [];
    js "**描述**: 所有新功能必须包含相应的单元测试，测试覆盖率不低于80%";
    js "**相关文档**: ";
    js "**更新时间**: " ++ FactsManager.datePart now;
    [];
    js "在提交代码前必须：";
    js "1. 运行 `pnpm test` 确保所有测试通过";
    js "2. 为新功能编写对应的测试用例";
    js "3. 验证测试覆盖率满足要求";
    [];
    js "---";
    [];
    js "## 如何添加新指令";
    [];
    js "每个指令使用以下格式：";
    [];
    js "```markdown";
    js "## 指令标题";
    [];
    js "**描述**: 简要描述这个指令的内容和要求";
    js "**相关文档**: 如果有相关的 docs/ 文件，在此引用";
    js "**更新时间**: YYYY-MM-DD";
    [];
    js "详细的指令内容和具体要求...";
    js "```";
    [];
    js "*系统会自动检测查询内容与指令的匹配度，相关指令会在解决方案中优先显示*"
  ].

End Texts.


Definition execute {S} (now cwd : jsstring) (toUpperCase : jsstring -> jsstring)
    (zodMessage : list jsstring -> jsstring)
    (factsManager : IFactsManager S) (fileManager : IFileManager S)
    (args : JsValue) : M S JsValue :=
  Tools.initFactsSystem now cwd zodMessage factsManager fileManager
    (generateKnowledgeContent now) (generateUserCommandTemplate now)
    (getAgentTemplate toUpperCase) generateClaudeMdContent generateInsightTemplate
    args.

End InitFactsSystemTool.

(* ===================================================================== *)
(** ** Notions used by the statements                                     *)
(* ===================================================================== *)

(** [w] occurs in [s] as a run of consecutive code units. *)
Definition substring_of (w s : jsstring) : Prop :=
  exists a b, s = a ++ w ++ b.




(** The insight of the example of the specification, and a clock. *)
Definition loginInsight : InsightRecord := {|
  task := js "implement login";
  solution := js "use JWT";
  reasoning := js "stateless";
  evidence := [];
  insight_category := technical;
  confidence := high
|}.

Definition clock : jsstring := js "2025-01-15T09:30:00.000Z".
Definition clockMillis : N := 1736933400000.

(** A tree that holds a commands file with one section. *)
Definition deployCommands : jsstring :=
  js "## Deploy" ++ [10%N] ++ js "Use the release pipeline".

Definition treeWithCommands : MemFs.t :=
  <[ FactsManager.userCommandPath (js "/w") := MemFs.File deployCommands ]> MemFs.empty.

(** The body of a document: its text after the header block, as
    [extractSummary] takes it. *)
Definition documentBody (content : jsstring) : jsstring :=
  FactsManager.stripFrontMatter content.

(** The word overlap in the words of the specification, for comparison
    with [wordSignal]: the tokens of the query against the tokens of the
    body. *)
Definition spec_wordSignal (toLowerCase : jsstring -> jsstring)
    (query content : jsstring) : Q :=
  let queryWords := split_ws (toLowerCase query) in
  let bodyWords := split_ws (toLowerCase (documentBody content)) in
  (FactsManager.ratio
     (length (FactsManager.matchingWords queryWords bodyWords))
     (length queryWords) * 0.4)%Q.

(** A document with a header block, and a query made of a header key. *)
Definition headedDocument : jsstring :=
  join [10%N] [js "---"; js "category: technical"; js "---"; js "login flow"].

Definition headerQuery : jsstring := js "category:".

(** A computation leaves the view [f] of the state as it is; and a
    storage whose three reading operations do. *)
Definition preserves {S T A} (f : S -> T) (c : M S A) : Prop :=
  forall s, f (c s).2 = f s.

Definition reads_preserve {S T} (f : S -> T) (fm : IFileManager S) : Prop :=
  (forall p, preserves f (fm_exists fm p))
  /\ (forall p, preserves f (fm_readFile fm p))
  /\ (forall p, preserves f (fm_listFiles fm p)).





(** The tools over the in-memory tree, with trivial texts for the
    templates and helpers, used where the development runs them. *)
Definition zodText (issues : list jsstring) : jsstring :=
  js "Invalid arguments: " ++ join (js ", ") issues.

Definition memFactsManager : IFactsManager MemFs.t :=
  FactsManager.factsManager FactsManager.asciiLower clock (js "/w")
    MemFs.fileManager (js "/w").

Definition memHowToSolve (args : JsValue) : M MemFs.t JsValue :=
  Tools.howToSolve FactsManager.asciiLower clock zodText memFactsManager args.

Definition memRecordInsight (args : JsValue) : M MemFs.t JsValue :=
  Tools.recordInsightTool FactsManager.asciiLower clock clockMillis zodText
    memFactsManager args.

Definition memInitFactsSystem (args : JsValue) : M MemFs.t JsValue :=
  Tools.initFactsSystem clock (js "/w") zodText memFactsManager MemFs.fileManager
    [] [] (fun _ => []) (fun _ => []) [] args.

(** What a tool does on given arguments: it raises the validation error,
    leaving the storage as it is, or it returns an envelope whose
    [success] tells whether the guarded body returned. *)
Definition validated_envelope {S A} (zodMessage : list jsstring -> jsstring)
    (parsed : list jsstring + A) (body : A -> M S JsValue) (execute : M S JsValue)
    (s : S) : Prop :=
  match parsed with
  | inl issues => execute s = (Throw (Error (zodMessage issues)), s)
  | inr input =>
      exists v s',
        execute s = (Ok v, s')
        /\ Tools.isEnvelope v = true
        /\ (Tools.successOf v = Some true /\ body input s = (Ok v, s')
            \/ Tools.successOf v = Some false /\ throws (body input) s)
  end.

(** The two trees hold the same files, except possibly at [q]. *)
Definition same_files_except (q : jsstring) (d d' : MemFs.t) : Prop :=
  forall x c, x <> q -> d' !! x = Some (MemFs.File c) <-> d !! x = Some (MemFs.File c).





(** A line that [extractSummary] takes: trimmed, it has more than 50
    units and does not start with [#]. *)
Definition meaningful (line : jsstring) : bool :=
  (50 <? length (trim line))%nat && negb (startsWith (trim line) (js "#")).

(** The summary made of a line. *)
Definition summaryOf (line : jsstring) : jsstring :=
  substring0 200 (trim line)
  ++ (if (200 <? length (trim line))%nat then js "..." else []).

(** The number of file names that mention a term, as
    [extractTechKeywords] counts it. *)
Definition mentionCount (toLowerCase : jsstring -> jsstring)
    (fileNames : list jsstring) (k : jsstring) : nat :=
  length (filter (fun f => Is_true (FactsManager.mentions toLowerCase f k)) fileNames).

(** The inner loop of [extractTechKeywords], over any terms, and the
    outer loop over the file names. *)
Definition addTerms (toLowerCase : jsstring -> jsstring) (fileName : jsstring)
    (keywords terms : list jsstring) : list jsstring :=
  foldl (fun keywords term =>
           if FactsManager.mentions toLowerCase fileName term
           then FactsManager.setAdd keywords term else keywords)
    keywords terms.

Definition collectKeywords (toLowerCase : jsstring -> jsstring)
    (keywords fileNames : list jsstring) : list jsstring :=
  foldl (fun keywords fileName =>
           addTerms toLowerCase fileName keywords FactsManager.techTerms)
    keywords fileNames.

(** The words that [extractSearchKeywords] leaves out. *)
Definition searchStopWords : list jsstring :=
  [js "this"; js "that"; js "with"; js "have"; js "will"; js "from";
   js "they"; js "been"; js "were"; js "said"].



(** The marker that [mergeClaudeMdContent] looks for. *)
Definition integrationMarker : jsstring := js "Project Facts Management Integration".

(** A path that [findInsightFiles] builds: the solutions or the docs
    directory joined with a name that ends with [.md]. *)
Definition inCollections (projectPath p : jsstring) : Prop :=
  exists name,
    endsWith name (js ".md") = true
    /\ (p = pathJoin (FactsManager.solutionsPath projectPath) name
        \/ p = pathJoin (FactsManager.docsPath projectPath) name).

(** What the loop of [searchFactsInternal] asks of a document before it
    pushes it. *)
Definition passesFilters (categories : list jsstring) (minRelevance : Q)
    (projectPath : jsstring) (doc : FactDocument) : Prop :=
  (exists c, category doc = Some c /\ c ∈ categories)
  /\ (minRelevance <= relevanceScore doc)%Q
  /\ (relevanceScore doc <= 1)%Q
  /\ inCollections projectPath (path doc).

(** The order of the results: a result scores at least as much as every
    result after it. *)
Definition byRelevance (a b : FactDocument) : Prop :=
  (relevanceScore b <= relevanceScore a)%Q.

(** The error that an operation of [FileManager] raises: it names what
    failed, the path and the message of the cause. *)
Definition wrapped (what p : jsstring) (cause : exn) : exn :=
  Error (what ++ p ++ js ": " ++ errorMessage cause).











(** The names under which the server holds its tools. *)
Definition toolNames : list jsstring :=
  [js "how_to_solve"; js "record_insight"; js "init_facts_system"].

(** The object that the handler of the server reports when a tool
    raised. *)
Definition handlerFailure (name message now : jsstring) : JsValue :=
  JObj [ (js "success", JBool false);
         (js "message", JStr (js "Error executing " ++ name ++ js ": " ++ message));
         (js "data", JNull);
         (js "timestamp", JStr now) ].

(* ===================================================================== *)
(** ** Properties of the string methods                                   *)
(* ===================================================================== *)

Lemma startsWith_spec (s p : jsstring) :
  startsWith s p = true <-> exists r, s = p ++ r.
Proof.
  revert s. induction p as [|b p IH]; intros s; simpl.
  - split; [intros _; by exists s | done].
  - destruct s as [|a s]; simpl.
    + split; [done | intros [r Hr]; discriminate].
    + rewrite andb_true_iff, N.eqb_eq, IH. split.
      * intros [-> [r ->]]. by exists r.
      * intros [r Hr]. injection Hr as -> ->. eauto.
Qed.

Lemma startsWith_nil (s : jsstring) : startsWith s [] = true.
Proof. by destruct s. Qed.

Lemma includes_spec (s w : jsstring) :
  includes s w = true <-> substring_of w s.
Proof.
  unfold substring_of. induction s as [|c s IH]; simpl.
  - rewrite orb_false_r, startsWith_spec. split.
    + intros [r Hr]. exists [], r. done.
    + intros [a [b Hab]]. destruct a; simpl in *.
      * by exists b.
      * discriminate.
  - rewrite orb_true_iff, startsWith_spec, IH. split.
    + intros [[r Hr] | [a [b Hab]]].
      * exists [], r. done.
      * exists (c :: a), b. by rewrite Hab.
    + intros [a [b Hab]]. destruct a as [|x a]; simpl in *.
      * left. by exists b.
      * right. injection Hab as -> ->. eauto.
Qed.

Lemma includes_nil (s : jsstring) : includes s [] = true.
Proof. apply includes_spec. exists [], s. done. Qed.

Lemma split_ws_aux_nonempty (b : bool) (s : jsstring) : split_ws_aux b s <> [].
Proof.
  revert b. induction s as [|a s IH]; intros b; simpl; [done|].
  destruct (is_space a).
  - destruct b; [apply IH | done].
  - by destruct (split_ws_aux false s).
Qed.

(** [split] always gives at least one piece. *)
Lemma split_ws_length (s : jsstring) : (1 <= length (split_ws s))%nat.
Proof.
  unfold split_ws. pose proof (split_ws_aux_nonempty false s).
  destruct (split_ws_aux false s); simpl; [done | lia].
Qed.

(** The first piece of a string of white space is empty. *)
Lemma split_ws_spaces (s : jsstring) :
  forallb is_space s = true -> [] ∈ split_ws s.
Proof.
  unfold split_ws. destruct s as [|a s]; simpl.
  - intros _. apply list_elem_of_here.
  - intros [-> _]%andb_true_iff. apply list_elem_of_here.
Qed.

(* ===================================================================== *)
(** ** The relevance score                                                *)
(* ===================================================================== *)

Module ScoreFacts.
Import FactsManager.
#[local] Open Scope Q_scope.

Lemma ratio_bounds (a b : nat) :
  (a <= b)%nat -> (0 < b)%nat -> 0 <= ratio a b /\ ratio a b <= 1.
Proof.
  intros Hab Hb. unfold ratio.
  assert (Hb' : 0 < inject_Z (Z.of_nat b)).
  { change 0 with (inject_Z 0). rewrite <- Zlt_Qlt. lia. }
  split.
  - apply Qle_shift_div_l; [done|]. rewrite Qmult_0_l.
    change 0 with (inject_Z 0). rewrite <- Zle_Qle. lia.
  - apply Qle_shift_div_r; [done|]. rewrite Qmult_1_l.
    rewrite <- Zle_Qle. lia.
Qed.

Lemma nonneg_plus (a b : Q) : 0 <= a -> 0 <= b -> 0 <= a + b.
Proof.
  intros Ha Hb. rewrite <- (Qplus_0_l 0). by apply Qplus_le_compat.
Qed.

Lemma scaled_bounds (r w : Q) :
  0 <= r /\ r <= 1 -> 0 <= w -> 0 <= r * w /\ r * w <= w.
Proof.
  intros [H0 H1] Hw. split.
  - by apply Qmult_le_0_compat.
  - rewrite <- (Qmult_1_l w) at 2. by apply Qmult_le_compat_r.
Qed.

Section Signals.
Variable toLowerCase : jsstring -> jsstring.

Lemma titleSignal_bounds (q : jsstring) (h : Header) :
  0 <= titleSignal toLowerCase q h /\ titleSignal toLowerCase q h <= 0.4.
Proof.
  unfold titleSignal. destruct (h !! js "title") as [t|]; [|done].
  by destruct (includes (toLowerCase t) q).
Qed.

Lemma wordSignal_bounds (q d : jsstring) :
  0 <= wordSignal q d /\ wordSignal q d <= 0.4.
Proof.
  unfold wordSignal. apply scaled_bounds; [|done].
  apply ratio_bounds.
  - unfold matchingWords. apply length_filter.
  - pose proof (split_ws_length q). lia.
Qed.

Lemma categorySignal_bounds (q : jsstring) (h : Header) :
  0 <= categorySignal q h /\ categorySignal q h <= 0.1.
Proof.
  unfold categorySignal. destruct (h !! js "category") as [c|]; [|done].
  by destruct (truthy c && includes q c).
Qed.

Lemma tagSignal_bounds (q : jsstring) (h : Header) :
  0 <= tagSignal toLowerCase q h /\ tagSignal toLowerCase q h <= 0.1.
Proof.
  unfold tagSignal. destruct (h !! js "tags") as [t|]; [|done].
  destruct (truthy t); [|done].
  apply scaled_bounds; [|done]. apply ratio_bounds.
  - etrans; [apply length_filter|]. simpl. lia.
  - simpl. lia.
Qed.
End Signals.

(** C1. For every query, document text and parsed header, the score of
    [calculateRelevance] lies between 0 and 1, whatever the four signals
    contribute. *)
Theorem calculateRelevance_in_unit_interval
    (toLowerCase : jsstring -> jsstring) (query content : jsstring) (metadata : Header) :
  0 <= calculateRelevance toLowerCase query content metadata
  /\ calculateRelevance toLowerCase query content metadata <= 1.
Proof.
  unfold calculateRelevance.
  set (ql := toLowerCase query). set (cl := toLowerCase content).
  destruct (titleSignal_bounds toLowerCase ql metadata) as [Ht _].
  destruct (wordSignal_bounds ql cl) as [Hw _].
  destruct (categorySignal_bounds ql metadata) as [Hc _].
  destruct (tagSignal_bounds toLowerCase ql metadata) as [Hg _].
  split.
  - apply Q.min_glb; [|done].
    repeat apply nonneg_plus; done.
  - apply Q.le_min_r.
Qed.

End ScoreFacts.

(* ===================================================================== *)
(** ** Exceptions of the facade                                           *)
(* ===================================================================== *)

Module FacadeFacts.
Import FactsManager.

Lemma try_catch_ret_returns {S A} (c : M S A) (a : A) (s : S) :
  returns (try_catch c (fun _ => ret a)) s.
Proof.
  unfold returns, try_catch, ret.
  destruct (c s) as [[x|e] s']; eauto.
Qed.

Lemma bind_returns {S A B} (c : M S A) (k : A -> M S B) (s : S) :
  returns c s -> (forall a s', returns (k a) s') -> returns (bind c k) s.
Proof.
  intros (a & s' & Hc) Hk. unfold returns, bind. rewrite Hc. apply Hk.
Qed.

Lemma throws_not_returns {S A} (c : M S A) (s : S) :
  throws c s -> ~ returns c s.
Proof. intros (e & s1 & H1) (a & s2 & H2). congruence. Qed.

Section Facade.
Variable toLowerCase : jsstring -> jsstring.
Variables now cwd : jsstring.
Context {S : Type}.
Variable fm : IFileManager S.
Variable projectPath : jsstring.


Lemma searchFactsInternal_returns (q : jsstring) (opts : SearchOptions) (s : S) :
  returns (searchFactsInternal toLowerCase fm projectPath q opts) s.
Proof. apply try_catch_ret_returns. Qed.

Lemma getUserCommands_returns (q : jsstring) (s : S) :
  returns (getUserCommands toLowerCase fm projectPath q) s.
Proof. apply try_catch_ret_returns. Qed.

Lemma updateKnowledge_returns (s : S) :
  returns (updateKnowledge toLowerCase now cwd fm projectPath) s.
Proof. apply try_catch_ret_returns. Qed.

(** The result of [searchFacts]: the commands as results, then the
    ordinary results, whether or not a command matched. *)
Lemma searchFacts_eq (q : jsstring) (opts : SearchOptions) (s s1 s2 : S)
    (cmds : list Command) (normal : list FactDocument) :
  getUserCommands toLowerCase fm projectPath q s = (Ok cmds, s1) ->
  searchFactsInternal toLowerCase fm projectPath q opts s1 = (Ok normal, s2) ->
  searchFacts toLowerCase fm projectPath q opts s
  = (Ok (map (commandFact projectPath) cmds ++ normal), s2).
Proof.
  intros Hc Hn. unfold searchFacts, bind. rewrite Hc.
  destruct cmds as [|c cmds]; simpl.
  - done.
  - rewrite Hn. done.
Qed.


Lemma commandFact_score (cmds : list Command) :
  Forall (fun d => relevanceScore d = 1%Q) (map (commandFact projectPath) cmds).
Proof. apply Forall_map, Forall_true. done. Qed.

End Facade.


End FacadeFacts.

(* ===================================================================== *)
(** ** A blank query, and failures of the storage                         *)
(* ===================================================================== *)

Module CommandFacts.
Import FactsManager FacadeFacts.

Lemma filter_all {A} (P : A -> Prop) `{!forall x, Decision (P x)} (l : list A) :
  Forall P l -> filter P l = l.
Proof.
  induction 1 as [|x l Hx Hl IH]; [done|].
  rewrite filter_cons_True by done. by rewrite IH.
Qed.

(** A blank query has an empty word, which every command includes. *)
Lemma blank_query_matches (toLowerCase : jsstring -> jsstring) (q : jsstring) (cmd : Command) :
  forallb is_space q = true ->
  commandMatches toLowerCase q cmd = true.
Proof.
  intros Hq. unfold commandMatches. apply existsb_exists.
  exists []. split.
  - apply list_elem_of_In, split_ws_spaces, Hq.
  - by rewrite includes_nil.
Qed.

(** C10. When the query is empty or white space only (which lower-casing
    leaves as it is) and the commands file is read, every parsed command
    matches: [searchFacts] returns all of them first, each with score 1. *)
Theorem blank_query_returns_all_commands {S}
    (toLowerCase : jsstring -> jsstring) (fm : IFileManager S)
    (projectPath query content : jsstring) (options : SearchOptions) (s s1 s2 : S) :
  forallb is_space query = true ->
  toLowerCase query = query ->
  fm_exists fm (userCommandPath projectPath) s = (Ok true, s1) ->
  fm_readFile fm (userCommandPath projectPath) s1 = (Ok content, s2) ->
  exists normal s3,
    searchFactsInternal toLowerCase fm projectPath query options s2 = (Ok normal, s3)
    /\ searchFacts toLowerCase fm projectPath query options s
       = (Ok (map (commandFact projectPath) (parseUserCommands content) ++ normal), s3)
    /\ Forall (fun d => relevanceScore d = 1%Q)
         (map (commandFact projectPath) (parseUserCommands content))
    /\ Forall (fun cmd => commandMatches toLowerCase (toLowerCase query) cmd = true)
         (parseUserCommands content).
Proof.
  intros Hblank Hlower Hex Hrd.
  assert (Hall : Forall (fun cmd => Is_true (commandMatches toLowerCase (toLowerCase query) cmd))
                   (parseUserCommands content)).
  { apply Forall_true. intros cmd. apply Is_true_true.
    rewrite Hlower. by apply blank_query_matches. }
  assert (Hc : getUserCommands toLowerCase fm projectPath query s
               = (Ok (parseUserCommands content), s2)).
  { unfold getUserCommands, try_catch, bind. rewrite Hex. simpl. rewrite Hrd.
    unfold ret. by rewrite filter_all. }
  destruct (searchFactsInternal_returns toLowerCase fm projectPath query options s2)
    as (normal & s3 & Hn).
  exists normal, s3. repeat split.
  - exact Hn.
  - eapply searchFacts_eq; eassumption.
  - apply commandFact_score.
  - eapply Forall_impl; [exact Hall|]. intros cmd H. by apply Is_true_true.
Qed.

Lemma blank_query_returns_all_commands_witness :
  exists normal s3,
    searchFactsInternal asciiLower MemFs.fileManager (js "/w") (js "  ") noOptions
      treeWithCommands = (Ok normal, s3)
    /\ searchFacts asciiLower MemFs.fileManager (js "/w") (js "  ") noOptions
         treeWithCommands
       = (Ok (map (commandFact (js "/w")) (parseUserCommands deployCommands) ++ normal), s3)
    /\ Forall (fun d => relevanceScore d = 1%Q)
         (map (commandFact (js "/w")) (parseUserCommands deployCommands))
    /\ Forall (fun cmd => commandMatches asciiLower (asciiLower (js "  ")) cmd = true)
         (parseUserCommands deployCommands).
Proof.
  apply (blank_query_returns_all_commands asciiLower MemFs.fileManager
           (js "/w") (js "  ") deployCommands noOptions
           treeWithCommands treeWithCommands treeWithCommands).
  - vm_compute. reflexivity.
  - vm_compute. reflexivity.
  - vm_compute. reflexivity.
  - vm_compute. reflexivity.
Defined.

End CommandFacts.

Module FailureFacts.
Import FactsManager FacadeFacts.

Section Failures.
Variable toLowerCase : jsstring -> jsstring.
Variables now cwd : jsstring.
Context {S : Type}.
Variable fm : IFileManager S.
Variable projectPath : jsstring.






End Failures.




End FailureFacts.

(* ===================================================================== *)
(** ** The word overlap                                                   *)
(* ===================================================================== *)

Module WordFacts.
Import FactsManager.
#[local] Open Scope Q_scope.

(** The pieces of [split(/\s+/)] hold no white space. *)
Lemma split_ws_aux_tokens (b : bool) (s t : jsstring) :
  t ∈ split_ws_aux b s -> forallb (fun c => negb (is_space c)) t = true.
Proof.
  revert b t. induction s as [|a s IH]; intros b t; simpl.
  - intros ->%list_elem_of_singleton. done.
  - destruct (is_space a) eqn:Ha.
    + destruct b.
      * apply IH.
      * intros [->|H]%elem_of_cons; [done | by eapply IH].
    + specialize (IH false). destruct (split_ws_aux false s) as [|t0 ts].
      * intros ->%list_elem_of_singleton. simpl. by rewrite Ha.
      * intros [->|H]%elem_of_cons.
        -- simpl. rewrite Ha. simpl. apply IH, list_elem_of_here.
        -- apply IH. by apply list_elem_of_further.
Qed.

Lemma wordMatches_spec (w : jsstring) (contentWords : list jsstring) :
  wordMatches w contentWords = true
  <-> exists c, c ∈ contentWords /\ (substring_of w c \/ substring_of c w).
Proof.
  unfold wordMatches. rewrite existsb_exists. split.
  - intros (c & Hc & H). exists c. split; [by apply list_elem_of_In|].
    apply orb_true_iff in H as [H|H]; apply includes_spec in H; eauto.
  - intros (c & Hc & H). exists c. split; [by apply list_elem_of_In|].
    apply orb_true_iff. destruct H as [H|H]; apply includes_spec in H; eauto.
Qed.

(** C5, as amended. The word overlap takes its tokens from the whole
    lower-cased text of the document, header block included: a token of
    the query matches when it occurs in one of these tokens or one of
    them occurs in it, and the signal adds (matching query tokens / query
    tokens) * 0.4 to the score. *)
Theorem wordSignal_over_whole_text
    (toLowerCase : jsstring -> jsstring) (query content : jsstring) (metadata : Header) :
  let queryWords := split_ws (toLowerCase query) in
  let contentWords := split_ws (toLowerCase content) in
  let matching := matchingWords queryWords contentWords in
  calculateRelevance toLowerCase query content metadata
  = Qmin (0 + titleSignal toLowerCase (toLowerCase query) metadata
            + ratio (length matching) (length queryWords) * 0.4
            + categorySignal (toLowerCase query) metadata
            + tagSignal toLowerCase (toLowerCase query) metadata) 1
  /\ (forall w, w ∈ matching
        <-> w ∈ queryWords
            /\ exists c, c ∈ contentWords /\ (substring_of w c \/ substring_of c w))
  /\ (forall t, t ∈ queryWords \/ t ∈ contentWords ->
        forallb (fun c => negb (is_space c)) t = true)
  /\ (1 <= length queryWords)%nat.
Proof.
  intros queryWords contentWords matching. split; [reflexivity|]. split; [|split].
  - intros w. unfold matching, matchingWords.
    rewrite list_elem_of_filter, Is_true_true, wordMatches_spec. tauto.
  - intros t [H|H]; eapply split_ws_aux_tokens; exact H.
  - apply split_ws_length.
Qed.

(** C5 as stated fails: a query token that only occurs in the header
    block gives the full weight, where the tokens of the body give 0. *)
Lemma header_tokens_count_as_words :
  wordSignal (asciiLower headerQuery) (asciiLower headedDocument) == 0.4
  /\ spec_wordSignal asciiLower headerQuery headedDocument == 0
  /\ ~ (wordSignal (asciiLower headerQuery) (asciiLower headedDocument)
        == spec_wordSignal asciiLower headerQuery headedDocument)
  /\ calculateRelevance asciiLower headerQuery headedDocument
       (parseInsightMetadata headedDocument) == 0.4.
Proof.
  repeat split; try (vm_compute; reflexivity).
  vm_compute. discriminate.
Qed.

End WordFacts.

(* ===================================================================== *)
(** ** The commands file                                                  *)
(* ===================================================================== *)

Module ParseFacts.
Import FactsManager.

Lemma truthy_nonempty (s : jsstring) : truthy s = true <-> s <> [].
Proof. destruct s; simpl; split; congruence. Qed.

Lemma parseSection_Some (section : jsstring) (cmd : Command) :
  parseSection section = Some cmd
  <-> sectionName section <> []
      /\ sf_description (sectionFields section) <> []
      /\ cmd = {| command := sectionName section;
                  description := sf_description (sectionFields section);
                  cmd_lastUpdated := sf_lastUpdated (sectionFields section);
                  cmd_relatedDocs := sf_relatedDocs (sectionFields section) |}.
Proof.
  unfold parseSection. rewrite <- !truthy_nonempty.
  destruct (truthy (sectionName section)), (truthy (sf_description (sectionFields section)));
    simpl; split; try (intros [= <-]; done); try (intros (? & ? & ->); done);
    intros (? & ? & ?); congruence.
Qed.

Lemma parseSection_None (section : jsstring) :
  parseSection section = None
  <-> sectionName section = [] \/ sf_description (sectionFields section) = [].
Proof.
  unfold parseSection.
  destruct (sectionName section) as [|a n], (sf_description (sectionFields section)) as [|b d];
    simpl; split; intros H; try done; try (by left); try (by right).
  destruct H; discriminate.
Qed.

(** A line that carries no label and is not empty becomes the
    description when there is none yet. *)
Lemma unlabeled_line_is_description (f : SectionFields) (rawLine : jsstring) :
  sf_description f = [] ->
  trim rawLine <> [] ->
  startsWith (trim rawLine) (js "**") = false ->
  sf_description (parseSectionLine f rawLine) = trim rawLine.
Proof.
  intros Hd Hne Hst. unfold parseSectionLine.
  assert (Hlabel : forall l, startsWith l (js "**") = false ->
            forall r, startsWith l (js "**" ++ r) = false).
  { intros l Hl r. destruct (startsWith l (js "**" ++ r)) eqn:E; [|done].
    apply startsWith_spec in E as [x ->].
    rewrite <- Hl. symmetry. apply startsWith_spec. exists (r ++ x).
    by rewrite <- app_assoc. }
  pose proof (Hlabel _ Hst) as H.
  change (js "**描述**:") with (js "**" ++ js "描述**:").
  change (js "**Description**:") with (js "**" ++ js "Description**:").
  change (js "**相关文档**:") with (js "**" ++ js "相关文档**:").
  change (js "**Related Docs**:") with (js "**" ++ js "Related Docs**:").
  change (js "**更新时间**:") with (js "**" ++ js "更新时间**:").
  change (js "**Last Updated**:") with (js "**" ++ js "Last Updated**:").
  rewrite !H, Hst, Hd. simpl.
  apply truthy_nonempty in Hne. by rewrite Hne.
Qed.

(** C9, as amended. A section of the commands file is kept exactly when
    it has both a name and a description, and discarded when either is
    missing; the commands returned are those of the kept sections. *)
Theorem section_kept_iff_name_and_description (content : jsstring) :
  (forall section,
     (exists cmd, parseSection section = Some cmd)
     <-> sectionName section <> [] /\ sf_description (sectionFields section) <> [])
  /\ (forall section,
        parseSection section = None
        <-> sectionName section = [] \/ sf_description (sectionFields section) = [])
  /\ (forall cmd,
        cmd ∈ parseUserCommands content
        <-> exists section,
              section ∈ commandSections content
              /\ sectionName section <> []
              /\ sf_description (sectionFields section) <> []
              /\ cmd = {| command := sectionName section;
                          description := sf_description (sectionFields section);
                          cmd_lastUpdated := sf_lastUpdated (sectionFields section);
                          cmd_relatedDocs := sf_relatedDocs (sectionFields section) |}).
Proof.
  split; [|split].
  - intros section. split.
    + intros [cmd H]. apply parseSection_Some in H. tauto.
    + intros [Hn Hd]. eexists. apply parseSection_Some. eauto.
  - apply parseSection_None.
  - intros cmd. unfold parseUserCommands. rewrite list_elem_of_omap.
    split; intros (section & Hin & H); exists section; (split; [done|]);
      by apply parseSection_Some.
Qed.

(** C9 as stated fails: a section with a name and no description, and a
    section with a description and no name, are both discarded. *)
Lemma section_with_name_only_is_discarded :
  commandSections (js "## Deploy") = [js "Deploy"]
  /\ sectionName (js "Deploy") = js "Deploy"
  /\ sf_description (sectionFields (js "Deploy")) = []
  /\ parseUserCommands (js "## Deploy") = []
  /\ sectionName (10%N :: js "Use the release pipeline") = []
  /\ sf_description (sectionFields (10%N :: js "Use the release pipeline"))
     = js "Use the release pipeline"
  /\ parseUserCommands (10%N :: js "Use the release pipeline") = [].
Proof. repeat split; vm_compute; reflexivity. Qed.

End ParseFacts.

(* ===================================================================== *)
(** ** What [recordInsight] writes                                        *)
(* ===================================================================== *)

Module FrameFacts.
Import FactsManager.

Lemma preserves_ret {S T A} (f : S -> T) (a : A) : preserves f (ret a).
Proof. by intros s. Qed.

Lemma preserves_throw {S T A} (f : S -> T) (e : exn) : preserves f (throw (A := A) e).
Proof. by intros s. Qed.

Lemma preserves_bind {S T A B} (f : S -> T) (c : M S A) (k : A -> M S B) :
  preserves f c -> (forall a, preserves f (k a)) -> preserves f (bind c k).
Proof.
  intros Hc Hk s. unfold bind. specialize (Hc s).
  destruct (c s) as [[a|e] s']; simpl in *; [|done].
  rewrite <- Hc. apply Hk.
Qed.

Lemma preserves_try_catch {S T A} (f : S -> T) (c : M S A) (h : exn -> M S A) :
  preserves f c -> (forall e, preserves f (h e)) -> preserves f (try_catch c h).
Proof.
  intros Hc Hh s. unfold try_catch. specialize (Hc s).
  destruct (c s) as [[a|e] s']; simpl in *; [done|].
  rewrite <- Hc. apply Hh.
Qed.

Lemma preserves_lift {S L T A} (f : S -> T) (c : M S A) :
  preserves f c -> preserves (fun sl : S * L => f sl.1) (lift c).
Proof.
  intros Hc [s l]. unfold lift. specialize (Hc s). by destruct (c s).
Qed.

Lemma preserves_modify_local {S L T} (f : S -> T) (g : L -> L) :
  preserves (fun sl : S * L => f sl.1) (modify_local g).
Proof. by intros [s l]. Qed.

Section ReadOnly.
Variable toLowerCase : jsstring -> jsstring.
Variables now cwd : jsstring.
Context {S T : Type}.
Variable f : S -> T.
Variable fm : IFileManager S.
Variable projectPath : jsstring.
Hypothesis Hreads : reads_preserve f fm.

Lemma collectFrom_preserves (dir : jsstring) :
  preserves (fun sl : S * list jsstring => f sl.1) (collectFrom fm dir).
Proof using Hreads.
  destruct Hreads as (He & _ & Hl).
  unfold collectFrom. apply preserves_bind.
  - apply preserves_lift, He.
  - intros [|].
    + apply preserves_bind; [apply preserves_lift, Hl|].
      intros names. apply preserves_modify_local.
    + apply preserves_ret.
Qed.

Lemma findInsightFiles_preserves : preserves f (findInsightFiles fm projectPath).
Proof using Hreads.
  intros s. unfold findInsightFiles.
  match goal with |- context [try_catch ?c ?h (s, [])] =>
    assert (H : preserves (fun sl : S * list jsstring => f sl.1) (try_catch c h));
    [| specialize (H (s, []));
       destruct (try_catch c h (s, [])) as [o [s' files]]; exact H]
  end.
  apply preserves_try_catch.
  - apply preserves_bind; [apply collectFrom_preserves|].
    intros _. apply collectFrom_preserves.
  - intros e. apply preserves_ret.
Qed.

Lemma contextFiles_preserves (files : list jsstring)
    (acc : list (option jsstring) * jsstring) :
  preserves f (contextFiles fm acc files).
Proof using Hreads.
  destruct Hreads as (_ & Hr & _).
  revert acc. induction files as [|p files IH]; intros acc; simpl.
  - apply preserves_ret.
  - apply preserves_bind; [|intros a; apply IH].
    unfold contextFile. apply preserves_try_catch; [|intros; apply preserves_ret].
    apply preserves_bind; [apply Hr|]. intros content.
    destruct (_ && _); apply preserves_ret.
Qed.

Lemma getProjectContext_preserves :
  preserves f (getProjectContext now cwd fm projectPath).
Proof using Hreads.
  unfold getProjectContext.
  apply preserves_try_catch; [|intros; apply preserves_throw].
  apply preserves_bind; [apply Hreads|]. intros [|]; simpl.
  - apply preserves_bind; [apply findInsightFiles_preserves|]. intros files.
    apply preserves_bind; [apply contextFiles_preserves|]. intros acc.
    apply preserves_ret.
  - apply preserves_ret.
Qed.

Lemma readEntries_preserves (dir : jsstring) (names : list jsstring)
    (files : list FileEntry) :
  preserves f (readEntries now fm dir names files).
Proof using Hreads.
  destruct Hreads as (_ & Hr & _).
  revert files. induction names as [|name names IH]; intros files; simpl.
  - apply preserves_ret.
  - destruct (endsWith name (js ".md")); [|apply IH].
    apply preserves_bind; [|intros a; apply IH].
    apply preserves_try_catch; [|intros; apply preserves_ret].
    apply preserves_bind; [apply Hr|]. intros content. apply preserves_ret.
Qed.

Lemma getFilesOf_preserves (dir : jsstring) : preserves f (getFilesOf now fm dir).
Proof using Hreads.
  unfold getFilesOf. apply preserves_try_catch; [|intros; apply preserves_ret].
  apply preserves_bind; [apply Hreads|]. intros [|].
  - apply preserves_bind; [apply Hreads|]. intros names. apply readEntries_preserves.
  - apply preserves_ret.
Qed.

Lemma scanFile_preserves (q : jsstring) (cats : list jsstring) (m : Q)
    (acc : list FactDocument) (p : jsstring) :
  preserves f (scanFile toLowerCase fm q cats m acc p).
Proof using Hreads.
  unfold scanFile. apply preserves_try_catch; [|intros; apply preserves_ret].
  apply preserves_bind; [apply Hreads|]. intros content.
  destruct (includesCategory _ _); [|apply preserves_ret].
  destruct (Qle_bool _ _); apply preserves_ret.
Qed.

Lemma scanFiles_preserves (q : jsstring) (cats : list jsstring) (m : Q)
    (files : list jsstring) (acc : list FactDocument) :
  preserves f (scanFiles toLowerCase fm q cats m acc files).
Proof using Hreads.
  revert acc. induction files as [|p files IH]; intros acc; simpl.
  - apply preserves_ret.
  - apply preserves_bind; [apply scanFile_preserves | intros a; apply IH].
Qed.

Lemma searchFactsInternal_preserves (q : jsstring) (opts : SearchOptions) :
  preserves f (searchFactsInternal toLowerCase fm projectPath q opts).
Proof using Hreads.
  unfold searchFactsInternal.
  apply preserves_try_catch; [|intros; apply preserves_ret].
  apply preserves_bind; [apply Hreads|]. intros [|]; simpl.
  - apply preserves_bind; [apply findInsightFiles_preserves|]. intros files.
    apply preserves_bind; [apply scanFiles_preserves|]. intros docs.
    apply preserves_ret.
  - apply preserves_ret.
Qed.

Lemma getUserCommands_preserves (q : jsstring) :
  preserves f (getUserCommands toLowerCase fm projectPath q).
Proof using Hreads.
  unfold getUserCommands.
  apply preserves_try_catch; [|intros; apply preserves_ret].
  apply preserves_bind; [apply Hreads|]. intros [|]; simpl.
  - apply preserves_bind; [apply Hreads|]. intros content. apply preserves_ret.
  - apply preserves_ret.
Qed.

Lemma searchFacts_preserves (q : jsstring) (opts : SearchOptions) :
  preserves f (searchFacts toLowerCase fm projectPath q opts).
Proof using Hreads.
  unfold searchFacts. apply preserves_bind; [apply getUserCommands_preserves|].
  intros cmds. destruct (_ <? _)%nat.
  - apply preserves_bind; [apply searchFactsInternal_preserves|].
    intros normal. apply preserves_ret.
  - apply searchFactsInternal_preserves.
Qed.
End ReadOnly.


End FrameFacts.

Module RecordFacts.
Import FactsManager FacadeFacts FrameFacts.

(** *** Paths and file names *)

Lemma pathJoin_plain (a b : jsstring) :
  a <> [] -> b <> [] -> endsWith a [slash] = false ->
  pathJoin a b = a ++ slash :: b.
Proof. intros Ha Hb He. unfold pathJoin. rewrite He. by destruct a, b. Qed.

Lemma pathJoin_suffix (a b : jsstring) :
  b <> [] -> exists pre, pathJoin a b = pre ++ b.
Proof.
  intros Hb. unfold pathJoin. destruct a as [|c a]; [by exists []|].
  destruct b as [|x b]; [done|].
  destruct (endsWith _ _); [by eexists|].
  exists (c :: a ++ [slash]). simpl. by rewrite <- app_assoc.
Qed.

Lemma ends_with_facts (pre : jsstring) :
  pre ++ js "facts" <> [] /\ endsWith (pre ++ js "facts") [slash] = false.
Proof.
  split; [by destruct pre|].
  unfold endsWith. rewrite rev_app_distr. by vm_compute.
Qed.

Lemma solutionsPath_eq (projectPath : jsstring) :
  solutionsPath projectPath = localDocsPath projectPath ++ slash :: js "solutions".
Proof.
  unfold solutionsPath, localDocsPath.
  destruct (pathJoin_suffix (pathJoin projectPath (js ".bkproj")) (js "facts"))
    as [pre ->]; [by vm_compute|].
  destruct (ends_with_facts pre). by apply pathJoin_plain.
Qed.

Lemma docsPath_eq (projectPath : jsstring) :
  docsPath projectPath = localDocsPath projectPath ++ slash :: js "docs".
Proof.
  unfold docsPath, localDocsPath.
  destruct (pathJoin_suffix (pathJoin projectPath (js ".bkproj")) (js "facts"))
    as [pre ->]; [by vm_compute|].
  destruct (ends_with_facts pre). by apply pathJoin_plain.
Qed.

Lemma knowledgePath_eq (projectPath : jsstring) :
  knowledgePath projectPath = localDocsPath projectPath ++ slash :: js "KNOWLEDGE.md".
Proof.
  unfold knowledgePath, localDocsPath.
  destruct (pathJoin_suffix (pathJoin projectPath (js ".bkproj")) (js "facts"))
    as [pre ->]; [by vm_compute|].
  destruct (ends_with_facts pre). by apply pathJoin_plain.
Qed.

(** A file of a collection directory: the directory, a slash, the name. *)
Lemma collection_path (dir name : jsstring) :
  (dir = js "solutions" \/ dir = js "docs") -> name <> [] ->
  forall projectPath,
    pathJoin (pathJoin (localDocsPath projectPath) dir) name
    = localDocsPath projectPath ++ slash :: dir ++ slash :: name.
Proof.
  intros Hdir Hname projectPath.
  assert (Hd : pathJoin (localDocsPath projectPath) dir
               = localDocsPath projectPath ++ slash :: dir).
  { destruct Hdir as [->| ->]; [apply solutionsPath_eq | apply docsPath_eq]. }
  rewrite Hd. rewrite pathJoin_plain; [by rewrite <- app_assoc | | done |].
  - by destruct (localDocsPath projectPath).
  - unfold endsWith. rewrite rev_app_distr.
    destruct Hdir as [->| ->]; by vm_compute.
Qed.


Lemma take_filter_prefix {A} (P : A -> Prop) `{!forall x, Decision (P x)}
    (n : nat) (l : list A) :
  exists m, take n (filter P l) = filter P (take m l).
Proof.
  revert n. induction l as [|x l IH]; intros n.
  - exists 0. by destruct n.
  - rewrite filter_cons. destruct (decide (P x)) as [Hx|Hx].
    + destruct n as [|n]; [by exists 0|].
      destruct (IH n) as [m Hm]. exists (S m). simpl.
      rewrite filter_cons_True by done. by rewrite Hm.
    + destruct (IH n) as [m Hm]. exists (S m). simpl.
      by rewrite filter_cons_False.
Qed.

(** A part of the file name: at most 30 units of the class, the
    sanitized form of a prefix of the text. *)
Lemma sanitized_part (t : jsstring) :
  length (take 30 (sanitize t)) <= 30
  /\ Forall (fun c => is_alnum_cjk c = true) (take 30 (sanitize t))
  /\ exists p, p `prefix_of` t /\ take 30 (sanitize t) = sanitize p.
Proof.
  split; [|split].
  - rewrite length_take. lia.
  - apply Forall_take, Forall_forall. intros c [Hc _]%list_elem_of_filter.
    by apply Is_true_true.
  - destruct (take_filter_prefix (fun c => Is_true (is_alnum_cjk c)) 30 t) as [m Hm].
    exists (take m t). split; [apply prefix_take | exact Hm].
Qed.

Lemma filename_has_no_slash (i : InsightRecord) :
  slash ∉ generateInsightFilename i.
Proof.
  unfold generateInsightFilename, substring0.
  assert (Hpart : forall t, slash ∉ take 30 (sanitize t)).
  { intros t H. destruct (sanitized_part t) as (_ & Hall & _).
    rewrite Forall_forall in Hall. specialize (Hall _ H). by vm_compute in Hall. }
  rewrite !elem_of_app. intros [H|[H|[H|H]]].
  - by apply Hpart in H.
  - vm_compute in H. apply list_elem_of_singleton in H. discriminate.
  - by apply Hpart in H.
  - vm_compute in H. repeat (apply elem_of_cons in H as [H|H]; [discriminate|]).
    by apply elem_of_nil in H.
Qed.

(** *** The calls of [writeFile] *)

Section Writes.
Variable toLowerCase : jsstring -> jsstring.
Variables now cwd : jsstring.
Context {S : Type}.
Variable fm : IFileManager S.
Variable projectPath : jsstring.



End Writes.


End RecordFacts.

(* ===================================================================== *)
(** ** The file manager over the in-memory tree                           *)
(* ===================================================================== *)

Module MemFsFacts.
Import FactsManager FacadeFacts FrameFacts.

Lemma exists_raw (p : jsstring) (d : MemFs.t) :
  FileManager.exists_ MemFs.nodeFs p d = (Ok (MemFs.present d p), d).
Proof.
  unfold FileManager.exists_, try_catch, bind, ret. cbn.
  unfold MemFs.access. by destruct (MemFs.present d p).
Qed.

Lemma exists_result (p : jsstring) (d : MemFs.t) :
  fm_exists MemFs.fileManager p d = (Ok (MemFs.present d p), d).
Proof. apply exists_raw. Qed.

Lemma readFile_file (p c : jsstring) (d : MemFs.t) :
  d !! p = Some (MemFs.File c) ->
  fm_readFile MemFs.fileManager p d = (Ok c, d).
Proof.
  intros H. change (FileManager.readFile MemFs.nodeFs p d = (Ok c, d)).
  unfold FileManager.readFile, try_catch. cbn.
  unfold MemFs.readFile. by rewrite H.
Qed.

Lemma readFile_state (p : jsstring) (d : MemFs.t) :
  (fm_readFile MemFs.fileManager p d).2 = d.
Proof.
  change ((FileManager.readFile MemFs.nodeFs p d).2 = d).
  unfold FileManager.readFile, FileManager.rethrow, try_catch, throw. cbn.
  unfold MemFs.readFile.
  destruct (d !! p) as [[c|]|]; try done; by destruct (MemFs.isDir d p).
Qed.

Lemma listFiles_state (p : jsstring) (d : MemFs.t) :
  (fm_listFiles MemFs.fileManager p d).2 = d.
Proof.
  change ((FileManager.listFiles MemFs.nodeFs p d).2 = d).
  unfold FileManager.listFiles, FileManager.rethrow, try_catch, bind, throw, ret.
  rewrite exists_raw.
  destruct (MemFs.present d p); cbn; [|done].
  unfold MemFs.readdir. destruct (MemFs.isFile d p); [done|].
  by destruct (MemFs.isDir d p).
Qed.

Lemma listFiles_dir (p : jsstring) (d : MemFs.t) :
  MemFs.isFile d p = false -> MemFs.isDir d p = true ->
  fm_listFiles MemFs.fileManager p d = (Ok (MemFs.entries d p), d).
Proof.
  intros Hf Hd.
  change (FileManager.listFiles MemFs.nodeFs p d = (Ok (MemFs.entries d p), d)).
  unfold FileManager.listFiles, try_catch, bind.
  rewrite exists_raw. unfold MemFs.present. rewrite Hf, Hd. cbn.
  unfold MemFs.readdir. by rewrite Hf, Hd.
Qed.

(** Reading leaves the tree as it is. *)
Lemma memfs_reads_preserve :
  reads_preserve (fun d : MemFs.t => d) MemFs.fileManager.
Proof.
  split; [|split]; intros p d.
  - by rewrite exists_result.
  - apply readFile_state.
  - apply listFiles_state.
Qed.

(** *** Directories above a path of the tree *)

Lemma is_ancestor_app (a r : jsstring) : MemFs.is_ancestor a (a ++ slash :: r) = true.
Proof.
  unfold MemFs.is_ancestor. apply startsWith_spec. exists r.
  by rewrite <- app_assoc.
Qed.

Lemma is_ancestor_ne (a p : jsstring) : MemFs.is_ancestor a p = true -> a <> p.
Proof.
  unfold MemFs.is_ancestor. intros [r Hr]%startsWith_spec ->.
  apply (f_equal length) in Hr. rewrite !length_app in Hr. simpl in Hr. lia.
Qed.

Lemma isDir_above (d : MemFs.t) (a k : jsstring) (v : MemFs.node) :
  d !! k = Some v -> MemFs.is_ancestor a k = true -> MemFs.isFile d a = false ->
  MemFs.isDir d a = true.
Proof.
  intros Hk Ha Hf. unfold MemFs.isDir, MemFs.isFile in *.
  destruct (d !! a) as [[c|]|]; [done | done |].
  apply existsb_exists. exists (k, v). split; [|done].
  apply list_elem_of_In, elem_of_map_to_list, Hk.
Qed.

Lemma blocked_false (d : MemFs.t) (a p : jsstring) :
  MemFs.blocked d p = false -> MemFs.is_ancestor a p = true ->
  MemFs.isFile d a = false.
Proof.
  intros Hb Ha. unfold MemFs.isFile.
  destruct (d !! a) as [[c|]|] eqn:E; [|done|done].
  exfalso. apply not_true_iff_false in Hb. apply Hb.
  apply existsb_exists. exists (a, MemFs.File c). split; [|done].
  apply list_elem_of_In, elem_of_map_to_list, E.
Qed.

(** *** The entries of a directory *)

Lemma split_on_absent (c : N) (s : jsstring) : c ∉ s -> split_on c s = [s].
Proof.
  induction s as [|a s IH]; [done|]. intros H.
  apply not_elem_of_cons in H as [Hne Hs]. simpl.
  destruct (N.eqb_spec a c) as [->|_]; [done|]. by rewrite IH.
Qed.

Lemma entries_child (d : MemFs.t) (dir name : jsstring) (v : MemFs.node) :
  d !! (dir ++ slash :: name) = Some v -> slash ∉ name ->
  name ∈ MemFs.entries d dir.
Proof.
  intros Hk Hname. unfold MemFs.entries.
  apply elem_of_remove_dups, list_elem_of_omap.
  exists (dir ++ slash :: name, v). split; [by apply elem_of_map_to_list|].
  unfold MemFs.child. cbn [fst]. rewrite is_ancestor_app.
  replace (length dir + 1) with (length (dir ++ [slash])) by (rewrite length_app; done).
  replace (dir ++ slash :: name) with ((dir ++ [slash]) ++ name)
    by (by rewrite <- app_assoc).
  rewrite drop_app_length. by rewrite split_on_absent.
Qed.

(** *** What a write changes *)

Lemma same_files_refl (q : jsstring) (d : MemFs.t) : same_files_except q d d.
Proof. by intros x c _. Qed.

Lemma mkdir_frame (q p : jsstring) (d : MemFs.t) :
  same_files_except q d (MemFs.mkdir_recursive p d).2.
Proof.
  unfold MemFs.mkdir_recursive.
  destruct (MemFs.isFile d p) eqn:Hf; [apply same_files_refl|].
  destruct (MemFs.blocked d p); [apply same_files_refl|].
  destruct (MemFs.isDir d p); [apply same_files_refl|]. cbn [snd].
  intros x c _. destruct (decide (x = p)) as [->|Hne].
  - rewrite lookup_insert_eq. unfold MemFs.isFile in Hf.
    destruct (d !! p) as [[c'|]|]; split; congruence.
  - by rewrite lookup_insert_ne.
Qed.

(** [FileManager.writeFile] over the tree, step by step. *)
Lemma writeFile_steps (p c : jsstring) (d : MemFs.t) :
  fm_writeFile MemFs.fileManager p c d
  = match MemFs.mkdir_recursive (dirname p) d with
    | (Ok _, d1) =>
        match MemFs.writeFile p c d1 with
        | (Ok a, d2) => (Ok a, d2)
        | (Throw e, d2) => FileManager.rethrow (js "Failed to write file ") p e d2
        end
    | (Throw e, d1) =>
        FileManager.rethrow (js "Failed to write file ") p
          (Error (js "Failed to create directory " ++ dirname p ++ js ": "
                  ++ errorMessage e)) d1
    end.
Proof.
  change (fm_writeFile MemFs.fileManager p c d)
    with (FileManager.writeFile MemFs.nodeFs p c d).
  unfold FileManager.writeFile, FileManager.createDirectory, try_catch, bind.
  cbn [fs_mkdir_recursive fs_writeFile MemFs.nodeFs].
  destruct (MemFs.mkdir_recursive (dirname p) d) as [[[]|e] d1]; [|done].
  by destruct (MemFs.writeFile p c d1) as [[[]|e] d2].
Qed.

Lemma writeFile_frame (q c : jsstring) (d : MemFs.t) :
  same_files_except q d (fm_writeFile MemFs.fileManager q c d).2.
Proof.
  rewrite writeFile_steps.
  pose proof (mkdir_frame q (dirname q) d) as Hm.
  destruct (MemFs.mkdir_recursive (dirname q) d) as [[[]|e] d1];
    cbn [snd] in Hm; [|exact Hm].
  unfold MemFs.writeFile.
  destruct (MemFs.isDir d1 q); [exact Hm|].
  destruct (MemFs.blocked d1 q); [exact Hm|].
  destruct (MemFs.isDir d1 (dirname q)); [|exact Hm]. cbn [snd].
  intros x c' Hne. rewrite lookup_insert_ne by done. by apply Hm.
Qed.

Lemma writeFile_ok (p c : jsstring) (d d' : MemFs.t) :
  fm_writeFile MemFs.fileManager p c d = (Ok tt, d') ->
  d' !! p = Some (MemFs.File c)
  /\ forall a, MemFs.is_ancestor a p = true -> MemFs.isFile d' a = false.
Proof.
  rewrite writeFile_steps.
  destruct (MemFs.mkdir_recursive (dirname p) d) as [[[]|e] d1]; [|done].
  unfold MemFs.writeFile.
  destruct (MemFs.isDir d1 p); [done|].
  destruct (MemFs.blocked d1 p) eqn:Hb; [done|].
  destruct (MemFs.isDir d1 (dirname p)); [|done].
  intros [= <-]. split; [by rewrite lookup_insert_eq|].
  intros a Ha. pose proof (blocked_false _ _ _ Hb Ha) as Hf.
  unfold MemFs.isFile in *. rewrite lookup_insert_ne; [done|].
  intros ->. by apply is_ancestor_ne in Ha.
Qed.

Lemma setAdd_spec (l : list (option jsstring)) (x y : option jsstring) :
  y ∈ setAdd l x <-> y = x \/ y ∈ l.
Proof.
  unfold setAdd. destruct (bool_decide_reflect (x ∈ l)) as [Hx|Hx].
  - split; [by right | by intros [->|H]].
  - rewrite elem_of_app, list_elem_of_singleton. tauto.
Qed.

(** *** The scans over the tree *)

Section Scans.
Variable toLowerCase : jsstring -> jsstring.
Variables now cwd : jsstring.
Variable projectPath : jsstring.

Lemma collectFrom_grows (dir : jsstring) (d : MemFs.t) (l : list jsstring) :
  exists o l', collectFrom MemFs.fileManager dir (d, l) = (o, (d, l ++ l')).
Proof.
  unfold collectFrom, bind, lift. rewrite exists_result.
  destruct (MemFs.present d dir).
  - pose proof (listFiles_state dir d) as Hs.
    destruct (fm_listFiles MemFs.fileManager dir d) as [[names|e] d1]; cbn [snd] in Hs; subst d1.
    + unfold modify_local. eauto.
    + exists (Throw e), []. by rewrite app_nil_r.
  - exists (Ok tt), []. by rewrite app_nil_r.
Qed.

Lemma collectFrom_ok (dir : jsstring) (d : MemFs.t) (l : list jsstring) :
  MemFs.isFile d dir = false ->
  collectFrom MemFs.fileManager dir (d, l)
  = (Ok tt, (d, l ++ (if MemFs.isDir d dir
                      then markdownPaths dir (MemFs.entries d dir) else []))).
Proof.
  intros Hf. unfold collectFrom, bind, lift. rewrite exists_result.
  unfold MemFs.present. rewrite Hf. cbn [orb].
  destruct (MemFs.isDir d dir) eqn:Hd.
  - rewrite listFiles_dir by done. done.
  - unfold ret. by rewrite app_nil_r.
Qed.

Lemma markdownPaths_child (dir name : jsstring) (names : list jsstring) :
  name ∈ names -> endsWith name (js ".md") = true ->
  pathJoin dir name ∈ markdownPaths dir names.
Proof.
  intros Hin Hmd. unfold markdownPaths. apply list_elem_of_fmap_2.
  apply list_elem_of_filter. split; [by apply Is_true_true | done].
Qed.

Lemma findInsightFiles_unfold (d : MemFs.t) (o : outcome unit) (files : list jsstring) :
  try_catch
    (let* _ := collectFrom MemFs.fileManager (solutionsPath projectPath) in
     collectFrom MemFs.fileManager (docsPath projectPath))
    (fun _ => ret tt) (d, []) = (o, (d, files)) ->
  findInsightFiles MemFs.fileManager projectPath d = (Ok files, d).
Proof. intros H. unfold findInsightFiles. by rewrite H. Qed.

(** A markdown file right under [solutions] is listed, when [solutions]
    is not itself a file. *)
Lemma findInsightFiles_solutions (d : MemFs.t) (name : jsstring) (v : MemFs.node) :
  d !! (solutionsPath projectPath ++ slash :: name) = Some v ->
  slash ∉ name -> endsWith name (js ".md") = true ->
  MemFs.isFile d (solutionsPath projectPath) = false ->
  exists files,
    findInsightFiles MemFs.fileManager projectPath d = (Ok files, d)
    /\ pathJoin (solutionsPath projectPath) name ∈ files.
Proof.
  intros Hk Hname Hmd Hf.
  pose proof (isDir_above d _ _ v Hk (is_ancestor_app _ _) Hf) as Hdir.
  pose proof (collectFrom_ok (solutionsPath projectPath) d [] Hf) as H1.
  rewrite Hdir in H1. cbn [app] in H1.
  set (files1 := markdownPaths _ _) in H1.
  destruct (collectFrom_grows (docsPath projectPath) d files1) as (o & l' & H2).
  exists (files1 ++ l'). split.
  - eapply (findInsightFiles_unfold d (match o with Ok _ => Ok tt | Throw _ => Ok tt end)).
    unfold try_catch, bind. rewrite H1, H2. by destruct o as [[]|e].
  - apply elem_of_app. left. apply markdownPaths_child; [|done].
    by eapply entries_child.
Qed.






Lemma contextFile_memfs (acc : list (option jsstring) * jsstring) (p : jsstring)
    (d : MemFs.t) :
  exists acc', contextFile MemFs.fileManager acc p d = (Ok acc', d)
               /\ forall x, x ∈ acc.1 -> x ∈ acc'.1.
Proof.
  unfold contextFile, try_catch, bind, ret.
  pose proof (readFile_state p d) as Hs.
  destruct (fm_readFile MemFs.fileManager p d) as [[content|e] d1]; cbn [snd] in Hs; subst d1.
  - destruct (_ && _); eexists; (split; [done|]); cbn [fst];
      intros x Hx; apply setAdd_spec; by right.
  - by exists acc.
Qed.

Lemma contextFile_hit (acc : list (option jsstring) * jsstring)
    (p content : jsstring) (d : MemFs.t) :
  d !! p = Some (MemFs.File content) ->
  exists acc', contextFile MemFs.fileManager acc p d = (Ok acc', d)
               /\ parseInsightMetadata content !! js "category" ∈ acc'.1.
Proof.
  intros Hp. unfold contextFile, try_catch, bind, ret.
  rewrite (readFile_file _ _ _ Hp).
  destruct (_ && _); eexists; (split; [done|]); cbn [fst];
    apply setAdd_spec; by left.
Qed.

Lemma contextFiles_memfs (files : list jsstring)
    (acc : list (option jsstring) * jsstring) (d : MemFs.t) :
  exists acc', contextFiles MemFs.fileManager acc files d = (Ok acc', d)
               /\ forall x, x ∈ acc.1 -> x ∈ acc'.1.
Proof.
  revert acc. induction files as [|p files IH]; intros acc; simpl.
  - by exists acc.
  - unfold bind. destruct (contextFile_memfs acc p d) as (a1 & -> & H1).
    destruct (IH a1) as (a2 & -> & H2). exists a2. split; [done|]. auto.
Qed.

Lemma contextFiles_hit (files : list jsstring)
    (acc : list (option jsstring) * jsstring) (p content : jsstring) (d : MemFs.t) :
  p ∈ files ->
  d !! p = Some (MemFs.File content) ->
  exists acc', contextFiles MemFs.fileManager acc files d = (Ok acc', d)
               /\ parseInsightMetadata content !! js "category" ∈ acc'.1.
Proof.
  intros Hin Hp. revert acc.
  induction files as [|p' files IH]; intros acc; [by apply elem_of_nil in Hin|].
  simpl. unfold bind. apply elem_of_cons in Hin as [<-|Hin].
  - destruct (contextFile_hit acc p content d Hp) as (a1 & -> & H1).
    destruct (contextFiles_memfs files a1 d) as (a2 & -> & H2). eauto.
  - destruct (contextFile_memfs acc p' d) as (a1 & -> & _). by apply IH.
Qed.

(** The rebuild of the index changes no file but the index. *)
Lemma updateKnowledge_frame (d : MemFs.t) :
  same_files_except (knowledgePath projectPath) d
    (updateKnowledge toLowerCase now cwd MemFs.fileManager projectPath d).2.
Proof.
  pose proof memfs_reads_preserve as Hreads.
  unfold updateKnowledge, try_catch, bind.
  pose proof (getProjectContext_preserves now cwd _ MemFs.fileManager projectPath Hreads d) as H1.
  destruct (getProjectContext _ _ _ _ d) as [[ctx|e] d1];
    cbn [snd] in H1; subst d1; [|apply same_files_refl].
  pose proof (getFilesOf_preserves now _ MemFs.fileManager Hreads (solutionsPath projectPath) d) as H2.
  unfold getSolutionFiles.
  destruct (getFilesOf _ _ _ d) as [[sf|e] d2];
    cbn [snd] in H2; subst d2; [|apply same_files_refl].
  pose proof (getFilesOf_preserves now _ MemFs.fileManager Hreads (docsPath projectPath) d) as H3.
  unfold getDocFiles.
  destruct (getFilesOf _ _ (docsPath projectPath) d) as [[df|e] d3];
    cbn [snd] in H3; subst d3; [|apply same_files_refl].
  pose proof (writeFile_frame (knowledgePath projectPath) (generateKnowledgeContent toLowerCase now sf df ctx) d) as H4.
  by destruct (fm_writeFile _ _ _ d) as [[[]|e] d4].
Qed.
End Scans.

End MemFsFacts.

(* ===================================================================== *)
(** ** Tokens, front matter and ranking                                   *)
(* ===================================================================== *)

Module TokenFacts.
Import FactsManager WordFacts.

Lemma substring_of_trans (a b c : jsstring) :
  substring_of a b -> substring_of b c -> substring_of a c.
Proof.
  intros (x & y & ->) (u & v & ->). exists (u ++ x), (y ++ v).
  by rewrite <- !app_assoc.
Qed.










(** *** Ranking *)

Lemma insertByRelevance_elem (a x : FactDocument) (l : list FactDocument) :
  x ∈ insertByRelevance a l <-> x = a \/ x ∈ l.
Proof.
  induction l as [|b l IH]; simpl.
  - rewrite list_elem_of_singleton, elem_of_nil. tauto.
  - destruct (Qle_bool _ _).
    + rewrite elem_of_cons. tauto.
    + rewrite !elem_of_cons, IH. tauto.
Qed.

Lemma sortByRelevance_elem (x : FactDocument) (l : list FactDocument) :
  x ∈ sortByRelevance l <-> x ∈ l.
Proof.
  induction l as [|a l IH]; simpl; [done|].
  rewrite insertByRelevance_elem, IH, elem_of_cons. tauto.
Qed.




End TokenFacts.

(* ===================================================================== *)
(** ** The header that [formatInsightContent] writes                      *)
(* ===================================================================== *)

Module FormatFacts.
Import FactsManager.

Lemma indexOf_skip_line (x s w : jsstring) :
  10%N ∉ x ->
  indexOf (x ++ s) (10%N :: w) = (fun i => length x + i) <$> indexOf s (10%N :: w).
Proof.
  induction x as [|c x IH]; intros Hx.
  - simpl. by destruct (indexOf s (10%N :: w)).
  - apply not_elem_of_cons in Hx as [Hc Hx].
    change ((c :: x) ++ s) with (c :: (x ++ s)).
    unfold indexOf at 1. fold indexOf.
    assert (Hs : startsWith (c :: x ++ s) (10%N :: w) = false).
    { simpl. destruct (N.eqb_spec c 10); [congruence | done]. }
    rewrite Hs, IH by done.
    by destruct (indexOf s (10%N :: w)).
Qed.

Lemma join_cons2 (sep x y : jsstring) (r : list jsstring) :
  join sep (x :: y :: r) = x ++ sep ++ join sep (y :: r).
Proof. reflexivity. Qed.

Lemma join_app (sep : jsstring) (ls ms : list jsstring) :
  ls <> [] -> ms <> [] ->
  join sep (ls ++ ms) = join sep ls ++ sep ++ join sep ms.
Proof.
  intros Hl Hm. induction ls as [|x ls IH]; [done|].
  destruct ls as [|y ls].
  - destruct ms as [|m ms]; [done|]. reflexivity.
  - change ((x :: y :: ls) ++ ms) with (x :: (y :: ls) ++ ms).
    change ((y :: ls) ++ ms) with (y :: (ls ++ ms)).
    rewrite !join_cons2.
    change (y :: ls ++ ms) with ((y :: ls) ++ ms). rewrite IH by done.
    by rewrite <- !app_assoc.
Qed.

Lemma join_first (sep x : jsstring) (r : list jsstring) :
  exists t, join sep (x :: r) = x ++ t.
Proof.
  destruct r as [|y r]; [exists []; simpl; by rewrite app_nil_r|].
  rewrite join_cons2. by eexists.
Qed.

(** The lines of a header: without line feed, and not starting with a
    dash. The index of the closing delimiter is the length of the lines
    joined. *)
Lemma frontmatter_index (ls more : list jsstring) :
  ls <> [] ->
  Forall (fun y => (10%N ∉ y) /\ exists c y', y = c :: y' /\ c <> 45%N) ls ->
  indexOf (join [10%N] (ls ++ js "---" :: more)) (10%N :: js "---")
  = Some (length (join [10%N] ls)).
Proof.
  intros Hne Hall. induction Hall as [|x ls [Hx _] Hls IH]; [done|].
  destruct ls as [|y ls].
  - change ([x] ++ js "---" :: more) with (x :: js "---" :: more).
    rewrite join_cons2. change ([10%N] ++ ?t) with (10%N :: t).
    rewrite indexOf_skip_line by done.
    destruct (join_first [10%N] (js "---") more) as [t ->].
    assert (Hs : indexOf (10%N :: js "---" ++ t) (10%N :: js "---") = Some 0).
    { unfold indexOf. by vm_compute. }
    rewrite Hs. simpl. f_equal. lia.
  - change ((x :: y :: ls) ++ js "---" :: more)
      with (x :: y :: (ls ++ js "---" :: more)).
    rewrite !join_cons2. change ([10%N] ++ ?t) with (10%N :: t).
    rewrite indexOf_skip_line by done.
    apply Forall_cons in Hls as [(_ & c & y' & -> & Hc) Hls'].
    destruct (join_first [10%N] (c :: y') (ls ++ js "---" :: more)) as [t Ht].
    assert (Hs : startsWith (10%N :: join [10%N] ((c :: y') :: ls ++ js "---" :: more))
                   (10%N :: js "---") = false).
    { rewrite Ht. change (js "---") with [45%N; 45%N; 45%N]. simpl.
      destruct (N.eqb_spec c 45); [done | done]. }
    unfold indexOf at 1. fold indexOf. rewrite Hs.
    change ((c :: y') :: ls ++ js "---" :: more)
      with (((c :: y') :: ls) ++ js "---" :: more).
    rewrite IH by done. simpl. f_equal. rewrite !length_app. simpl. lia.
Qed.

Lemma matchFrontMatter_lines (ls more : list jsstring) :
  ls <> [] ->
  Forall (fun y => (10%N ∉ y) /\ exists c y', y = c :: y' /\ c <> 45%N) ls ->
  matchFrontMatter (join [10%N] (js "---" :: ls ++ js "---" :: more))
  = Some (join [10%N] ls).
Proof.
  intros Hne Hall. unfold matchFrontMatter.
  destruct ls as [|x ls]; [done|].
  change (js "---" :: (x :: ls) ++ js "---" :: more)
    with (js "---" :: x :: (ls ++ js "---" :: more)).
  rewrite join_cons2.
  change (js "---" ++ [10%N] ++ ?t) with (45%N :: 45%N :: 45%N :: 10%N :: t).
  change (js "---" ++ [10%N]) with [45%N; 45%N; 45%N; 10%N].
  cbn [startsWith N.eqb Pos.eqb andb drop].
  change (x :: ls ++ js "---" :: more) with ((x :: ls) ++ js "---" :: more).
  rewrite !drop_0, frontmatter_index by done. cbn [mbind option_bind].
  rewrite join_app by done. by rewrite take_app_length.
Qed.

Lemma split_on_app_sep (c : N) (k v : jsstring) :
  c ∉ k -> split_on c (k ++ c :: v) = k :: split_on c v.
Proof.
  induction k as [|a k IH]; intros Hk; simpl.
  - by rewrite N.eqb_refl.
  - apply not_elem_of_cons in Hk as [Hne Hk].
    destruct (N.eqb_spec a c) as [->|_]; [done|]. by rewrite IH.
Qed.

Lemma split_on_nonempty (c : N) (s : jsstring) : (0 < length (split_on c s))%nat.
Proof.
  induction s as [|a s IH]; simpl; [lia|].
  destruct (a =? c)%N; simpl; [lia|].
  destruct (split_on c s); simpl; lia.
Qed.

Lemma split_join (ls : list jsstring) :
  ls <> [] -> Forall (fun y => 10%N ∉ y) ls ->
  split_on 10 (join [10%N] ls) = ls.
Proof.
  intros Hne Hall. induction Hall as [|x ls Hx Hls IH]; [done|].
  destruct ls as [|y ls].
  - simpl. by apply MemFsFacts.split_on_absent.
  - rewrite join_cons2. change ([10%N] ++ ?t) with (10%N :: t).
    rewrite split_on_app_sep by done. by rewrite IH.
Qed.

Lemma parseHeaderLine_kv (metadata : Header) (k v : jsstring) :
  58%N ∉ k -> k <> [] ->
  parseHeaderLine metadata (k ++ 58%N :: v)
  = setProperty metadata (trim k) (trim (join [58%N] (split_on 58 v))).
Proof.
  intros Hk Hne. unfold parseHeaderLine. rewrite split_on_app_sep by done.
  pose proof (split_on_nonempty 58 v) as Hl.
  destruct k; [done|]. cbn [truthy andb].
  by destruct (Nat.ltb_spec 0 (length (split_on 58 v))); [|lia].
Qed.

Lemma not_in_literal (c : N) (s : jsstring) :
  forallb (fun x => negb (x =? c)%N) s = true -> c ∉ s.
Proof.
  intros H Hin. apply list_elem_of_In in Hin.
  rewrite forallb_forall in H. specialize (H _ Hin).
  by rewrite N.eqb_refl in H.
Qed.

Lemma header_line_ok (pre body : jsstring) :
  forallb (fun x => negb (x =? 10)%N) pre = true ->
  match pre with c :: _ => negb (c =? 45)%N | [] => false end = true ->
  10%N ∉ body ->
  (10%N ∉ pre ++ body) /\ exists c y', pre ++ body = c :: y' /\ c <> 45%N.
Proof.
  intros Hpre Hhead Hbody. split.
  - rewrite elem_of_app. intros [H|H]; [|done].
    revert H. by apply not_in_literal.
  - destruct pre as [|c pre]; [done|]. exists c, (pre ++ body). split; [done|].
    apply negb_true_iff in Hhead. by apply N.eqb_neq.
Qed.

(** The header of a recorded insight gives its category, and no title. *)
Lemma formatted_header (now : jsstring) (insight : InsightRecord) :
  10%N ∉ datePart now ->
  parseInsightMetadata (formatInsightContent now insight) !! js "category"
  = Some (category_str (insight_category insight))
  /\ parseInsightMetadata (formatInsightContent now insight) !! js "title" = None.
Proof.
  intros HD. unfold parseInsightMetadata, formatInsightContent.
  set (C := category_str (insight_category insight)).
  set (F := confidence_str (confidence insight)).
  set (D := datePart now) in *.
  match goal with
  | |- context [join [10%N] (js "---" :: ?l2 :: ?l3 :: ?l4 :: ?l5 :: ?l6 :: js "---" :: ?more)] =>
      change (join [10%N] (js "---" :: l2 :: l3 :: l4 :: l5 :: l6 :: js "---" :: more))
        with (join [10%N] (js "---" :: [l2; l3; l4; l5; l6] ++ js "---" :: more));
      set (ls := [l2; l3; l4; l5; l6])
  end.
  assert (HC : (10%N ∉ C) /\ (58%N ∉ C)).
  { subst C. destruct (insight_category insight);
      split; apply not_in_literal; reflexivity. }
  assert (HF : 10%N ∉ F).
  { subst F. destruct (confidence insight); apply not_in_literal; reflexivity. }
  destruct HC as [HC10 HC58].
  assert (Hlines : Forall (fun y => (10%N ∉ y) /\ exists c y', y = c :: y' /\ c <> 45%N) ls).
  { subst ls. repeat (apply Forall_cons; split); try (by apply Forall_nil).
    - by apply header_line_ok.
    - by apply header_line_ok.
    - by apply header_line_ok.
    - apply header_line_ok; [done | done |].
      rewrite elem_of_app. intros [H|H]; [done|].
      revert H. by apply not_in_literal.
    - change (js "related_files: []") with (js "related_files: []" ++ []).
      apply header_line_ok; [done | done | apply not_elem_of_nil]. }
  rewrite matchFrontMatter_lines; [|done|done].
  rewrite split_join; [|done|].
  2:{ eapply Forall_impl; [exact Hlines|]. by intros y [Hy _]. }
  subst ls. cbn [foldl].
  change (js "category: " ++ C) with (js "category" ++ 58%N :: 32%N :: C).
  change (js "confidence: " ++ F) with (js "confidence" ++ 58%N :: 32%N :: F).
  change (js "created_date: " ++ D) with (js "created_date" ++ 58%N :: 32%N :: D).
  change (js "tags: [" ++ C ++ js "]")
    with (js "tags" ++ 58%N :: 32%N :: 91%N :: C ++ js "]").
  change (js "related_files: []") with (js "related_files" ++ 58%N :: js " []").
  do 5 (rewrite parseHeaderLine_kv; [| by apply not_in_literal | by vm_compute]).
  unfold setProperty.
  change (eqb_str (trim (js "category")) (js "__proto__")) with false.
  change (eqb_str (trim (js "confidence")) (js "__proto__")) with false.
  change (eqb_str (trim (js "created_date")) (js "__proto__")) with false.
  change (eqb_str (trim (js "tags")) (js "__proto__")) with false.
  change (eqb_str (trim (js "related_files")) (js "__proto__")) with false.
  cbn iota.
  change (trim (js "category")) with (js "category").
  change (trim (js "confidence")) with (js "confidence").
  change (trim (js "created_date")) with (js "created_date").
  change (trim (js "tags")) with (js "tags").
  change (trim (js "related_files")) with (js "related_files").
  split.
  - rewrite !lookup_insert_ne by (by vm_compute).
    rewrite lookup_insert_eq. f_equal.
    rewrite MemFsFacts.split_on_absent.
    + subst C. by destruct (insight_category insight).
    + rewrite not_elem_of_cons. split; [done | exact HC58].
  - rewrite !lookup_insert_ne by (by vm_compute). apply lookup_empty.
Qed.

End FormatFacts.

(* ===================================================================== *)
(** ** Recording then searching                                           *)
(* ===================================================================== *)

Module RoundTripFacts.
Import FactsManager FacadeFacts FrameFacts RecordFacts MemFsFacts TokenFacts FormatFacts.
#[local] Open Scope Q_scope.

Section RoundTrip.
Variable toLowerCase : jsstring -> jsstring.
Variables now cwd projectPath : jsstring.

Lemma insightPath_eq (i : InsightRecord) :
  insightPath projectPath i
  = solutionsPath projectPath ++ slash :: generateInsightFilename i
  /\ insightPath projectPath i
     = localDocsPath projectPath
       ++ slash :: js "solutions" ++ slash :: generateInsightFilename i.
Proof.
  assert (H : insightPath projectPath i
              = localDocsPath projectPath
                ++ slash :: js "solutions" ++ slash :: generateInsightFilename i).
  { unfold insightPath. apply collection_path; [by left|].
    unfold generateInsightFilename, substring0.
    by destruct (take 30 (sanitize (task i))). }
  split; [|done]. rewrite H, solutionsPath_eq, <- app_assoc. done.
Qed.

Lemma insightPath_not_knowledge (i : InsightRecord) (a : jsstring) :
  a = insightPath projectPath i \/ MemFs.is_ancestor a (insightPath projectPath i) = true ->
  a <> knowledgePath projectPath.
Proof.
  destruct (insightPath_eq i) as [_ Hp]. rewrite Hp, knowledgePath_eq.
  intros [->|Ha].
  - intros H. apply app_inv_head in H. vm_compute in H. discriminate.
  - intros ->. unfold MemFs.is_ancestor in Ha.
    apply startsWith_spec in Ha as [r Hr]. rewrite <- !app_assoc in Hr.
    apply app_inv_head in Hr. vm_compute in Hr. discriminate.
Qed.

(** After a successful record, the document is in the tree, under
    directories. *)
Lemma recordInsight_memfs_ok (i : InsightRecord) (d d' : MemFs.t) :
  recordInsight toLowerCase now cwd MemFs.fileManager projectPath i d = (Ok tt, d') ->
  d' !! insightPath projectPath i = Some (MemFs.File (formatInsightContent now i))
  /\ forall a, MemFs.is_ancestor a (insightPath projectPath i) = true ->
               MemFs.isFile d' a = false.
Proof.
  unfold recordInsight, try_catch, bind.
  destruct (fm_writeFile MemFs.fileManager _ _ d) as [[[]|e] d1] eqn:Hw; [|done].
  destruct (writeFile_ok _ _ _ _ Hw) as [Hp Hanc].
  pose proof (updateKnowledge_frame toLowerCase now cwd projectPath d1) as Hframe.
  destruct (updateKnowledge toLowerCase now cwd MemFs.fileManager projectPath d1) as [[[]|e] d2];
    [|done]. cbn [snd] in Hframe. intros [= <-]. split.
  - apply Hframe; [|done]. apply (insightPath_not_knowledge i). by left.
  - intros a Ha. specialize (Hanc a Ha). unfold MemFs.isFile in *.
    destruct (d2 !! a) as [[c|]|] eqn:E; [|done|done].
    apply Hframe in E; [by rewrite E in Hanc|].
    apply (insightPath_not_knowledge i). by right.
Qed.


End RoundTrip.




End RoundTripFacts.

(* ===================================================================== *)
(** ** Documents without header block                                     *)
(* ===================================================================== *)

Module HeaderFacts.
Import FactsManager FacadeFacts FrameFacts RecordFacts MemFsFacts TokenFacts
  RoundTripFacts.



Section Headerless.
Variable toLowerCase : jsstring -> jsstring.
Variables now cwd projectPath : jsstring.

Lemma getProjectContext_hit (d : MemFs.t) (files : list jsstring)
    (p content : jsstring) :
  MemFs.present d (localDocsPath projectPath) = true ->
  findInsightFiles MemFs.fileManager projectPath d = (Ok files, d) ->
  p ∈ files ->
  d !! p = Some (MemFs.File content) ->
  exists ctx,
    getProjectContext now cwd MemFs.fileManager projectPath d = (Ok ctx, d)
    /\ hasLocalDocs ctx = true
    /\ factCount ctx = length files
    /\ parseInsightMetadata content !! js "category" ∈ context_categories ctx.
Proof.
  intros HL Hfiles Hin Hp.
  destruct (contextFiles_hit files ([], epoch) p content d Hin Hp)
    as (acc & Hacc & Hcat).
  eexists. split.
  - unfold getProjectContext, try_catch, bind.
    rewrite exists_result, HL. cbn [negb]. rewrite Hfiles, Hacc. reflexivity.
  - done.
Qed.


End Headerless.




End HeaderFacts.

(* ===================================================================== *)
(** ** The envelope of the tools                                          *)
(* ===================================================================== *)

Module ToolFacts.
Import Tools.

Lemma bind_Ok_inv {S A B} (c : M S A) (k : A -> M S B) (s s' : S) (b : B) :
  bind c k s = (Ok b, s') ->
  exists a s1, c s = (Ok a, s1) /\ k a s1 = (Ok b, s').
Proof.
  unfold bind. destruct (c s) as [[a|e] s1]; [eauto | discriminate].
Qed.

Ltac invert_body H :=
  repeat (apply bind_Ok_inv in H as (? & ? & _ & H));
  injection H as <- _.

(** The shape shared by the three [execute] methods: the arguments are
    parsed outside the [try] block, the rest runs inside it. *)
Lemma execute_shape {S A} (zodMessage : list jsstring -> jsstring)
    (parsed : list jsstring + A) (body : A -> M S JsValue)
    (what now : jsstring) (s : S) :
  let execute :=
    let* input := zodParse zodMessage parsed in
    try_catch (body input) (fun error => ret (failure what error now)) in
  match parsed with
  | inl issues => execute s = (Throw (Error (zodMessage issues)), s)
  | inr input =>
      (exists v s', body input s = (Ok v, s') /\ execute s = (Ok v, s'))
      \/ (exists e s', body input s = (Throw e, s')
                       /\ execute s = (Ok (failure what e now), s'))
  end.
Proof.
  destruct parsed as [issues|input]; cbn; [done|].
  unfold bind, ret, try_catch; cbn.
  destruct (body input s) as [[v|e] s']; eauto 6.
Qed.

Lemma failure_envelope (what : jsstring) (e : exn) (now : jsstring) :
  isEnvelope (failure what e now) = true
  /\ successOf (failure what e now) = Some false.
Proof. split; reflexivity. Qed.

Section Bodies.
Variable toLowerCase : jsstring -> jsstring.
Variable dateNow : N.
Context {S : Type}.
Variable factsManager : IFactsManager S.
Variable fileManager : IFileManager S.
Variables knowledgeTemplate userCommandTemplate insightTemplate : jsstring.
Variable getAgentTemplate : jsstring -> jsstring.
Variable generateClaudeMdContent : bool -> jsstring.

Lemma howToSolveBody_envelope input now s v s' :
  howToSolveBody toLowerCase factsManager input now s = (Ok v, s') ->
  isEnvelope v = true /\ successOf v = Some true.
Proof.
  unfold howToSolveBody. intros H. invert_body H. split; reflexivity.
Qed.

Lemma recordInsightBody_envelope input now s v s' :
  recordInsightBody toLowerCase dateNow factsManager input now s = (Ok v, s') ->
  isEnvelope v = true /\ successOf v = Some true.
Proof.
  unfold recordInsightBody. intros H. invert_body H. split; reflexivity.
Qed.

Lemma initFactsSystemBody_envelope input projectPath now s v s' :
  initFactsSystemBody factsManager fileManager knowledgeTemplate userCommandTemplate
    getAgentTemplate generateClaudeMdContent insightTemplate input projectPath now s
  = (Ok v, s') ->
  isEnvelope v = true /\ successOf v = Some true.
Proof.
  unfold initFactsSystemBody. intros H. invert_body H. split; reflexivity.
Qed.
End Bodies.

(** The handler of the server catches what a tool raises. *)
Lemma handled_returns {S} (tool : M S JsValue) (ok : JsValue -> JsValue)
    (failed : exn -> JsValue) (s : S) :
  returns (try_catch (let* result := tool in ret (ok result))
             (fun error => ret (failed error))) s.
Proof.
  unfold returns, try_catch, bind, ret. destruct (tool s) as [[r|e] s']; eauto.
Qed.

Lemma validated_envelope_intro {S A} (zodMessage : list jsstring -> jsstring)
    (parsed : list jsstring + A) (body : A -> M S JsValue)
    (what now : jsstring) (s : S) :
  (forall input v s', body input s = (Ok v, s') ->
     isEnvelope v = true /\ successOf v = Some true) ->
  validated_envelope zodMessage parsed body
    (let* input := zodParse zodMessage parsed in
     try_catch (body input) (fun error => ret (failure what error now))) s.
Proof.
  intros Hbody. pose proof (execute_shape zodMessage parsed body what now s) as H.
  unfold validated_envelope. destruct parsed as [issues|input]; [exact H|].
  destruct H as [(v & s' & Hb & He) | (e & s' & Hb & He)].
  - destruct (Hbody _ _ _ Hb) as [Henv Hsucc]. exists v, s'. eauto 6.
  - exists (failure what e now), s'. split; [done|]. split; [reflexivity|].
    right. split; [reflexivity|]. by exists e, s'.
Qed.

(** C7, as amended. For arguments that pass the schema, each of the
    three tools returns the envelope [{success, message, data,
    timestamp}] and does not raise: an error inside is caught and
    reported with [success = false]. For arguments that fail the schema,
    the tool raises the validation error, before any access to the
    storage. The handler of the server, which calls the tool, returns
    on all arguments. *)
Theorem tools_return_envelope_on_valid_arguments {S}
    (toLowerCase : jsstring -> jsstring) (now : jsstring) (dateNow : N)
    (cwd : jsstring) (zodMessage : list jsstring -> jsstring)
    (factsManager : IFactsManager S) (fileManager : IFileManager S)
    (knowledgeTemplate userCommandTemplate : jsstring)
    (getAgentTemplate : jsstring -> jsstring)
    (generateClaudeMdContent : bool -> jsstring)
    (insightTemplate : jsstring) (stringify : JsValue -> jsstring)
    (args : JsValue) (s : S) :
  let callTool :=
    callTool toLowerCase now dateNow cwd zodMessage factsManager fileManager
      knowledgeTemplate userCommandTemplate getAgentTemplate generateClaudeMdContent
      insightTemplate stringify in
  validated_envelope zodMessage (HowToSolveInputSchema args)
    (fun input => howToSolveBody toLowerCase factsManager input now)
    (howToSolve toLowerCase now zodMessage factsManager args) s
  /\ validated_envelope zodMessage (RecordInsightInputSchema args)
       (fun input => recordInsightBody toLowerCase dateNow factsManager input now)
       (recordInsightTool toLowerCase now dateNow zodMessage factsManager args) s
  /\ validated_envelope zodMessage (InitFactsSystemInputSchema args)
       (fun input => initFactsSystemBody factsManager fileManager knowledgeTemplate
                       userCommandTemplate getAgentTemplate generateClaudeMdContent
                       insightTemplate input
                       (FactsManager.orElse (project_path input) cwd) now)
       (initFactsSystem now cwd zodMessage factsManager fileManager knowledgeTemplate
          userCommandTemplate getAgentTemplate generateClaudeMdContent insightTemplate
          args) s
  /\ returns (callTool (js "how_to_solve") args) s
  /\ returns (callTool (js "record_insight") args) s
  /\ returns (callTool (js "init_facts_system") args) s.
Proof.
  intros call. split; [|split; [|split; [|split; [|split]]]].
  - apply validated_envelope_intro. intros input v s'.
    apply howToSolveBody_envelope.
  - apply validated_envelope_intro. intros input v s'.
    apply recordInsightBody_envelope.
  - unfold initFactsSystem.
    apply (validated_envelope_intro zodMessage (InitFactsSystemInputSchema args)
             (fun input => initFactsSystemBody factsManager fileManager knowledgeTemplate
                userCommandTemplate getAgentTemplate generateClaudeMdContent
                insightTemplate input
                (FactsManager.orElse (project_path input) cwd) now)).
    intros input v s'. apply initFactsSystemBody_envelope.
  - apply handled_returns.
  - subst call. unfold callTool, tools. cbn [getTool]. unfold eqb_str.
    rewrite bool_decide_false by (by vm_compute). rewrite bool_decide_true by done.
    apply handled_returns.
  - subst call. unfold callTool, tools. cbn [getTool]. unfold eqb_str.
    rewrite !bool_decide_false by (by vm_compute). rewrite bool_decide_true by done.
    apply handled_returns.
Qed.

(** C7 as stated fails: on arguments that fail the schema, here an
    object without the required fields and a value of the wrong type,
    the three tools raise instead of returning an envelope. *)
Lemma tools_raise_on_invalid_arguments :
  memHowToSolve (JObj []) MemFs.empty
  = (Throw (Error (zodText [js "problem"])), MemFs.empty)
  /\ memRecordInsight (JObj [(js "task", JStr (js "implement login"))]) MemFs.empty
     = (Throw (Error (zodText [js "solution"; js "reasoning"; js "category"])),
        MemFs.empty)
  /\ memInitFactsSystem (JObj [(js "project_path", JNum 1)]) MemFs.empty
     = (Throw (Error (zodText [js "project_path"])), MemFs.empty)
  /\ ~ returns (memHowToSolve (JObj [])) MemFs.empty.
Proof.
  split; [by vm_compute|]. split; [by vm_compute|]. split; [by vm_compute|].
  intros (v & s' & H). vm_compute in H. discriminate.
Qed.

(** On valid arguments the tools return their envelope. *)
Example tools_return_on_valid_arguments :
  (exists v s', memHowToSolve (JObj [(js "problem", JStr (js "fix login"))]) MemFs.empty
                = (Ok v, s') /\ isEnvelope v = true /\ successOf v = Some true)
  /\ (exists v s', memInitFactsSystem (JObj []) MemFs.empty
                   = (Ok v, s') /\ isEnvelope v = true /\ successOf v = Some true).
Proof.
  split; eexists _, _; (split; [vm_compute; reflexivity|]); split; reflexivity.
Qed.

End ToolFacts.

(* ===================================================================== *)
(** ** The summary of a document                                          *)
(* ===================================================================== *)

Module SummaryFacts.
Import FactsManager.

Lemma firstMeaningfulLine_cons (line : jsstring) (r : list jsstring) :
  firstMeaningfulLine (line :: r)
  = if meaningful line then Some (summaryOf line) else firstMeaningfulLine r.
Proof. reflexivity. Qed.

Lemma firstMeaningfulLine_None (lines : list jsstring) :
  firstMeaningfulLine lines = None ->
  Forall (fun line => meaningful line = false) lines.
Proof.
  induction lines as [|line r IH]; [by constructor|].
  rewrite firstMeaningfulLine_cons. destruct (meaningful line) eqn:E; [done|].
  intros H. constructor; [done | by apply IH].
Qed.

Lemma firstMeaningfulLine_Some (lines : list jsstring) (s : jsstring) :
  firstMeaningfulLine lines = Some s ->
  exists before line after,
    lines = before ++ line :: after
    /\ Forall (fun l => meaningful l = false) before
    /\ meaningful line = true
    /\ s = summaryOf line.
Proof.
  induction lines as [|line r IH]; [done|].
  rewrite firstMeaningfulLine_cons. destruct (meaningful line) eqn:E.
  - intros [= <-]. exists [], line, r. by repeat split.
  - intros (before & l & after & -> & Hb & Hl & ->)%IH.
    exists (line :: before), l, after. repeat split; [|done].
    by constructor.
Qed.

Lemma summaryOf_bounds (line : jsstring) :
  meaningful line = true ->
  (50 < length (summaryOf line) <= 203)%nat
  /\ startsWith (summaryOf line) (js "#") = false.
Proof.
  unfold meaningful, summaryOf, substring0.
  intros [Hlen Hhash]%andb_true_iff.
  apply Nat.ltb_lt in Hlen. apply negb_true_iff in Hhash.
  set (t := trim line) in *. split.
  - rewrite length_app, length_take.
    change (js "...") with [46%N; 46%N; 46%N].
    destruct (Nat.ltb_spec 200 (length t)); cbn [length]; lia.
  - destruct t as [|c t]; [simpl in Hlen; lia|].
    change (js "#") with [35%N] in *. simpl in *.
    by destruct (c =? 35)%N.
Qed.

(** The summary of a document is the first line of its text after the
    header block that, trimmed, has more than 50 units and does not
    start with [#], cut to 200 units with three dots after a cut; when
    there is no such line it is the fixed text. It has more than 50 and
    at most 203 units, or is the fixed text. *)
Theorem extractSummary_first_meaningful_line (content : jsstring) :
  let lines := split_on 10 (stripFrontMatter content) in
  let s := extractSummary content in
  (Forall (fun line => meaningful line = false) lines
   /\ s = js "No summary available"
   \/ exists before line after,
        lines = before ++ line :: after
        /\ Forall (fun l => meaningful l = false) before
        /\ meaningful line = true
        /\ s = summaryOf line
        /\ (50 < length s)%nat
        /\ startsWith s (js "#") = false)
  /\ (length s <= 203)%nat.
Proof.
  intros lines s. subst s. unfold extractSummary. fold lines.
  destruct (firstMeaningfulLine lines) as [s|] eqn:E; simpl.
  - apply firstMeaningfulLine_Some in E as (before & line & after & H & Hb & Hl & ->).
    destruct (summaryOf_bounds line Hl) as [Hlen Hhash]. split; [|lia].
    right. exists before, line, after. repeat split; try done. lia.
  - split; [|vm_compute; lia]. left. split; [|done].
    by apply firstMeaningfulLine_None.
Qed.

End SummaryFacts.

(* ===================================================================== *)
(** ** The index text                                                     *)
(* ===================================================================== *)

Module IndexFacts.
Import FactsManager TokenFacts.

Lemma setAdd_elem {A} `{EqDecision A} (l : list A) (x y : A) :
  y ∈ setAdd l x <-> y = x \/ y ∈ l.
Proof.
  unfold setAdd. destruct (bool_decide_reflect (x ∈ l)) as [Hx|Hx].
  - split; [by right | by intros [->|Hy]].
  - rewrite elem_of_app, list_elem_of_singleton. tauto.
Qed.

Lemma setAdd_NoDup {A} `{EqDecision A} (l : list A) (x : A) :
  NoDup l -> NoDup (setAdd l x).
Proof.
  intros Hl. unfold setAdd. destruct (bool_decide_reflect (x ∈ l)) as [Hx|Hx]; [done|].
  apply NoDup_app. split; [done|]. split.
  - intros y Hy ->%list_elem_of_singleton. done.
  - apply NoDup_singleton.
Qed.

Section Keywords.
Variable toLowerCase : jsstring -> jsstring.

Lemma addTerms_elem (fileName k : jsstring) (terms keywords : list jsstring) :
  k ∈ addTerms toLowerCase fileName keywords terms
  <-> k ∈ keywords \/ (k ∈ terms /\ mentions toLowerCase fileName k = true).
Proof.
  unfold addTerms. revert keywords.
  induction terms as [|t terms IH]; intros keywords; simpl.
  - split; [by left|]. intros [Hk|[Hk _]]; [done|]. by apply elem_of_nil in Hk.
  - rewrite IH, elem_of_cons.
    destruct (mentions toLowerCase fileName t) eqn:E.
    + rewrite setAdd_elem. split.
      * intros [[->|Hk]|[Hk Hm]]; eauto.
      * intros [Hk|[[->|Hk] Hm]]; eauto.
    + split.
      * intros [Hk|[Hk Hm]]; eauto.
      * intros [Hk|[[->|Hk] Hm]]; eauto. congruence.
Qed.

Lemma addTerms_NoDup (fileName : jsstring) (terms keywords : list jsstring) :
  NoDup keywords -> NoDup (addTerms toLowerCase fileName keywords terms).
Proof.
  unfold addTerms. revert keywords.
  induction terms as [|t terms IH]; intros keywords Hk; simpl; [done|].
  apply IH. destruct (mentions toLowerCase fileName t); [|done].
  by apply setAdd_NoDup.
Qed.

Lemma collectKeywords_elem (k : jsstring) (fileNames keywords : list jsstring) :
  k ∈ collectKeywords toLowerCase keywords fileNames
  <-> k ∈ keywords
      \/ (k ∈ techTerms
          /\ exists f, f ∈ fileNames /\ mentions toLowerCase f k = true).
Proof.
  unfold collectKeywords. revert keywords.
  induction fileNames as [|f fileNames IH]; intros keywords; cbn [foldl].
  - split; [by left|]. intros [Hk|(_ & f & Hf & _)]; [done|].
    by apply elem_of_nil in Hf.
  - rewrite IH, addTerms_elem. split.
    + intros [[Hk|[Hk Hm]]|(Hk & g & Hg & Hm)]; [by left| |].
      * right. split; [done|]. exists f. split; [apply list_elem_of_here | done].
      * right. split; [done|]. exists g. split; [by apply list_elem_of_further | done].
    + intros [Hk|(Hk & g & Hg & Hm)]; [by left; left|].
      apply elem_of_cons in Hg as [->|Hg]; [by left; right|].
      right. eauto.
Qed.

Lemma collectKeywords_NoDup (fileNames keywords : list jsstring) :
  NoDup keywords -> NoDup (collectKeywords toLowerCase keywords fileNames).
Proof.
  unfold collectKeywords. revert keywords.
  induction fileNames as [|f fileNames IH]; intros keywords Hk; cbn [foldl]; [done|].
  by apply IH, addTerms_NoDup.
Qed.

Lemma mentionCount_pos (fileNames : list jsstring) (k : jsstring) :
  (1 <= mentionCount toLowerCase fileNames k)%nat
  <-> exists f, f ∈ fileNames /\ mentions toLowerCase f k = true.
Proof.
  unfold mentionCount. split.
  - intros Hlen.
    destruct (filter (fun f => Is_true (mentions toLowerCase f k)) fileNames)
      as [|f r] eqn:E; [simpl in Hlen; lia|].
    assert (Hf : f ∈ filter (fun f => Is_true (mentions toLowerCase f k)) fileNames)
      by (rewrite E; apply list_elem_of_here).
    apply list_elem_of_filter in Hf as [Hm Hf]. exists f. split; [done|].
    by apply Is_true_true.
  - intros (f & Hf & Hm).
    assert (Hin : f ∈ filter (fun f => Is_true (mentions toLowerCase f k)) fileNames).
    { apply list_elem_of_filter. split; [by apply Is_true_true | done]. }
    destruct (filter (fun f => Is_true (mentions toLowerCase f k)) fileNames);
      [by apply elem_of_nil in Hin | simpl; lia].
Qed.

End Keywords.

(** The keywords of the index: each reported term is one of the fixed
    terms, is reported once, and carries the number of file names that
    mention it, which is at least 1; and every fixed term that some
    file name mentions is reported. *)
Theorem extractTechKeywords_counts_mentions
    (toLowerCase : jsstring -> jsstring) (fileNames : list jsstring) :
  exists keywords,
    extractTechKeywords toLowerCase fileNames
    = map (fun k => k ++ js "(" ++ showNat (mentionCount toLowerCase fileNames k) ++ js ")")
        keywords
    /\ NoDup keywords
    /\ (forall k, k ∈ keywords
                  <-> k ∈ techTerms /\ (1 <= mentionCount toLowerCase fileNames k)%nat)
    /\ Forall (fun k => (mentionCount toLowerCase fileNames k <= length fileNames)%nat)
         keywords.
Proof.
  exists (collectKeywords toLowerCase [] fileNames). split.
  { unfold extractTechKeywords, collectKeywords, addTerms, mentionCount. reflexivity. }
  split; [apply collectKeywords_NoDup, NoDup_nil_2|]. split.
  - intros k. split.
    + intros [Hk|[Hk Hm]]%collectKeywords_elem; [by apply elem_of_nil in Hk|].
      split; [exact Hk|]. apply mentionCount_pos, Hm.
    + intros [Hk Hm]. apply collectKeywords_elem. right.
      split; [exact Hk|]. apply mentionCount_pos, Hm.
  - apply Forall_forall. intros k _. apply length_filter.
Qed.

Lemma join_elem_substring (sep x : jsstring) (l : list jsstring) :
  x ∈ l -> substring_of x (join sep l).
Proof.
  induction l as [|y l IH]; [by intros H; apply elem_of_nil in H|].
  intros [->|Hx]%elem_of_cons.
  - destruct (FormatFacts.join_first sep y l) as [t ->]. by exists [], t.
  - destruct l as [|z l]; [by apply elem_of_nil in Hx|].
    rewrite FormatFacts.join_cons2.
    destruct (IH Hx) as (a & b & ->). exists (y ++ sep ++ a), b.
    by rewrite <- !app_assoc.
Qed.

Lemma entry_in_index
    (toLowerCase : jsstring -> jsstring) (now : jsstring)
    (solutionFiles docFiles : list FileEntry) (context : ProjectContext)
    (file : FileEntry) :
  file ∈ solutionFiles ++ docFiles ->
  substring_of (entryLine file)
    (generateKnowledgeContent toLowerCase now solutionFiles docFiles context).
Proof.
  intros Hin. unfold generateKnowledgeContent.
  apply elem_of_app in Hin as [Hin|Hin].
  - eapply substring_of_trans; [|apply join_elem_substring;
      do 14 apply list_elem_of_further; apply list_elem_of_here].
    destruct solutionFiles as [|f r]; [by apply elem_of_nil in Hin|].
    change (0 <? length (f :: r))%nat with true. cbn iota.
    apply join_elem_substring, list_elem_of_fmap_2, Hin.
  - eapply substring_of_trans; [|apply join_elem_substring;
      do 18 apply list_elem_of_further; apply list_elem_of_here].
    destruct docFiles as [|f r]; [by apply elem_of_nil in Hin|].
    change (0 <? length (f :: r))%nat with true. cbn iota.
    apply join_elem_substring, list_elem_of_fmap_2, Hin.
Qed.

(** The index holds the line of every entry it is built from: the name
    of the file between backquotes, its summary and the date of its
    last change. *)
Theorem index_holds_every_entry
    (toLowerCase : jsstring -> jsstring) (now : jsstring)
    (solutionFiles docFiles : list FileEntry) (context : ProjectContext)
    (file : FileEntry) :
  file ∈ solutionFiles ++ docFiles ->
  includes (generateKnowledgeContent toLowerCase now solutionFiles docFiles context)
    (js "- `" ++ fe_name file ++ js "` - " ++ fe_summary file
     ++ js " (最后修改：" ++ datePart (fe_lastModified file) ++ js ")")
  = true.
Proof.
  intros Hin. apply includes_spec.
  change (js "- `" ++ fe_name file ++ js "` - " ++ fe_summary file
          ++ js " (最后修改：" ++ datePart (fe_lastModified file) ++ js ")")
    with (entryLine file).
  by apply entry_in_index.
Qed.

Lemma index_holds_every_entry_witness :
  let file := {| fe_path := js "/w/.bkproj/facts/solutions/implementlogin_useJWT.md";
                 fe_name := js "implementlogin_useJWT.md";
                 fe_lastModified := clock;
                 fe_summary := js "No summary available" |} in
  let context := {| currentPath := js "/w"; hasLocalDocs := true; factCount := 1;
                    context_categories := [Some (js "technical")];
                    lastActivity := clock |} in
  includes (generateKnowledgeContent asciiLower clock [file] [] context)
    (js "- `" ++ fe_name file ++ js "` - " ++ fe_summary file
     ++ js " (最后修改：" ++ datePart (fe_lastModified file) ++ js ")")
  = true.
Proof.
  intros file context.
  apply (index_holds_every_entry asciiLower clock [file] [] context file).
  apply list_elem_of_here.
Defined.

End IndexFacts.

(* ===================================================================== *)
(** ** The helpers of the record tool                                     *)
(* ===================================================================== *)

Module KeywordFacts.
Import FactsManager Tools TokenFacts IndexFacts.

Lemma wordRuns_runs (s run r : jsstring) :
  Forall (fun c => is_word c = true) run ->
  r ∈ wordRuns run s ->
  Forall (fun c => is_word c = true) r /\ substring_of r (run ++ s).
Proof.
  revert run. induction s as [|c s IH]; intros run Hrun; simpl.
  - destruct run as [|x run]; simpl; [by intros H; apply elem_of_nil in H|].
    intros ->%list_elem_of_singleton. split; [done|].
    exists [], []. reflexivity.
  - destruct (is_word c) eqn:Hc.
    + intros [Hr Hs]%IH.
      * split; [done|]. by rewrite <- app_assoc in Hs.
      * apply Forall_app. split; [done|]. by repeat constructor.
    + assert (Hrest : r ∈ wordRuns [] s ->
                      Forall (fun c => is_word c = true) r
                      /\ substring_of r (run ++ c :: s)).
      { intros [Hr (a & b & Hs)]%IH; [|by constructor]. split; [done|].
        simpl in Hs. exists (run ++ c :: a), b. rewrite Hs, <- app_assoc. done. }
      destruct run as [|x run]; simpl; [exact Hrest|].
      intros [->|Hr]%elem_of_cons; [|by apply Hrest].
      split; [done|]. by exists [], (c :: s).
Qed.

Lemma unique_elem {A} `{EqDecision A} (l acc : list A) (x : A) :
  x ∈ foldl setAdd acc l <-> x ∈ acc \/ x ∈ l.
Proof.
  revert acc. induction l as [|y l IH]; intros acc; simpl.
  - split; [by left|]. intros [H|H]; [done|]. by apply elem_of_nil in H.
  - rewrite IH, setAdd_elem, elem_of_cons. tauto.
Qed.

Lemma unique_NoDup {A} `{EqDecision A} (l acc : list A) :
  NoDup acc -> NoDup (foldl setAdd acc l).
Proof.
  revert acc. induction l as [|y l IH]; intros acc Hacc; simpl; [done|].
  by apply IH, setAdd_NoDup.
Qed.

(** The search keywords of a record: at most 10, without repetition;
    each is a run of at least 4 word units ([A-Za-z0-9_]) of the
    lower-cased text of task and solution, and none is a stop word. *)
Theorem extractSearchKeywords_shape
    (toLowerCase : jsstring -> jsstring) (task solution : jsstring) :
  let keywords := extractSearchKeywords toLowerCase task solution in
  (length keywords <= 10)%nat
  /\ NoDup keywords
  /\ Forall (fun k => (4 <= length k)%nat
                      /\ Forall (fun c => is_word c = true) k
                      /\ (k ∉ searchStopWords)
                      /\ substring_of k (toLowerCase (task ++ js " " ++ solution)))
       keywords.
Proof.
  intros keywords. subst keywords. unfold extractSearchKeywords.
  set (text := toLowerCase (task ++ js " " ++ solution)).
  set (words := filter (fun word => (4 <= length word)%nat) (wordRuns [] text)).
  fold searchStopWords.
  set (unique := filter (fun word => word ∉ searchStopWords) (foldl setAdd [] words)).
  assert (Hnd : NoDup unique).
  { apply NoDup_filter, unique_NoDup, NoDup_nil_2. }
  split; [rewrite length_take; lia|]. split.
  - eapply sublist_NoDup; [exact Hnd | apply sublist_take].
  - apply Forall_take, Forall_forall. intros k Hk.
    apply list_elem_of_filter in Hk as [Hstop Hk].
    apply unique_elem in Hk as [Hk|Hk]; [by apply elem_of_nil in Hk|].
    apply list_elem_of_filter in Hk as [Hlen Hk].
    destruct (wordRuns_runs text [] k) as [Hw Hs]; [by constructor | done |].
    done.
Qed.

End KeywordFacts.

(* ===================================================================== *)
(** ** The location that the record tool reports                          *)
(* ===================================================================== *)

Module LocationFacts.
Import FactsManager Tools FacadeFacts FrameFacts RecordFacts RoundTripFacts ToolFacts.








Section Location.
Variable toLowerCase : jsstring -> jsstring.


End Location.



End LocationFacts.

(* ===================================================================== *)
(** ** The initialisation tool                                            *)
(* ===================================================================== *)

Module InitFacts.
Import FactsManager Tools InitFactsSystemTool FacadeFacts FrameFacts RecordFacts ToolFacts.

Lemma includes_after (e n m : jsstring) :
  includes n m = true -> includes (e ++ n) m = true.
Proof.
  rewrite !includes_spec. intros (a & b & ->). exists (e ++ a), b.
  by rewrite <- app_assoc.
Qed.

Lemma claudeMd_marker (enableAutoCapture : bool) :
  includes (generateClaudeMdContent enableAutoCapture) integrationMarker = true.
Proof. destruct enableAutoCapture; vm_compute; reflexivity. Qed.

Lemma mergeClaudeMdContent_eq (existingContent newContent : jsstring) :
  mergeClaudeMdContent existingContent newContent
  = if includes existingContent integrationMarker then existingContent
    else existingContent ++ [10%N; 10%N] ++ newContent.
Proof. unfold mergeClaudeMdContent, integrationMarker. reflexivity. Qed.

(** The integration text is added to a [CLAUDE.md] once: the text that
    was there stays in front, and a second merge, with either value of
    the flag, returns the merged text as it is. *)
Theorem mergeClaudeMdContent_merges_once
    (existingContent : jsstring) (first second : bool) :
  let merged := mergeClaudeMdContent existingContent (generateClaudeMdContent first) in
  existingContent `prefix_of` merged
  /\ includes merged integrationMarker = true
  /\ mergeClaudeMdContent merged (generateClaudeMdContent second) = merged.
Proof.
  intros merged.
  assert (Hm : includes merged integrationMarker = true).
  { subst merged. rewrite mergeClaudeMdContent_eq.
    destruct (includes existingContent integrationMarker) eqn:E; [exact E|].
    apply includes_after, includes_after, claudeMd_marker. }
  split; [|split; [exact Hm|]].
  - subst merged. rewrite mergeClaudeMdContent_eq.
    destruct (includes existingContent integrationMarker).
    + exists []. by rewrite app_nil_r.
    + eexists. reflexivity.
  - rewrite (mergeClaudeMdContent_eq merged). rewrite Hm. reflexivity.
Qed.

(** *** The writes of [execute] *)

Section Log.
Context {S : Type}.
Variable fm : IFileManager S.




End Log.



End InitFacts.

(* ===================================================================== *)
(** ** What a recorded insight reads back as                              *)
(* ===================================================================== *)

Module HeaderRoundTrip.
Import FactsManager FormatFacts ScoreFacts.
#[local] Open Scope Q_scope.

Lemma join_split_on (c : N) (s : jsstring) : join [c] (split_on c s) = s.
Proof.
  induction s as [|a s IH]; [done|]. simpl.
  pose proof (split_on_nonempty c s) as Hl.
  destruct (split_on c s) as [|t ts] eqn:E; [simpl in Hl; lia|].
  destruct (N.eqb_spec a c) as [->|Hne].
  - rewrite join_cons2, IH. done.
  - destruct ts as [|u ts].
    + simpl in *. by rewrite IH.
    + rewrite join_cons2. rewrite join_cons2 in IH. rewrite <- IH. reflexivity.
Qed.

(** The header that [formatInsightContent] writes reads back, by
    [parseInsightMetadata], as five fields: the category, the
    confidence, the date of the clock, the category between brackets
    as the one tag, and the empty list of files as a text. There is no
    title. *)
Theorem recorded_header_reads_back (now : jsstring) (insight : InsightRecord) :
  10%N ∉ datePart now ->
  parseInsightMetadata (formatInsightContent now insight)
  = <[ js "related_files" := js "[]" ]>
      (<[ js "tags" := js "[" ++ category_str (insight_category insight) ++ js "]" ]>
         (<[ js "created_date" := trim (datePart now) ]>
            (<[ js "confidence" := confidence_str (confidence insight) ]>
               (<[ js "category" := category_str (insight_category insight) ]> ∅)))).
Proof.
  intros HD. unfold parseInsightMetadata, formatInsightContent.
  set (C := category_str (insight_category insight)).
  set (F := confidence_str (confidence insight)).
  set (D := datePart now) in *.
  match goal with
  | |- context [join [10%N] (js "---" :: ?l2 :: ?l3 :: ?l4 :: ?l5 :: ?l6 :: js "---" :: ?more)] =>
      change (join [10%N] (js "---" :: l2 :: l3 :: l4 :: l5 :: l6 :: js "---" :: more))
        with (join [10%N] (js "---" :: [l2; l3; l4; l5; l6] ++ js "---" :: more));
      set (ls := [l2; l3; l4; l5; l6])
  end.
  assert (HC : 10%N ∉ C).
  { subst C. destruct (insight_category insight); apply not_in_literal; reflexivity. }
  assert (HF : 10%N ∉ F).
  { subst F. destruct (confidence insight); apply not_in_literal; reflexivity. }
  assert (Hlines : Forall (fun y => (10%N ∉ y) /\ exists c y', y = c :: y' /\ c <> 45%N) ls).
  { subst ls. repeat (apply Forall_cons; split); try (by apply Forall_nil).
    - by apply header_line_ok.
    - by apply header_line_ok.
    - by apply header_line_ok.
    - apply header_line_ok; [done | done |].
      rewrite elem_of_app. intros [H|H]; [done|].
      revert H. by apply not_in_literal.
    - change (js "related_files: []") with (js "related_files: []" ++ []).
      apply header_line_ok; [done | done | apply not_elem_of_nil]. }
  rewrite matchFrontMatter_lines; [|done|done].
  rewrite split_join; [|done|].
  2:{ eapply Forall_impl; [exact Hlines|]. by intros y [Hy _]. }
  subst ls. cbn [foldl].
  change (js "category: " ++ C) with (js "category" ++ 58%N :: 32%N :: C).
  change (js "confidence: " ++ F) with (js "confidence" ++ 58%N :: 32%N :: F).
  change (js "created_date: " ++ D) with (js "created_date" ++ 58%N :: 32%N :: D).
  change (js "tags: [" ++ C ++ js "]")
    with (js "tags" ++ 58%N :: 32%N :: 91%N :: C ++ js "]").
  change (js "related_files: []") with (js "related_files" ++ 58%N :: js " []").
  do 5 (rewrite parseHeaderLine_kv; [| by apply not_in_literal | by vm_compute]).
  rewrite !join_split_on.
  unfold setProperty.
  change (eqb_str (trim (js "category")) (js "__proto__")) with false.
  change (eqb_str (trim (js "confidence")) (js "__proto__")) with false.
  change (eqb_str (trim (js "created_date")) (js "__proto__")) with false.
  change (eqb_str (trim (js "tags")) (js "__proto__")) with false.
  change (eqb_str (trim (js "related_files")) (js "__proto__")) with false.
  cbn iota.
  change (trim (js "category")) with (js "category").
  change (trim (js "confidence")) with (js "confidence").
  change (trim (js "created_date")) with (js "created_date").
  change (trim (js "tags")) with (js "tags").
  change (trim (js "related_files")) with (js "related_files").
  change (trim (js " []")) with (js "[]").
  change (trim (32%N :: D)) with (trim D).
  assert (HtC : trim (32%N :: C) = C)
    by (subst C; destruct (insight_category insight); vm_compute; reflexivity).
  assert (HtF : trim (32%N :: F) = F)
    by (subst F; destruct (confidence insight); vm_compute; reflexivity).
  assert (HtT : trim (32%N :: 91%N :: C ++ js "]") = js "[" ++ C ++ js "]")
    by (subst C; destruct (insight_category insight); vm_compute; reflexivity).
  rewrite HtC, HtF, HtT. reflexivity.
Qed.

(** On the example of the specification. *)
Lemma recorded_header_reads_back_witness :
  parseInsightMetadata (formatInsightContent clock loginInsight)
  = <[ js "related_files" := js "[]" ]>
      (<[ js "tags" := js "[" ++ category_str (insight_category loginInsight) ++ js "]" ]>
         (<[ js "created_date" := trim (datePart clock) ]>
            (<[ js "confidence" := confidence_str (confidence loginInsight) ]>
               (<[ js "category" := category_str (insight_category loginInsight) ]> ∅)))).
Proof.
  apply (recorded_header_reads_back clock loginInsight).
  apply not_in_literal. vm_compute. reflexivity.
Defined.

(** A recorded insight has no title to match, so its score against any
    query is at most 0.6: the word overlap, the mention of its category
    and the match of its tag. *)
Theorem recorded_insight_scores_at_most_six_tenths
    (toLowerCase : jsstring -> jsstring) (now : jsstring) (insight : InsightRecord)
    (query : jsstring) :
  10%N ∉ datePart now ->
  let content := formatInsightContent now insight in
  titleSignal toLowerCase (toLowerCase query) (parseInsightMetadata content) == 0
  /\ calculateRelevance toLowerCase query content (parseInsightMetadata content) <= 0.6.
Proof.
  intros HD content.
  destruct (formatted_header now insight HD) as [_ Htitle]. fold content in Htitle.
  assert (Ht : titleSignal toLowerCase (toLowerCase query) (parseInsightMetadata content) = 0).
  { unfold titleSignal. by rewrite Htitle. }
  split; [by rewrite Ht|].
  unfold calculateRelevance. rewrite Ht.
  set (ql := toLowerCase query). set (cl := toLowerCase content).
  destruct (wordSignal_bounds ql cl) as [_ Hw].
  destruct (categorySignal_bounds ql (parseInsightMetadata content)) as [_ Hc].
  destruct (tagSignal_bounds toLowerCase ql (parseInsightMetadata content)) as [_ Hg].
  eapply Qle_trans; [apply Q.le_min_l|].
  rewrite !Qplus_0_l.
  apply Qle_trans with (0.4 + 0.1 + 0.1); [|by vm_compute].
  repeat apply Qplus_le_compat; done.
Qed.

Lemma recorded_insight_scores_at_most_six_tenths_witness :
  let content := formatInsightContent clock loginInsight in
  titleSignal asciiLower (asciiLower (js "implement login")) (parseInsightMetadata content) == 0
  /\ calculateRelevance asciiLower (js "implement login") content
       (parseInsightMetadata content) <= 0.6.
Proof.
  apply (recorded_insight_scores_at_most_six_tenths asciiLower clock loginInsight
           (js "implement login")).
  apply not_in_literal. vm_compute. reflexivity.
Defined.

End HeaderRoundTrip.

(* ===================================================================== *)
(** ** The match of a command                                             *)
(* ===================================================================== *)

Module MatchFacts.
Import FactsManager.

(** A command matches a query when some token of the lower-cased query
    occurs in its lower-cased name or description, and only then; the
    test on the length of the token changes nothing, so that tokens of
    one or two units match as well. *)
Theorem commandMatches_iff_token_occurs
    (toLowerCase : jsstring -> jsstring) (queryLower : jsstring) (cmd : Command) :
  commandMatches toLowerCase queryLower cmd = true
  <-> exists word,
        word ∈ split_ws queryLower
        /\ (substring_of word (toLowerCase (command cmd))
            \/ substring_of word (toLowerCase (description cmd))).
Proof.
  unfold commandMatches. rewrite existsb_exists. split.
  - intros (word & Hin & Hm). exists word. split; [by apply list_elem_of_In|].
    rewrite <- !includes_spec.
    destruct (includes (toLowerCase (command cmd)) word); [by left|].
    destruct (includes (toLowerCase (description cmd)) word); [by right|].
    simpl in Hm. by rewrite andb_false_r in Hm.
  - intros (word & Hin & Hm). exists word. split; [by apply list_elem_of_In|].
    rewrite <- !includes_spec in Hm.
    destruct Hm as [-> | ->]; [done|]. by rewrite orb_true_r.
Qed.

End MatchFacts.

(* ===================================================================== *)
(** ** The results of a search                                            *)
(* ===================================================================== *)

Module SearchFacts.
Import FactsManager FacadeFacts TokenFacts.
#[local] Open Scope Q_scope.

Lemma includesCategory_spec (categories : list jsstring) (c : option jsstring) :
  includesCategory categories c = true <-> exists x, c = Some x /\ x ∈ categories.
Proof.
  unfold includesCategory. destruct c as [x|].
  - rewrite existsb_exists. split.
    + intros (y & Hy & He). unfold eqb_str in He. apply bool_decide_eq_true in He.
      subst y. exists x. split; [done|]. by apply list_elem_of_In.
    + intros (y & [= <-] & Hy). exists x. split; [by apply list_elem_of_In|].
      unfold eqb_str. by apply bool_decide_eq_true.
  - split; [done|]. by intros (x & H & _).
Qed.

(** *** The order *)

Lemma insertByRelevance_sorted (a : FactDocument) (l : list FactDocument) :
  StronglySorted byRelevance l -> StronglySorted byRelevance (insertByRelevance a l).
Proof.
  induction 1 as [|b l Hl IH Hb]; simpl.
  - constructor; [constructor | constructor].
  - destruct (Qle_bool (relevanceScore b) (relevanceScore a)) eqn:E.
    + apply Qle_bool_iff in E. constructor; [by constructor|].
      constructor; [exact E|].
      eapply Forall_impl; [exact Hb|]. intros x Hx. unfold byRelevance in *.
      by eapply Qle_trans.
    + constructor; [exact IH|].
      apply Forall_forall. intros x [->|Hx]%insertByRelevance_elem.
      * unfold byRelevance. apply Qlt_le_weak, Qnot_le_lt. intros Hle.
        apply Qle_bool_iff in Hle. congruence.
      * rewrite Forall_forall in Hb. by apply Hb.
Qed.

Lemma sortByRelevance_sorted (l : list FactDocument) :
  StronglySorted byRelevance (sortByRelevance l).
Proof.
  induction l as [|a l IH]; simpl; [constructor|].
  by apply insertByRelevance_sorted.
Qed.

Lemma take_sorted (n : nat) (l : list FactDocument) :
  StronglySorted byRelevance l -> StronglySorted byRelevance (take n l).
Proof.
  intros Hs. revert n.
  induction Hs as [|a l Hl IH Ha]; intros n; [rewrite take_nil; constructor|].
  destruct n as [|n]; simpl; [constructor|].
  constructor; [apply IH | by apply Forall_take].
Qed.

Lemma slice0_sorted (n : Z) (l : list FactDocument) :
  StronglySorted byRelevance l -> StronglySorted byRelevance (slice0 n l).
Proof. intros Hl. unfold slice0. destruct (n <? 0)%Z; by apply take_sorted. Qed.

Lemma slice0_Forall {A} (P : A -> Prop) (n : Z) (l : list A) :
  Forall P l -> Forall P (slice0 n l).
Proof. intros Hl. unfold slice0. destruct (n <? 0)%Z; by apply Forall_take. Qed.

Lemma slice0_length {A} (n : Z) (l : list A) :
  (n < 0)%Z \/ (Z.of_nat (length (slice0 n l)) <= n)%Z.
Proof.
  unfold slice0. destruct (Z.ltb_spec n 0); [by left|]. right.
  rewrite length_take. lia.
Qed.

(** *** The scan *)

Section Scan.
Variable toLowerCase : jsstring -> jsstring.
Context {S : Type}.
Variable fm : IFileManager S.
Variable projectPath : jsstring.

Lemma collectFrom_pushes (dir : jsstring) (s : S) (l : list jsstring) :
  exists o s' l',
    collectFrom fm dir (s, l) = (o, (s', l ++ l'))
    /\ Forall (fun p => exists name, endsWith name (js ".md") = true
                                     /\ p = pathJoin dir name) l'.
Proof.
  unfold collectFrom, bind, lift.
  destruct (fm_exists fm dir s) as [[[|]|e] s1].
  - destruct (fm_listFiles fm dir s1) as [[names|e] s2].
    + unfold modify_local. eexists _, _, _. split; [reflexivity|].
      unfold markdownPaths. apply Forall_forall.
      intros p (name & -> & Hn)%list_elem_of_fmap.
      apply list_elem_of_filter in Hn as [Hn _]. exists name.
      split; [by apply Is_true_true | done].
    + exists (Throw e), s2, []. rewrite app_nil_r. by split.
  - exists (Ok tt), s1, []. rewrite app_nil_r. by split.
  - exists (Throw e), s1, []. rewrite app_nil_r. by split.
Qed.

Lemma findInsightFiles_inCollections (s : S) :
  exists files s',
    findInsightFiles fm projectPath s = (Ok files, s')
    /\ Forall (inCollections projectPath) files.
Proof.
  unfold findInsightFiles, try_catch, bind.
  destruct (collectFrom_pushes (solutionsPath projectPath) s []) as (o1 & s1 & l1 & -> & H1).
  assert (Hl1 : Forall (inCollections projectPath) l1).
  { eapply Forall_impl; [exact H1|]. intros p (name & Hn & ->). exists name. eauto. }
  simpl. destruct o1 as [[]|e].
  - destruct (collectFrom_pushes (docsPath projectPath) s1 l1) as (o2 & s2 & l2 & -> & H2).
    assert (Hl2 : Forall (inCollections projectPath) l2).
    { eapply Forall_impl; [exact H2|]. intros p (name & Hn & ->). exists name. eauto. }
    destruct o2 as [[]|e]; eexists _, _; (split; [reflexivity|]);
      apply Forall_app; by split.
  - eexists _, _. split; [reflexivity | done].
Qed.

Lemma scanFile_pushes (q : jsstring) (cats : list jsstring) (m : Q)
    (acc : list FactDocument) (p : jsstring) (s : S) :
  inCollections projectPath p ->
  Forall (passesFilters cats m projectPath) acc ->
  exists acc' s',
    scanFile toLowerCase fm q cats m acc p s = (Ok acc', s')
    /\ Forall (passesFilters cats m projectPath) acc'.
Proof.
  intros Hp Hacc. unfold scanFile, try_catch, bind.
  destruct (fm_readFile fm p s) as [[content|e] s1]; [|by eexists _, _].
  destruct (includesCategory cats _) eqn:Hc; [|by eexists _, _].
  destruct (Qle_bool m _) eqn:Hm; [|by eexists _, _].
  eexists _, _. split; [reflexivity|].
  apply Forall_app. split; [done|]. constructor; [|constructor].
  repeat split; cbn [category relevanceScore path].
  - by apply includesCategory_spec.
  - by apply Qle_bool_iff.
  - unfold calculateRelevance. apply Q.le_min_r.
  - done.
Qed.

Lemma scanFiles_pushes (q : jsstring) (cats : list jsstring) (m : Q)
    (files : list jsstring) (acc : list FactDocument) (s : S) :
  Forall (inCollections projectPath) files ->
  Forall (passesFilters cats m projectPath) acc ->
  exists acc' s',
    scanFiles toLowerCase fm q cats m acc files s = (Ok acc', s')
    /\ Forall (passesFilters cats m projectPath) acc'.
Proof.
  intros Hfiles. revert acc s.
  induction Hfiles as [|p files Hp Hfiles IH]; intros acc s Hacc; simpl.
  - by eexists _, _.
  - unfold bind.
    destruct (scanFile_pushes q cats m acc p s Hp Hacc) as (acc1 & s1 & -> & H1).
    by apply IH.
Qed.

(** The ordinary results: filtered, ranked and cut. *)
Lemma searchFactsInternal_results (q : jsstring) (options : SearchOptions) (s : S) :
  exists docs s',
    searchFactsInternal toLowerCase fm projectPath q options s = (Ok docs, s')
    /\ Forall (passesFilters (default defaultCategories (categories options))
                 (default 0.5 (minRelevance options)) projectPath) docs
    /\ StronglySorted byRelevance docs
    /\ ((default 10%Z (maxResults options) < 0)%Z
        \/ (Z.of_nat (length docs) <= default 10%Z (maxResults options))%Z).
Proof.
  unfold searchFactsInternal, try_catch, bind.
  set (cats := default defaultCategories (categories options)).
  set (m := default 0.5 (minRelevance options)).
  set (n := default 10%Z (maxResults options)).
  assert (Hnil : forall s' : S,
             exists docs s'',
               (Ok ([] : list FactDocument), s') = (Ok docs, s'')
               /\ Forall (passesFilters cats m projectPath) docs
               /\ StronglySorted byRelevance docs
               /\ ((n < 0)%Z \/ (Z.of_nat (length docs) <= n)%Z)).
  { intros s'. exists [], s'. repeat split; [constructor | constructor |].
    destruct (Z.ltb_spec n 0); [by left|]. right. simpl. lia. }
  destruct (fm_exists fm (localDocsPath projectPath) s) as [[[|]|e] s1]; simpl.
  - destruct (findInsightFiles_inCollections s1) as (files & s2 & -> & Hfiles).
    destruct (scanFiles_pushes q cats m files [] s2 Hfiles) as (docs & s3 & -> & Hdocs);
      [constructor|].
    unfold ret. exists (slice0 n (sortByRelevance docs)), s3.
    split; [reflexivity|]. split; [|split].
    + apply slice0_Forall, Forall_forall. intros d Hd.
      apply (proj1 (sortByRelevance_elem d docs)) in Hd.
      rewrite Forall_forall in Hdocs. exact (Hdocs d Hd).
    + apply slice0_sorted, sortByRelevance_sorted.
    + apply slice0_length.
  - apply Hnil.
  - apply Hnil.
Qed.

End Scan.

(** Every ordinary result of a search passed the two filters and comes
    from a collection: its category is one of the categories asked for
    (by default the four), its score is at least the threshold (by
    default 0.5) and at most 1, and its path is the solutions or the
    docs directory joined with a name that ends with [.md]. The results
    are in the order of their scores, the highest first, and, for a
    limit that is not negative (by default 10), there are no more of
    them than the limit. *)
Theorem searchFactsInternal_filters_ranks_and_cuts {S}
    (toLowerCase : jsstring -> jsstring) (fm : IFileManager S)
    (projectPath query : jsstring) (options : SearchOptions) (s : S) :
  exists docs s',
    searchFactsInternal toLowerCase fm projectPath query options s = (Ok docs, s')
    /\ Forall (passesFilters (default defaultCategories (categories options))
                 (default 0.5 (minRelevance options)) projectPath) docs
    /\ StronglySorted byRelevance docs
    /\ ((default 10%Z (maxResults options) < 0)%Z
        \/ (Z.of_nat (length docs) <= default 10%Z (maxResults options))%Z).
Proof. apply searchFactsInternal_results. Qed.

(** The list that [searchFacts] returns, with the results made from
    commands in front, is in the order of the scores as a whole: no
    result scores more than a result before it. *)
Theorem searchFacts_sorted_by_relevance {S}
    (toLowerCase : jsstring -> jsstring) (fm : IFileManager S)
    (projectPath query : jsstring) (options : SearchOptions) (s : S) :
  exists found s',
    searchFacts toLowerCase fm projectPath query options s = (Ok found, s')
    /\ StronglySorted byRelevance found.
Proof.
  destruct (getUserCommands_returns toLowerCase fm projectPath query s)
    as (cmds & s1 & Hc).
  destruct (searchFactsInternal_results toLowerCase fm projectPath query options s1)
    as (docs & s2 & Hd & Hpass & Hsorted & _).
  eexists _, _. split; [by eapply searchFacts_eq|].
  induction cmds as [|c cmds IH] in |- *; simpl; [done|].
  constructor; [exact IH|].
  apply Forall_app. split.
  - apply Forall_forall. intros d (c' & -> & _)%list_elem_of_fmap.
    unfold byRelevance. simpl. apply Qle_refl.
  - eapply Forall_impl; [exact Hpass|]. intros d (_ & _ & Hle & _).
    unfold byRelevance. simpl. exact Hle.
Qed.

End SearchFacts.

(* ===================================================================== *)
(** ** The project context, the index and the solve tool                  *)
(* ===================================================================== *)

Module ContextFacts.
Import FactsManager FacadeFacts FrameFacts RecordFacts IndexFacts SearchFacts Tools ToolFacts.
#[local] Open Scope Q_scope.


Section Context.
Context {S : Type}.
Variable fm : IFileManager S.


End Context.







End ContextFacts.

(* ===================================================================== *)
(** ** The errors of the file manager                                     *)
(* ===================================================================== *)

Module FileManagerFacts.

(** [FileManager] over any file system: the existence check does not
    fail; a directory that is not there lists as empty, without a call
    of [readdir]; and every error of the four other operations is an
    [Error] that names the operation, the path and the cause. A write
    whose directory cannot be made reports the failure of the
    directory inside the failure of the write. *)
Theorem fileManager_errors_name_operation_and_path {S}
    (fs : NodeFs S) (p content : jsstring) (s : S) :
  (exists found s', FileManager.exists_ fs p s = (Ok found, s'))
  /\ (forall e s', FileManager.readFile fs p s = (Throw e, s') ->
        exists cause, fs_readFile fs p s = (Throw cause, s')
                      /\ e = wrapped (js "Failed to read file ") p cause)
  /\ (forall e s', FileManager.createDirectory fs p s = (Throw e, s') ->
        exists cause, fs_mkdir_recursive fs p s = (Throw cause, s')
                      /\ e = wrapped (js "Failed to create directory ") p cause)
  /\ (forall cause s1, fs_access fs p s = (Throw cause, s1) ->
        FileManager.listFiles fs p s = (Ok [], s1))
  /\ (forall e s', FileManager.listFiles fs p s = (Throw e, s') ->
        exists cause s1,
          fs_access fs p s = (Ok tt, s1) /\ fs_readdir fs p s1 = (Throw cause, s')
          /\ e = wrapped (js "Failed to list files in ") p cause)
  /\ (forall e s', FileManager.writeFile fs p content s = (Throw e, s') ->
        exists cause,
          e = wrapped (js "Failed to write file ") p cause
          /\ ((exists s1, fs_mkdir_recursive fs (dirname p) s = (Ok tt, s1)
                          /\ fs_writeFile fs p content s1 = (Throw cause, s'))
              \/ (exists inner,
                    fs_mkdir_recursive fs (dirname p) s = (Throw inner, s')
                    /\ cause = wrapped (js "Failed to create directory ") (dirname p) inner))).
Proof.
  split; [|split; [|split; [|split; [|split]]]].
  - unfold FileManager.exists_, try_catch, bind, ret.
    destruct (fs_access fs p s) as [[[]|e] s1]; eauto.
  - intros e s'. unfold FileManager.readFile, FileManager.rethrow, try_catch, throw.
    destruct (fs_readFile fs p s) as [[c|cause] s1]; [done|].
    intros [= <- <-]. eauto.
  - intros e s'. unfold FileManager.createDirectory, FileManager.rethrow, try_catch, throw.
    destruct (fs_mkdir_recursive fs p s) as [[[]|cause] s1]; [done|].
    intros [= <- <-]. eauto.
  - intros cause s1 Ha.
    unfold FileManager.listFiles, FileManager.exists_, try_catch, bind, ret.
    rewrite Ha. reflexivity.
  - intros e s'.
    unfold FileManager.listFiles, FileManager.exists_, FileManager.rethrow,
      try_catch, bind, ret, throw.
    destruct (fs_access fs p s) as [[[]|e1] s1]; simpl; [|done].
    destruct (fs_readdir fs p s1) as [[names|cause] s2] eqn:Hr; [done|].
    intros [= <- <-]. by exists cause, s1.
  - intros e s'.
    unfold FileManager.writeFile, FileManager.createDirectory, FileManager.rethrow,
      try_catch, bind, throw.
    destruct (fs_mkdir_recursive fs (dirname p) s) as [[[]|inner] s1].
    + destruct (fs_writeFile fs p content s1) as [[[]|cause] s2] eqn:Hw; [done|].
      intros [= <- <-]. exists cause. split; [done|]. left. by exists s1.
    + intros [= <- <-].
      exists (wrapped (js "Failed to create directory ") (dirname p) inner).
      split; [reflexivity|]. right. by exists inner.
Qed.

End FileManagerFacts.

(* ===================================================================== *)
(** ** Operations composed, over the in-memory tree                       *)
(* ===================================================================== *)

Module TreeFacts.
Import FactsManager FacadeFacts FrameFacts RecordFacts MemFsFacts FormatFacts
  RoundTripFacts HeaderFacts IndexFacts.

(** *** Directories and files under an insertion *)











(** *** After a record *)

Section Recorded.
Variable toLowerCase : jsstring -> jsstring.
Variables now cwd projectPath : jsstring.

Lemma filename_ends_md (i : InsightRecord) :
  endsWith (generateInsightFilename i) (js ".md") = true.
Proof.
  unfold endsWith, generateInsightFilename. rewrite !rev_app_distr.
  apply startsWith_spec. eexists. rewrite <- app_assoc. reflexivity.
Qed.

(** The document of a successful record is a file of the tree under
    directories, and it is listed. *)
Lemma recorded_listed (i : InsightRecord) (d d' : MemFs.t) :
  recordInsight toLowerCase now cwd MemFs.fileManager projectPath i d = (Ok tt, d') ->
  d' !! insightPath projectPath i = Some (MemFs.File (formatInsightContent now i))
  /\ MemFs.present d' (localDocsPath projectPath) = true
  /\ MemFs.isFile d' (solutionsPath projectPath) = false
  /\ MemFs.isDir d' (solutionsPath projectPath) = true
  /\ exists files,
       findInsightFiles MemFs.fileManager projectPath d' = (Ok files, d')
       /\ insightPath projectPath i ∈ files.
Proof.
  intros Hrec.
  destruct (recordInsight_memfs_ok toLowerCase now cwd projectPath i d d' Hrec)
    as [Hp Hanc].
  destruct (insightPath_eq projectPath i) as [Hsol Hloc].
  assert (Hfs : MemFs.isFile d' (solutionsPath projectPath) = false).
  { apply Hanc. rewrite Hsol. apply is_ancestor_app. }
  split; [exact Hp|]. split; [|split; [exact Hfs|split]].
  - unfold MemFs.present. apply orb_true_iff. right.
    eapply isDir_above; [exact Hp | |].
    + rewrite Hloc. apply is_ancestor_app.
    + apply Hanc. rewrite Hloc. apply is_ancestor_app.
  - eapply isDir_above; [exact Hp | | exact Hfs].
    rewrite Hsol. apply is_ancestor_app.
  - rewrite Hsol in Hp.
    destruct (findInsightFiles_solutions projectPath d' _ _ Hp) as (files & Hf & Hin).
    + apply filename_has_no_slash.
    + apply filename_ends_md.
    + exact Hfs.
    + exists files. split; [exact Hf|].
      rewrite Hsol. rewrite pathJoin_plain in Hin; [exact Hin | | |].
      * rewrite solutionsPath_eq. by destruct (localDocsPath projectPath).
      * unfold generateInsightFilename, substring0.
        by destruct (take 30 (sanitize (task i))).
      * rewrite solutionsPath_eq. unfold endsWith. rewrite rev_app_distr.
        by vm_compute.
Qed.


End Recorded.



(** After a successful record the context of the project has local
    docs, counts at least one fact and names the category of the
    insight. *)
Theorem recorded_insight_shows_in_context
    (toLowerCase : jsstring -> jsstring) (now cwd projectPath : jsstring)
    (insight : InsightRecord) (d d' : MemFs.t) :
  10%N ∉ datePart now ->
  recordInsight toLowerCase now cwd MemFs.fileManager projectPath insight d = (Ok tt, d') ->
  exists context,
    getProjectContext now cwd MemFs.fileManager projectPath d' = (Ok context, d')
    /\ hasLocalDocs context = true
    /\ (1 <= factCount context)%nat
    /\ Some (category_str (insight_category insight)) ∈ context_categories context.
Proof.
  intros Hclock Hrec.
  destruct (recorded_listed toLowerCase now cwd projectPath insight d d' Hrec)
    as (Hp & HL & _ & _ & files & Hfiles & Hin).
  destruct (getProjectContext_hit now cwd projectPath d' files _ _ HL Hfiles Hin Hp)
    as (context & Hctx & Hdocs & Hcount & Hcat).
  exists context. split; [exact Hctx|]. split; [exact Hdocs|]. split.
  - rewrite Hcount. destruct files; [by apply elem_of_nil in Hin | simpl; lia].
  - by rewrite (proj1 (formatted_header now insight Hclock)) in Hcat.
Qed.

Lemma recorded_insight_shows_in_context_witness :
  let d' := (recordInsight asciiLower clock (js "/w") MemFs.fileManager (js "/w")
               loginInsight MemFs.empty).2 in
  exists context,
    getProjectContext clock (js "/w") MemFs.fileManager (js "/w") d' = (Ok context, d')
    /\ hasLocalDocs context = true
    /\ (1 <= factCount context)%nat
    /\ Some (category_str (insight_category loginInsight)) ∈ context_categories context.
Proof.
  intros d'.
  apply (recorded_insight_shows_in_context asciiLower clock (js "/w") (js "/w")
           loginInsight MemFs.empty d').
  - apply not_in_literal. vm_compute. reflexivity.
  - vm_compute. reflexivity.
Defined.



(** *** The three directories *)



End TreeFacts.

(* ===================================================================== *)
(** ** The handler of the server                                          *)
(* ===================================================================== *)

Module ServerFacts.
Import Tools ToolFacts.

Section Handler.
Context {S : Type}.
Variable toLowerCase : jsstring -> jsstring.
Variable now : jsstring.
Variable dateNow : N.
Variable cwd : jsstring.
Variable zodMessage : list jsstring -> jsstring.
Variable factsManager : IFactsManager S.
Variable fileManager : IFileManager S.
Variables knowledgeTemplate userCommandTemplate : jsstring.
Variable getAgentTemplate : jsstring -> jsstring.
Variable generateClaudeMdContent : bool -> jsstring.
Variable insightTemplate : jsstring.
Variable stringify : JsValue -> jsstring.

(** What the handler does with a tool that it holds. *)
Lemma callTool_known (name : jsstring) (tool : JsValue -> M S JsValue) (args : JsValue) :
  getTool name
    (tools toLowerCase now dateNow cwd zodMessage factsManager fileManager
       knowledgeTemplate userCommandTemplate getAgentTemplate generateClaudeMdContent
       insightTemplate) = Some tool ->
  callTool toLowerCase now dateNow cwd zodMessage factsManager fileManager
    knowledgeTemplate userCommandTemplate getAgentTemplate generateClaudeMdContent
    insightTemplate stringify name args
  = try_catch
      (let* result := tool (if toBoolean args then args else JObj []) in
       ret (textResult (stringify result) false))
      (fun error =>
         ret (textResult
                (stringify
                   (handlerFailure name
                      match error with
                      | Error message => message
                      | NonError => js "Unknown error occurred"
                      end now)) true)).
Proof. intros H. unfold callTool. rewrite H. reflexivity. Qed.

(** A tool whose schema rejects the arguments raises the message of the
    issues, and the handler reports it. *)
Lemma rejected_reported {A} (name : jsstring) (parsed : list jsstring + A)
    (rest : A -> M S JsValue) (issues : list jsstring) (s : S) :
  parsed = inl issues ->
  try_catch
    (let* result := (let* input := zodParse zodMessage parsed in rest input) in
     ret (textResult (stringify result) false))
    (fun error =>
       ret (textResult
              (stringify
                 (handlerFailure name
                    match error with
                    | Error message => message
                    | NonError => js "Unknown error occurred"
                    end now)) true)) s
  = (Ok (textResult (stringify (handlerFailure name (zodMessage issues) now)) true), s).
Proof. intros ->. reflexivity. Qed.
End Handler.

(** A call of the server raises for a name that is none of the three
    tools, with the message [Tool "name" not found] and before anything
    else, and for no other call. Arguments that are absent are taken as
    the empty object. Arguments that the schema of the tool rejects do
    not make the call raise: the result carries [isError: true] and the
    text of an object with [success: false] and the message
    [Error executing name: ] followed by the message of the issues. *)
Theorem callTool_raises_for_unknown_names_only {S}
    (toLowerCase : jsstring -> jsstring) (now : jsstring) (dateNow : N)
    (cwd : jsstring) (zodMessage : list jsstring -> jsstring)
    (factsManager : IFactsManager S) (fileManager : IFileManager S)
    (knowledgeTemplate userCommandTemplate : jsstring)
    (getAgentTemplate : jsstring -> jsstring)
    (generateClaudeMdContent : bool -> jsstring)
    (insightTemplate : jsstring) (stringify : JsValue -> jsstring)
    (name : jsstring) (args : JsValue) (s : S) :
  let callTool :=
    callTool toLowerCase now dateNow cwd zodMessage factsManager fileManager
      knowledgeTemplate userCommandTemplate getAgentTemplate generateClaudeMdContent
      insightTemplate stringify in
  let given := if toBoolean args then args else JObj [] in
  let rejected tool issues :=
    callTool tool args s
    = (Ok (textResult (stringify (handlerFailure tool (zodMessage issues) now)) true), s) in
  (name ∉ toolNames ->
     callTool name args s
     = (Throw (Error (js "Tool " ++ quote ++ name ++ quote ++ js " not found")), s))
  /\ (name ∈ toolNames -> returns (callTool name args) s)
  /\ (forall issues, HowToSolveInputSchema given = inl issues ->
        rejected (js "how_to_solve") issues)
  /\ (forall issues, RecordInsightInputSchema given = inl issues ->
        rejected (js "record_insight") issues)
  /\ (forall issues, InitFactsSystemInputSchema given = inl issues ->
        rejected (js "init_facts_system") issues).
Proof.
  intros call given rejected. subst call rejected. cbv beta.
  assert (H1 : forall t, getTool (js "how_to_solve")
                 (tools (S:=S) toLowerCase now dateNow cwd zodMessage factsManager fileManager
                    knowledgeTemplate userCommandTemplate getAgentTemplate
                    generateClaudeMdContent insightTemplate) = t ->
               t = Some (howToSolve toLowerCase now zodMessage factsManager)).
  { intros t <-. unfold tools. cbn [getTool]. unfold eqb_str.
    by rewrite bool_decide_true by done. }
  assert (H2 : forall t, getTool (js "record_insight")
                 (tools (S:=S) toLowerCase now dateNow cwd zodMessage factsManager fileManager
                    knowledgeTemplate userCommandTemplate getAgentTemplate
                    generateClaudeMdContent insightTemplate) = t ->
               t = Some (recordInsightTool toLowerCase now dateNow zodMessage factsManager)).
  { intros t <-. unfold tools. cbn [getTool]. unfold eqb_str.
    rewrite bool_decide_false by (by vm_compute).
    by rewrite bool_decide_true by done. }
  assert (H3 : forall t, getTool (js "init_facts_system")
                 (tools (S:=S) toLowerCase now dateNow cwd zodMessage factsManager fileManager
                    knowledgeTemplate userCommandTemplate getAgentTemplate
                    generateClaudeMdContent insightTemplate) = t ->
               t = Some (initFactsSystem now cwd zodMessage factsManager fileManager
                           knowledgeTemplate userCommandTemplate getAgentTemplate
                           generateClaudeMdContent insightTemplate)).
  { intros t <-. unfold tools. cbn [getTool]. unfold eqb_str.
    rewrite !bool_decide_false by (by vm_compute).
    by rewrite bool_decide_true by done. }
  split; [|split; [|split; [|split]]].
  - intros Hname. unfold toolNames in Hname.
    apply not_elem_of_cons in Hname as [Ha Hname].
    apply not_elem_of_cons in Hname as [Hb Hname].
    apply not_elem_of_cons in Hname as [Hc _].
    unfold callTool, tools. cbn [getTool]. unfold eqb_str.
    rewrite (bool_decide_false _ Ha), (bool_decide_false _ Hb), (bool_decide_false _ Hc).
    reflexivity.
  - intros Hname. unfold toolNames in Hname.
    apply elem_of_cons in Hname as [->|Hname];
      [|apply elem_of_cons in Hname as [->|Hname];
        [|apply elem_of_cons in Hname as [->|Hname]; [|by apply elem_of_nil in Hname]]].
    + rewrite (callTool_known _ _ _ _ _ _ _ _ _ _ _ _ _ _ _ _ (H1 _ eq_refl)).
      apply handled_returns.
    + rewrite (callTool_known _ _ _ _ _ _ _ _ _ _ _ _ _ _ _ _ (H2 _ eq_refl)).
      apply handled_returns.
    + rewrite (callTool_known _ _ _ _ _ _ _ _ _ _ _ _ _ _ _ _ (H3 _ eq_refl)).
      apply handled_returns.
  - intros issues Hparse.
    rewrite (callTool_known _ _ _ _ _ _ _ _ _ _ _ _ _ _ _ _ (H1 _ eq_refl)).
    unfold howToSolve. fold given. by apply rejected_reported.
  - intros issues Hparse.
    rewrite (callTool_known _ _ _ _ _ _ _ _ _ _ _ _ _ _ _ _ (H2 _ eq_refl)).
    unfold recordInsightTool. fold given. by apply rejected_reported.
  - intros issues Hparse.
    rewrite (callTool_known _ _ _ _ _ _ _ _ _ _ _ _ _ _ _ _ (H3 _ eq_refl)).
    unfold initFactsSystem. fold given. by apply rejected_reported.
Qed.

End ServerFacts.
